(** * Mercury Connect: the signaling / session coordination core

    A shallow embedding of [server/db.ts] (credential utility and session
    store access) and of the [session], [signaling] and [calendar] routers of
    [server/routers.ts], followed by the properties of the specification that
    concern them.

    Conventions.
    - The [sessions] table is a finite map from the unique [sessionId]
      column to the row; [UPDATE ... WHERE sessionId = ?] is [alter].
    - Every procedure runs in the monad [M]: it threads the [World] (tables,
      audit log, notifier outbox, trace of store calls) and ends in a value
      or in the error it throws.
    - [new Date()] is the field [now] of the request context, a number of
      milliseconds like every other timestamp.
    - A text column that holds [JSON.stringify v] is represented by [v]. *)

From Stdlib Require Import ZArith String Ascii List Bool Lia.
From stdpp Require Import gmap strings list fin_maps sorting.
Import ListNotations.

Local Open Scope Z_scope.

(* ===================================================================== *)
(** ** SHA-256 (FIPS 180-4), as used through [crypto.createHash('sha256')] *)
(* ===================================================================== *)

Module Sha256.

Definition mask32 : Z := 2 ^ 32 - 1.
Definition w32 (x : Z) : Z := Z.land x mask32.
Definition add32 (x y : Z) : Z := w32 (x + y).
Definition rotr (n x : Z) : Z :=
  Z.lor (Z.shiftr x n) (w32 (Z.shiftl x (32 - n))).
Definition not32 (x : Z) : Z := Z.lxor x mask32.

Definition Ch (x y z : Z) : Z := Z.lxor (Z.land x y) (Z.land (not32 x) z).
Definition Maj (x y z : Z) : Z :=
  Z.lxor (Z.lxor (Z.land x y) (Z.land x z)) (Z.land y z).
Definition bigSigma0 (x : Z) : Z := Z.lxor (Z.lxor (rotr 2 x) (rotr 13 x)) (rotr 22 x).
Definition bigSigma1 (x : Z) : Z := Z.lxor (Z.lxor (rotr 6 x) (rotr 11 x)) (rotr 25 x).
Definition smallSigma0 (x : Z) : Z := Z.lxor (Z.lxor (rotr 7 x) (rotr 18 x)) (Z.shiftr x 3).
Definition smallSigma1 (x : Z) : Z := Z.lxor (Z.lxor (rotr 17 x) (rotr 19 x)) (Z.shiftr x 10).

(** The round constants are the fractional parts of the square and cube
    roots of the first primes; they are computed rather than tabulated. *)
Definition is_prime (p : Z) : bool :=
  (1 <? p) && forallb (fun d => negb (p mod d =? 0)) (map Z.of_nat (seq 2 (Z.to_nat p - 2))).

Definition primes64 : list Z :=
  Eval vm_compute in filter (fun p => is_prime p = true) (map Z.of_nat (seq 2 310)).

Fixpoint icbrt_bits (bits : nat) (n r : Z) : Z :=
  match bits with
  | O => r
  | S b =>
      let c := r + 2 ^ Z.of_nat b in
      icbrt_bits b n (if c * c * c <=? n then c else r)
  end.
Definition icbrt (n : Z) : Z := icbrt_bits 40 n 0.

Definition K256 : list Z :=
  Eval vm_compute in map (fun p => w32 (icbrt (p * 2 ^ 96))) primes64.
Definition H256 : list Z :=
  Eval vm_compute in map (fun p => w32 (Z.sqrt (p * 2 ^ 64))) (firstn 8 primes64).

(** Padding: a 1 bit, zeros up to 56 mod 64, the bit length on 8 bytes. *)
Fixpoint be_bytes (n : nat) (x : Z) : list Z :=
  match n with
  | O => []
  | S k => Z.land (Z.shiftr x (8 * Z.of_nat k)) 255 :: be_bytes k x
  end.

Definition pad (msg : list Z) : list Z :=
  let len := Z.of_nat (length msg) in
  msg ++ [128] ++ repeat 0 (Z.to_nat ((55 - len) mod 64)) ++ be_bytes 8 (8 * len).

Fixpoint be_words (fuel : nat) (bs : list Z) : list Z :=
  match fuel, bs with
  | S f, b0 :: b1 :: b2 :: b3 :: rest =>
      (Z.shiftl b0 24 + Z.shiftl b1 16 + Z.shiftl b2 8 + b3) :: be_words f rest
  | _, _ => []
  end.

(** The schedule is kept most recent word first. *)
Fixpoint schedule (n : nat) (rev_w : list Z) : list Z :=
  match n with
  | O => rev_w
  | S k =>
      let w := add32 (add32 (smallSigma1 (nth 1 rev_w 0)) (nth 6 rev_w 0))
                     (add32 (smallSigma0 (nth 14 rev_w 0)) (nth 15 rev_w 0)) in
      schedule k (w :: rev_w)
  end.

Record regs := { ra : Z; rb : Z; rc : Z; rd : Z; re : Z; rf : Z; rg : Z; rh : Z }.

Definition round (s : regs) (kw : Z * Z) : regs :=
  let t1 := add32 (add32 (add32 (rh s) (bigSigma1 (re s)))
                         (add32 (Ch (re s) (rf s) (rg s)) (fst kw))) (snd kw) in
  let t2 := add32 (bigSigma0 (ra s)) (Maj (ra s) (rb s) (rc s)) in
  {| ra := add32 t1 t2; rb := ra s; rc := rb s; rd := rc s;
     re := add32 (rd s) t1; rf := re s; rg := rf s; rh := rg s |}.

Definition compress (h : regs) (block : list Z) : regs :=
  let w := rev (schedule 48 (rev block)) in
  let s := fold_left round (combine K256 w) h in
  {| ra := add32 (ra h) (ra s); rb := add32 (rb h) (rb s);
     rc := add32 (rc h) (rc s); rd := add32 (rd h) (rd s);
     re := add32 (re h) (re s); rf := add32 (rf h) (rf s);
     rg := add32 (rg h) (rg s); rh := add32 (rh h) (rh s) |}.

Fixpoint blocks (fuel : nat) (ws : list Z) : list (list Z) :=
  match fuel, ws with
  | _, [] => []
  | O, _ => []
  | S f, _ => firstn 16 ws :: blocks f (skipn 16 ws)
  end.

Definition init : regs :=
  {| ra := nth 0 H256 0; rb := nth 1 H256 0; rc := nth 2 H256 0; rd := nth 3 H256 0;
     re := nth 4 H256 0; rf := nth 5 H256 0; rg := nth 6 H256 0; rh := nth 7 H256 0 |}.

Definition digest_words (msg : list Z) : list Z :=
  let p := pad msg in
  let ws := be_words (length p) p in
  let s := fold_left compress (blocks (length ws) ws) init in
  [ra s; rb s; rc s; rd s; re s; rf s; rg s; rh s].

Definition hex_digit (d : Z) : ascii :=
  ascii_of_nat (Z.to_nat (if d <? 10 then 48 + d else 87 + d)).

Fixpoint hex_of (digits : nat) (x : Z) : string :=
  match digits with
  | O => EmptyString
  | S k => String (hex_digit (Z.land (Z.shiftr x (4 * Z.of_nat k)) 15)) (hex_of k x)
  end.

Definition bytes_of_string (s : string) : list Z :=
  map (fun c => Z.of_nat (nat_of_ascii c)) (list_ascii_of_string s).

(** [createHash('sha256').update(s).digest('hex')]; a [string] here is the
    byte sequence of the UTF-8 encoding that [update] hashes. *)
Definition hex (s : string) : string :=
  fold_right (fun w acc => String.append (hex_of 8 w) acc) EmptyString
             (digest_words (bytes_of_string s)).

End Sha256.

(* ===================================================================== *)
(** ** Data model ([drizzle/schema.ts]) *)
(* ===================================================================== *)

(** JSON values: what [JSON.parse] returns and [JSON.stringify] prints. *)
#[warnings="-register-all"]
Inductive json : Type :=
| JNull
| JBool (b : bool)
| JNum (n : Z)
| JStr (s : string)
| JArr (items : list json)
| JObj (fields : list (string * json)).

Inductive Status : Type := Waiting | Connecting | Connected | Disconnected | Expired.

#[global] Instance Status_eq_dec : EqDecision Status.
Proof. solve_decision. Defined.

Inductive Role : Type := RoleUser | RoleAdmin.

(** A row of [users]; its [id] and [name] columns are [user_id] and
    [user_name] here. *)
Record User : Type := {
  user_id : Z;
  openId : string;
  user_name : option string;
  email : option string;
  role : Role;
}.

(** A row of [sessions].  [updatedAt] is maintained by the database alone
    and read by no procedure; it is left out.  The three flags default to
    [false] and are never written as [null]. *)
Record Session : Type := {
  id : Z;
  sessionId : string;
  passwordHash : string;
  status : Status;
  hostUserId : option Z;
  clientName : option string;
  clientIp : option string;
  hostOffer : option string;
  clientAnswer : option string;
  clientOffer : option json;
  hostAnswer : option json;
  hostIceCandidates : option (list json);
  clientIceCandidates : option (list json);
  startNotificationSent : bool;
  endNotificationSent : bool;
  autoRecord : bool;
  calendarEventId : option string;
  calendarSource : option string;
  createdAt : Z;
  connectedAt : option Z;
  endedAt : option Z;
  expiresAt : Z;
}.

Inductive ActivityType : Type :=
| session_created | client_joined | host_connected | control_started
| control_ended | clipboard_sync | disconnected | reconnected
| session_ended | client_disconnected.

Record SessionLog : Type := {
  log_sessionId : Z;
  activityType : ActivityType;
  details : option json;
  log_createdAt : Z;
}.

Record Notification : Type := { title : string; content : string }.

(** One column assignment of an [UPDATE ... SET].  An object passed to
    [.set] is the list of its defined keys: a key whose value is
    [undefined] is not part of the statement. *)
Inductive Assign : Type :=
| SetStatus (v : Status)
| SetConnectedAt (v : Z)
| SetEndedAt (v : Z)
| SetHostOffer (v : string)
| SetClientAnswer (v : string)
| SetClientOffer (v : json)
| SetHostAnswer (v : json)
| SetHostIceCandidates (v : option (list json))
| SetClientIceCandidates (v : option (list json))
| SetClientName (v : string)
| SetClientIp (v : string)
| SetStartNotificationSent (v : bool)
| SetEndNotificationSent (v : bool).

Definition assign (a : Assign) (s : Session) : Session :=
  {| id := id s;
     sessionId := sessionId s;
     passwordHash := passwordHash s;
     status := match a with SetStatus v => v | _ => status s end;
     hostUserId := hostUserId s;
     clientName := match a with SetClientName v => Some v | _ => clientName s end;
     clientIp := match a with SetClientIp v => Some v | _ => clientIp s end;
     hostOffer := match a with SetHostOffer v => Some v | _ => hostOffer s end;
     clientAnswer := match a with SetClientAnswer v => Some v | _ => clientAnswer s end;
     clientOffer := match a with SetClientOffer v => Some v | _ => clientOffer s end;
     hostAnswer := match a with SetHostAnswer v => Some v | _ => hostAnswer s end;
     hostIceCandidates :=
       match a with SetHostIceCandidates v => v | _ => hostIceCandidates s end;
     clientIceCandidates :=
       match a with SetClientIceCandidates v => v | _ => clientIceCandidates s end;
     startNotificationSent :=
       match a with SetStartNotificationSent v => v | _ => startNotificationSent s end;
     endNotificationSent :=
       match a with SetEndNotificationSent v => v | _ => endNotificationSent s end;
     autoRecord := autoRecord s;
     calendarEventId := calendarEventId s;
     calendarSource := calendarSource s;
     createdAt := createdAt s;
     connectedAt := match a with SetConnectedAt v => Some v | _ => connectedAt s end;
     endedAt := match a with SetEndedAt v => Some v | _ => endedAt s end;
     expiresAt := expiresAt s |}.

Definition assignAll (data : list Assign) (s : Session) : Session :=
  fold_left (fun acc a => assign a acc) data s.

(** [key: v] of an object literal, absent when [v] is [undefined]. *)
Definition key {A} (f : A -> Assign) (v : option A) : list Assign :=
  match v with Some x => [f x] | None => [] end.

(** The statements that reach the database. *)
Inductive Query : Type :=
| SelectUserById (uid : option Z)
| SelectUserByEmail (mail : string)
| InsertSession (sid : string)
| SelectSession (sid : string)
| UpdateSession (sid : string) (data : list Assign)
| InsertSessionLog (rowId : Z) (kind : ActivityType).

(** The database ([getDb] returns no handle when none is configured), the
    notifier's outbox and the trace of the calls that reached the store. *)
Record World : Type := {
  dbAvailable : bool;
  sessions : gmap string Session;
  nextRowId : Z;
  users : list User;
  sessionLogs : list SessionLog;
  outbox : list Notification;
  calls : list Query;
}.

(** The errors thrown by the procedures, named after the taxonomy of the
    specification. *)
Inductive Error : Type :=
| NotFound
| Unauthorized
| NotFoundOrUnauthorized
| ErrExpired
| Ended
| InvalidPassword
| InvalidKey
| HostNotFound
| CreateFailed
| CreateMeetingFailed
| Unauthenticated
| DuplicateEntry.

(** The text given to [new Error] in [routers.ts]; the last two errors are
    raised by the procedure middleware and by the database. *)
Definition message (e : Error) : option string :=
  match e with
  | NotFound => Some "Session not found"
  | Unauthorized => Some "Unauthorized"
  | NotFoundOrUnauthorized => Some "Session not found or unauthorized"
  | ErrExpired => Some "Session has expired"
  | Ended => Some "Session has ended"
  | InvalidPassword => Some "Invalid password"
  | InvalidKey => Some "Invalid API key"
  | HostNotFound =>
      Some "Host user not found. They must have logged into Mercury Connect at least once."
  | CreateFailed => Some "Failed to create session"
  | CreateMeetingFailed => Some "Failed to create meeting session"
  | Unauthenticated | DuplicateEntry => None
  end%string.

Inductive Result (A : Type) : Type :=
| Ok (a : A)
| Err (e : Error).
Arguments Ok {A} a.
Arguments Err {A} e.

(** The procedure monad: state that survives a throw, and one error. *)
Definition M (A : Type) : Type := World -> Result A * World.

Definition ret {A} (a : A) : M A := fun w => (Ok a, w).
Definition throw {A} (e : Error) : M A := fun w => (Err e, w).
Definition bind {A B} (m : M A) (k : A -> M B) : M B :=
  fun w => match m w with
           | (Ok a, w') => k a w'
           | (Err e, w') => (Err e, w')
           end.

Declare Scope proc_scope.
Delimit Scope proc_scope with proc.
Notation "x <- m ;; k" := (bind m (fun x => k))
  (at level 100, m at next level, right associativity) : proc_scope.
Notation "m ;; k" := (bind m (fun _ => k))
  (at level 100, right associativity) : proc_scope.
Local Open Scope proc_scope.

(** [if (c) { m }] *)
Definition when (c : bool) (m : M unit) : M unit := if c then m else ret tt.

Definition record (c : Query) (w : World) : World :=
  {| dbAvailable := dbAvailable w;
     sessions := sessions w; nextRowId := nextRowId w; users := users w;
     sessionLogs := sessionLogs w; outbox := outbox w; calls := calls w ++ [c] |}.

Definition onSessions (f : gmap string Session -> gmap string Session) (w : World) : World :=
  {| dbAvailable := dbAvailable w;
     sessions := f (sessions w); nextRowId := nextRowId w; users := users w;
     sessionLogs := sessionLogs w; outbox := outbox w; calls := calls w |}.

Definition addLog (l : SessionLog) (w : World) : World :=
  {| dbAvailable := dbAvailable w;
     sessions := sessions w; nextRowId := nextRowId w; users := users w;
     sessionLogs := sessionLogs w ++ [l]; outbox := outbox w; calls := calls w |}.

Definition send (n : Notification) (w : World) : World :=
  {| dbAvailable := dbAvailable w;
     sessions := sessions w; nextRowId := nextRowId w; users := users w;
     sessionLogs := sessionLogs w; outbox := outbox w ++ [n]; calls := calls w |}.

Definition bumpRowId (w : World) : World :=
  {| dbAvailable := dbAvailable w;
     sessions := sessions w; nextRowId := nextRowId w + 1; users := users w;
     sessionLogs := sessionLogs w; outbox := outbox w; calls := calls w |}.

(** Process environment and request context.  [entropy i] is the [i]-th
    byte that [crypto.randomBytes] hands out while the request runs. *)
Record Env : Type := {
  cookieSecret : string;
  MERCURY_CONNECT_URL : option string;
}.

Record Ctx : Type := {
  env : Env;
  user : option User;
  xForwardedFor : option string;
  remoteAddress : option string;
  now : Z;
  entropy : nat -> Z;
}.

(* ===================================================================== *)
(** ** JavaScript helpers *)
(* ===================================================================== *)

(** Truthiness of a [string | undefined | null]. *)
Definition truthy (o : option string) : bool :=
  match o with
  | Some s => negb (String.eqb s EmptyString)
  | None => false
  end.

(** [a || b] on optional strings, with a string as last resort. *)
Definition orElse (o : option string) (dflt : string) : string :=
  match o with
  | Some s => if String.eqb s EmptyString then dflt else s
  | None => dflt
  end.

(** [s.split(',')[0]] *)
Fixpoint beforeComma (s : string) : string :=
  match s with
  | EmptyString => EmptyString
  | String c rest =>
      if Ascii.eqb c ","%char then EmptyString else String c (beforeComma rest)
  end.

Definition toUpperChar (c : ascii) : ascii :=
  let n := nat_of_ascii c in
  if ((97 <=? n) && (n <=? 122))%nat then ascii_of_nat (n - 32) else c.

Fixpoint toUpperCase (s : string) : string :=
  match s with
  | EmptyString => EmptyString
  | String c rest => String (toUpperChar c) (toUpperCase rest)
  end.

(** [crypto.randomBytes(n).toString('hex')], reading the entropy source
    from position [from]. *)
Definition randomHex (rnd : nat -> Z) (from n : nat) : string :=
  fold_right (fun i acc => String.append (Sha256.hex_of 2 (rnd i mod 256)) acc)
             EmptyString (seq from n).

Definition dquote : string := String (ascii_of_nat 34) EmptyString.

(** [JSON.stringify] of an object literal drops the keys whose value is
    [undefined]. *)
Definition jfield (name : string) (v : option json) : list (string * json) :=
  match v with Some j => [(name, j)] | None => [] end.

(* ===================================================================== *)
(** ** Credential utility and session store ([server/db.ts]) *)
(* ===================================================================== *)

Definition getDb : M bool := fun w => (Ok (dbAvailable w), w).

(** *** Statements *)

(** The argument is [session.hostUserId!]: it is [null] at run time when
    the column is, and [id = NULL] selects no row. *)
Definition selectUserById (uid : option Z) : M (option User) :=
  fun w => (Ok (List.find (fun u => bool_decide (Some (user_id u) = uid)) (users w)),
            record (SelectUserById uid) w).

Definition selectUserByEmail (mail : string) : M (option User) :=
  fun w => (Ok (List.find (fun u => bool_decide (email u = Some mail)) (users w)),
            record (SelectUserByEmail mail) w).

Definition selectSession (sid : string) : M (option Session) :=
  fun w => (Ok (sessions w !! sid), record (SelectSession sid) w).

(** [sessionId] is [unique]: a second row with the same value is refused. *)
Definition insertSession (row : Z -> Session) : M unit :=
  fun w =>
    let r := row (nextRowId w) in
    let w' := record (InsertSession (sessionId r)) w in
    match sessions w !! sessionId r with
    | Some _ => (Err DuplicateEntry, w')
    | None => (Ok tt, bumpRowId (onSessions (insert (sessionId r) r) w'))
    end.

Definition updateSession (sid : string) (data : list Assign) : M unit :=
  fun w => (Ok tt, onSessions (alter (assignAll data) sid) (record (UpdateSession sid data) w)).

Definition insertSessionLog (l : SessionLog) : M unit :=
  fun w => (Ok tt, addLog l (record (InsertSessionLog (log_sessionId l) (activityType l)) w)).

(** *** Users *)

Definition getUserById (uid : option Z) : M (option User) :=
  db <- getDb ;;
  if negb db then ret None else selectUserById uid.

Definition getUserByEmail (mail : string) : M (option User) :=
  db <- getDb ;;
  if negb db then ret None else selectUserByEmail mail.

(** *** Credentials *)

Definition generateSessionId (rnd : nat -> Z) (pos : nat) : string :=
  randomHex rnd pos 12.

Definition generateSessionPassword (rnd : nat -> Z) (pos : nat) : string :=
  toUpperCase (randomHex rnd pos 4).

Definition hashPassword (password : string) : string := Sha256.hex password.

Definition verifyPassword (password hash : string) : bool :=
  String.eqb (hashPassword password) hash.

(** *** Sessions *)

Definition logSessionActivity (c : Ctx) (rowId : Z) (kind : ActivityType)
    (det : option json) : M unit :=
  db <- getDb ;;
  if negb db then ret tt else
  insertSessionLog {| log_sessionId := rowId; activityType := kind;
                      details := det; log_createdAt := now c |}.

Definition newSession (c : Ctx) (sid hash : string) (host : Z) (expires : Z)
    (rec : bool) (calId calSrc : option string) (rowId : Z) : Session :=
  {| id := rowId; sessionId := sid; passwordHash := hash; status := Waiting;
     hostUserId := Some host; clientName := None; clientIp := None;
     hostOffer := None; clientAnswer := None; clientOffer := None; hostAnswer := None;
     hostIceCandidates := None; clientIceCandidates := None;
     startNotificationSent := false; endNotificationSent := false;
     autoRecord := rec; calendarEventId := calId; calendarSource := calSrc;
     createdAt := now c; connectedAt := None; endedAt := None; expiresAt := expires |}.

(** [v || null] *)
Definition orNull (o : option string) : option string :=
  if truthy o then o else None.

(** [expiresInMinutes] is taken among the integers. *)
Definition createSession (c : Ctx) (hostUserId expiresInMinutes : Z) (autoRecord : bool)
    : M (option (Session * string)) :=
  db <- getDb ;;
  if negb db then ret None else
  let sessionId := generateSessionId (entropy c) 0 in
  let password := generateSessionPassword (entropy c) 12 in
  let passwordHash := hashPassword password in
  let expiresAt := now c + expiresInMinutes * 60 * 1000 in
  insertSession (newSession c sessionId passwordHash hostUserId expiresAt autoRecord None None) ;;
  result <- selectSession sessionId ;;
  match result with
  | None => ret None
  | Some row =>
      logSessionActivity c (id row) session_created
        (Some (JObj [("hostUserId"%string, JNum hostUserId)])) ;;
      ret (Some (row, password))
  end.

Definition createCalendarSession (c : Ctx) (hostUserId expiresInMinutes : Z)
    (calendarEventId calendarSource : option string) : M (option (Session * string)) :=
  db <- getDb ;;
  if negb db then ret None else
  let sessionId := generateSessionId (entropy c) 0 in
  let password := generateSessionPassword (entropy c) 12 in
  let passwordHash := hashPassword password in
  let expiresAt := now c + expiresInMinutes * 60 * 1000 in
  insertSession (newSession c sessionId passwordHash hostUserId expiresAt false
                            (orNull calendarEventId) (orNull calendarSource)) ;;
  result <- selectSession sessionId ;;
  match result with
  | None => ret None
  | Some row =>
      logSessionActivity c (id row) session_created
        (Some (JObj ([("hostUserId"%string, JNum hostUserId)]
                     ++ jfield "calendarEventId" (JStr <$> calendarEventId)
                     ++ jfield "calendarSource" (JStr <$> calendarSource)))) ;;
      ret (Some (row, password))
  end.

Definition getSessionBySessionId (sessionId : string) : M (option Session) :=
  db <- getDb ;;
  if negb db then ret None else selectSession sessionId.

Definition updateSessionStatus (c : Ctx) (sessionId : string) (st : Status) : M unit :=
  db <- getDb ;;
  if negb db then ret tt else
  let updateData :=
    SetStatus st ::
    match st with
    | Connected => [SetConnectedAt (now c)]
    | Disconnected | Expired => [SetEndedAt (now c)]
    | _ => []
    end in
  updateSession sessionId updateData.

Definition updateSessionSignaling (sessionId : string) (data : list Assign) : M unit :=
  db <- getDb ;;
  if negb db then ret tt else updateSession sessionId data.

(** ['start' | 'end'] *)
Inductive NotificationKind : Type := NStart | NEnd.

Definition markNotificationSent (sessionId : string) (type : NotificationKind) : M unit :=
  db <- getDb ;;
  if negb db then ret tt else
  updateSession sessionId
    [match type with
     | NStart => SetStartNotificationSent true
     | NEnd => SetEndNotificationSent true
     end].

(* ===================================================================== *)
(** ** Collaborators outside the sources *)
(* ===================================================================== *)

(** Modelled from the spec: [_core/notification.ts] is not among the
    sources.  The specification treats the notifier as an external
    collaborator to which lifecycle notifications are delegated; a dispatch
    is recorded in the outbox and reported as delivered. *)
Definition notifyOwner (t body : string) : M bool :=
  fun w => (Ok true, send {| title := t; content := body |} w).

(** Modelled from the spec: [_core/trpc.ts] is not among the sources.  A
    protected procedure ("host session" in the interface table) runs its
    body only for an authenticated caller, who is then [ctx.user]. *)
Definition protectedProcedure {A} (c : Ctx) (body : User -> M A) : M A :=
  match user c with
  | Some u => body u
  | None => throw Unauthenticated
  end.

(* ===================================================================== *)
(** ** Routers ([server/routers.ts]) *)
(* ===================================================================== *)

Definition getCalendarApiKey (e : Env) : string :=
  substring 0 32 (Sha256.hex ("calendar-api-" +:+ cookieSecret e)).

(** [session.hostUserId !== ctx.user.id] for a nullable column. *)
Definition differs (h : option Z) (uid : Z) : bool :=
  match h with
  | Some x => negb (x =? uid)
  | None => true
  end.

(** [ctx.user?.id !== session.hostUserId] *)
Definition differsOpt (u : option User) (h : option Z) : bool :=
  match u with
  | Some x => differs h (user_id x)
  | None => true
  end.

(** *** session *)

Record CreateOutput : Type := {
  co_sessionId : string;
  co_password : string;
  co_expiresAt : Z;
  co_autoRecord : bool;
}.

Definition session_create (c : Ctx) (input : option (Z * bool)) : M CreateOutput :=
  protectedProcedure c (fun u =>
    result <- createSession c (user_id u)
                (from_option fst 60 input) (from_option snd false input) ;;
    match result with
    | None => throw CreateFailed
    | Some (row, password) =>
        ret {| co_sessionId := sessionId row; co_password := password;
               co_expiresAt := expiresAt row; co_autoRecord := autoRecord row |}
    end).

Definition session_get (c : Ctx) (sid : string) : M Session :=
  protectedProcedure c (fun u =>
    session <- getSessionBySessionId sid ;;
    match session with
    | None => throw NotFound
    | Some session =>
        if differs (hostUserId session) (user_id u) then throw Unauthorized
        else ret session
    end).

(** The end notification shared by [session.end], [clientDisconnect] and
    [updateStatus]: sent unless the row that was read says it already was. *)
Definition notifyEnd (session : Session) (sid body : string) : M unit :=
  when (negb (endNotificationSent session))
       (notifyOwner "Remote Session Ended" body ;;
        markNotificationSent sid NEnd).

Definition session_end (c : Ctx) (sid : string) : M bool :=
  protectedProcedure c (fun u =>
    session <- getSessionBySessionId sid ;;
    match session with
    | None => throw NotFoundOrUnauthorized
    | Some session =>
        if differs (hostUserId session) (user_id u) then throw NotFoundOrUnauthorized
        else
          updateSessionStatus c sid Disconnected ;;
          logSessionActivity c (id session) session_ended
            (Some (JObj [("endedBy"%string, JStr "host")])) ;;
          notifyEnd session sid ("Session " +:+ sid +:+ " has been ended by the host.") ;;
          ret true
    end).

(** *** signaling *)

Inductive Side : Type := Host | Client.

Record JoinOutput : Type := {
  jo_success : bool;
  jo_sessionId : string;
  jo_hostOffer : option string;
}.

Definition signaling_join (c : Ctx) (sid password : string) (name : option string)
    : M JoinOutput :=
  session <- getSessionBySessionId sid ;;
  match session with
  | None => throw NotFound
  | Some session =>
      if bool_decide (status session = Expired) || (expiresAt session <? now c)
      then throw ErrExpired
      else if bool_decide (status session = Disconnected) then throw Ended
      else if negb (verifyPassword password (passwordHash session))
      then throw InvalidPassword
      else
        let clientIp :=
          orElse (xForwardedFor c) (orElse (remoteAddress c) "unknown") in
        updateSessionSignaling sid
          (key SetClientName name ++ [SetClientIp (beforeComma clientIp)]) ;;
        logSessionActivity c (id session) client_joined
          (Some (JObj (jfield "clientName" (JStr <$> name)
                       ++ [("clientIp"%string, JStr clientIp)]))) ;;
        when (negb (startNotificationSent session))
             (host <- getUserById (hostUserId session) ;;
              notifyOwner "New Remote Session Started"
                ("Client " +:+ dquote +:+ orElse name "Unknown" +:+ dquote
                 +:+ " has joined session " +:+ sid +:+ ". IP: " +:+ clientIp) ;;
              markNotificationSent sid NStart) ;;
        ret {| jo_success := true; jo_sessionId := sessionId session;
               jo_hostOffer := hostOffer session |}
  end.

Definition signaling_sendOffer (c : Ctx) (sid offer : string) : M bool :=
  protectedProcedure c (fun u =>
    session <- getSessionBySessionId sid ;;
    match session with
    | None => throw NotFoundOrUnauthorized
    | Some session =>
        if differs (hostUserId session) (user_id u) then throw NotFoundOrUnauthorized
        else
          updateSessionSignaling sid [SetHostOffer offer] ;;
          ret true
    end).

Definition signaling_sendAnswer (c : Ctx) (sid password answer : string) : M bool :=
  session <- getSessionBySessionId sid ;;
  match session with
  | None => throw NotFound
  | Some session =>
      if negb (verifyPassword password (passwordHash session)) then throw InvalidPassword
      else
        updateSessionSignaling sid [SetClientAnswer answer] ;;
        updateSessionStatus c sid Connected ;;
        logSessionActivity c (id session) host_connected (Some (JObj [])) ;;
        ret true
  end.

(** [input.password && !db.verifyPassword(input.password, hash)] for the
    optional password of the polling and candidate calls. *)
Definition passwordRejected (password : option string) (hash : string) : bool :=
  match password with
  | Some p => negb (String.eqb p EmptyString) && negb (verifyPassword p hash)
  | None => false
  end.

(** [session[field] ? JSON.parse(session[field]) : []] *)
Definition parsedOrEmpty (column : option (list json)) : list json :=
  match column with Some l => l | None => [] end.

Definition signaling_sendIceCandidate (c : Ctx) (sid : string) (password : option string)
    (candidate : string) (from : Side) : M bool :=
  session <- getSessionBySessionId sid ;;
  match session with
  | None => throw NotFound
  | Some session =>
      if match from with
         | Client => passwordRejected password (passwordHash session)
         | Host => false
         end
      then throw InvalidPassword
      else if match from with Host => differsOpt (user c) (hostUserId session)
                            | Client => false end
      then throw Unauthorized
      else
        let existing :=
          parsedOrEmpty (match from with
                         | Host => hostIceCandidates session
                         | Client => clientIceCandidates session
                         end) in
        let existing := existing ++ [JStr candidate] in
        updateSessionSignaling sid
          [match from with
           | Host => SetHostIceCandidates (Some existing)
           | Client => SetClientIceCandidates (Some existing)
           end] ;;
        ret true
  end.

Record SignalingData : Type := {
  sd_status : Status;
  sd_hostOffer : option string;
  sd_clientAnswer : option string;
  sd_hostIceCandidates : option (list json);
  sd_clientIceCandidates : option (list json);
  sd_clientName : option string;
  sd_autoRecord : bool;
}.

Definition signaling_getSignalingData (c : Ctx) (sid : string) (password : option string)
    (role : Side) : M SignalingData :=
  session <- getSessionBySessionId sid ;;
  match session with
  | None => throw NotFound
  | Some session =>
      if match role with
         | Client => passwordRejected password (passwordHash session)
         | Host => false
         end
      then throw InvalidPassword
      else if match role with Host => differsOpt (user c) (hostUserId session)
                            | Client => false end
      then throw Unauthorized
      else
        ret {| sd_status := status session;
               sd_hostOffer :=
                 match role with Client => hostOffer session | Host => None end;
               sd_clientAnswer :=
                 match role with Host => clientAnswer session | Client => None end;
               sd_hostIceCandidates :=
                 match role with Client => hostIceCandidates session | Host => None end;
               sd_clientIceCandidates :=
                 match role with Host => clientIceCandidates session | Client => None end;
               sd_clientName := clientName session;
               sd_autoRecord := autoRecord session |}
  end.

(** [offer] is [z.any()]: it may be left out, and [JSON.stringify] of
    [undefined] is [undefined]. *)
Definition signaling_sendOfferFromClient (c : Ctx) (sid : string) (offer : option json)
    (iceCandidates : option (list json)) : M bool :=
  session <- getSessionBySessionId sid ;;
  match session with
  | None => throw NotFound
  | Some _ =>
      updateSessionSignaling sid
        (key SetClientOffer offer ++ [SetClientIceCandidates iceCandidates]) ;;
      updateSessionStatus c sid Connecting ;;
      ret true
  end.

Definition signaling_sendAnswerFromHost (c : Ctx) (sid : string) (answer : option json)
    (iceCandidates : option (list json)) : M bool :=
  protectedProcedure c (fun u =>
    session <- getSessionBySessionId sid ;;
    match session with
    | None => throw NotFoundOrUnauthorized
    | Some session =>
        if differs (hostUserId session) (user_id u) then throw NotFoundOrUnauthorized
        else
          updateSessionSignaling sid
            (key SetHostAnswer answer ++ [SetHostIceCandidates iceCandidates]) ;;
          updateSessionStatus c sid Connected ;;
          ret true
    end).

Record AnswerOutput : Type := {
  ao_answer : option json;
  ao_iceCandidates : option (list json);
}.

Definition signaling_getAnswer (c : Ctx) (sid : string) : M AnswerOutput :=
  session <- getSessionBySessionId sid ;;
  match session with
  | None => throw NotFound
  | Some session =>
      match hostAnswer session with
      | None => ret {| ao_answer := None; ao_iceCandidates := None |}
      | Some a =>
          ret {| ao_answer := Some a;
                 ao_iceCandidates := Some (parsedOrEmpty (hostIceCandidates session)) |}
      end
  end.

Record OfferOutput : Type := {
  oo_offer : option json;
  oo_iceCandidates : option (list json);
  oo_clientName : option string;
}.

Definition signaling_getOffer (c : Ctx) (sid : string) : M OfferOutput :=
  protectedProcedure c (fun u =>
    session <- getSessionBySessionId sid ;;
    match session with
    | None => throw NotFoundOrUnauthorized
    | Some session =>
        if differs (hostUserId session) (user_id u) then throw NotFoundOrUnauthorized
        else
          match clientOffer session with
          | None => ret {| oo_offer := None; oo_iceCandidates := None;
                           oo_clientName := clientName session |}
          | Some o =>
              ret {| oo_offer := Some o;
                     oo_iceCandidates := Some (parsedOrEmpty (clientIceCandidates session));
                     oo_clientName := clientName session |}
          end
    end).

Definition signaling_clientDisconnect (c : Ctx) (sid : string) : M bool :=
  session <- getSessionBySessionId sid ;;
  match session with
  | None => throw NotFound
  | Some session =>
      updateSessionStatus c sid Disconnected ;;
      logSessionActivity c (id session) client_disconnected (Some (JObj [])) ;;
      notifyEnd session sid ("Client disconnected from session " +:+ sid +:+ ".") ;;
      ret true
  end.

(** [status] is [z.enum(['connected', 'disconnected'])]. *)
Inductive StatusUpdate : Type := ToConnected | ToDisconnected.

Definition statusOf (u : StatusUpdate) : Status :=
  match u with ToConnected => Connected | ToDisconnected => Disconnected end.

Definition signaling_updateStatus (c : Ctx) (sid : string) (password : option string)
    (st : StatusUpdate) : M bool :=
  session <- getSessionBySessionId sid ;;
  match session with
  | None => throw NotFound
  | Some session =>
      updateSessionStatus c sid (statusOf st) ;;
      match st with
      | ToDisconnected =>
          logSessionActivity c (id session) disconnected (Some (JObj [])) ;;
          notifyEnd session sid ("Session " +:+ sid +:+ " has been disconnected.")
      | ToConnected => ret tt
      end ;;
      ret true
  end.

(** *** calendar *)

Record MeetingOutput : Type := {
  mo_success : bool;
  mo_sessionId : string;
  mo_password : string;
  joinUrl : string;
  hostUrl : string;
  mo_expiresAt : Z;
}.

Definition baseUrl (e : Env) : string :=
  orElse (MERCURY_CONNECT_URL e) "https://connect.mercuryholdings.co".

Definition calendar_createMeeting (c : Ctx) (apiKey hostEmail : string)
    (expiresInMinutes : Z) (calendarEventId calendarSource : option string)
    : M MeetingOutput :=
  if negb (String.eqb apiKey (getCalendarApiKey (env c))) then throw InvalidKey
  else
    host <- getUserByEmail hostEmail ;;
    match host with
    | None => throw HostNotFound
    | Some host =>
        result <- createCalendarSession c (user_id host) expiresInMinutes
                    calendarEventId calendarSource ;;
        match result with
        | None => throw CreateMeetingFailed
        | Some (row, password) =>
            let base := baseUrl (env c) in
            ret {| mo_success := true;
                   mo_sessionId := sessionId row;
                   mo_password := password;
                   joinUrl := base +:+ "/join/" +:+ sessionId row +:+ "?p=" +:+ password;
                   hostUrl := base +:+ "/viewer/" +:+ sessionId row;
                   mo_expiresAt := expiresAt row |}
        end
    end.

Record MeetingStatus : Type := {
  ms_sessionId : string;
  ms_status : Status;
  ms_clientName : option string;
  ms_createdAt : Z;
  ms_connectedAt : option Z;
  ms_endedAt : option Z;
  ms_expiresAt : Z;
}.

Definition calendar_getMeetingStatus (c : Ctx) (apiKey sid : string) : M MeetingStatus :=
  if negb (String.eqb apiKey (getCalendarApiKey (env c))) then throw InvalidKey
  else
    session <- getSessionBySessionId sid ;;
    match session with
    | None => throw NotFound
    | Some session =>
        ret {| ms_sessionId := sessionId session; ms_status := status session;
               ms_clientName := clientName session; ms_createdAt := createdAt session;
               ms_connectedAt := connectedAt session; ms_endedAt := endedAt session;
               ms_expiresAt := expiresAt session |}
    end.

(* ===================================================================== *)
(** ** Worlds, runs and the vocabulary of the properties *)
(* ===================================================================== *)

(** A session is stored when the database answers and holds its row. *)
Definition stored (w : World) (sid : string) (s : Session) : Prop :=
  dbAvailable w = true /\ sessions w !! sid = Some s.

Definition outcome {A} (r : Result A * World) : Result A := fst r.
Definition after {A} (r : Result A * World) : World := snd r.

(** The operations that act on an existing session, with the context and
    the input of each call. *)
Inductive Op : Type :=
| OpJoin (c : Ctx) (sid password : string) (name : option string)
| OpSendOffer (c : Ctx) (sid offer : string)
| OpSendAnswer (c : Ctx) (sid password answer : string)
| OpSendIceCandidate (c : Ctx) (sid : string) (password : option string)
    (candidate : string) (from : Side)
| OpSendOfferFromClient (c : Ctx) (sid : string) (offer : option json)
    (iceCandidates : option (list json))
| OpSendAnswerFromHost (c : Ctx) (sid : string) (answer : option json)
    (iceCandidates : option (list json))
| OpClientDisconnect (c : Ctx) (sid : string)
| OpUpdateStatus (c : Ctx) (sid : string) (password : option string) (st : StatusUpdate)
| OpEnd (c : Ctx) (sid : string).

(** The world a call leaves behind, whether it returns or throws. *)
Definition step (op : Op) (w : World) : World :=
  match op with
  | OpJoin c sid password name => after (signaling_join c sid password name w)
  | OpSendOffer c sid offer => after (signaling_sendOffer c sid offer w)
  | OpSendAnswer c sid password answer => after (signaling_sendAnswer c sid password answer w)
  | OpSendIceCandidate c sid password candidate from =>
      after (signaling_sendIceCandidate c sid password candidate from w)
  | OpSendOfferFromClient c sid offer ice =>
      after (signaling_sendOfferFromClient c sid offer ice w)
  | OpSendAnswerFromHost c sid answer ice =>
      after (signaling_sendAnswerFromHost c sid answer ice w)
  | OpClientDisconnect c sid => after (signaling_clientDisconnect c sid w)
  | OpUpdateStatus c sid password st => after (signaling_updateStatus c sid password st w)
  | OpEnd c sid => after (session_end c sid w)
  end.

Definition run (ops : list Op) (w : World) : World :=
  fold_left (fun acc op => step op acc) ops w.

Definition statusAt (w : World) (sid : string) : option Status :=
  status <$> sessions w !! sid.

Definition terminal (st : Status) : bool :=
  match st with Disconnected | Expired => true | _ => false end.

(** What one call may do to the status of a session. *)
Definition statusStep (op : Op) (st st' : Status) : Prop :=
  st' = st \/
  match op with
  | OpSendAnswer _ _ _ _ | OpSendAnswerFromHost _ _ _ _
  | OpUpdateStatus _ _ _ ToConnected => st' = Connected
  | OpSendOfferFromClient _ _ _ _ => st' = Connecting
  | OpClientDisconnect _ _ | OpEnd _ _
  | OpUpdateStatus _ _ _ ToDisconnected => st' = Disconnected
  | _ => False
  end.

(** The calls that never move a session out of a terminal status. *)
Definition keepsTerminal (op : Op) : bool :=
  match op with
  | OpSendAnswer _ _ _ _ | OpSendAnswerFromHost _ _ _ _
  | OpSendOfferFromClient _ _ _ _ | OpUpdateStatus _ _ _ ToConnected => false
  | _ => true
  end.

(** What one call may do to the two candidate lists of a session. *)
Definition iceStep (op : Op) (s s' : Session) : Prop :=
  match op with
  | OpSendIceCandidate _ _ _ cand Host =>
      clientIceCandidates s' = clientIceCandidates s /\
      (hostIceCandidates s' = hostIceCandidates s \/
       hostIceCandidates s' = Some (parsedOrEmpty (hostIceCandidates s) ++ [JStr cand]))
  | OpSendIceCandidate _ _ _ cand Client =>
      hostIceCandidates s' = hostIceCandidates s /\
      (clientIceCandidates s' = clientIceCandidates s \/
       clientIceCandidates s' = Some (parsedOrEmpty (clientIceCandidates s) ++ [JStr cand]))
  | OpSendOfferFromClient _ _ _ ice =>
      hostIceCandidates s' = hostIceCandidates s /\
      (clientIceCandidates s' = clientIceCandidates s \/ clientIceCandidates s' = ice)
  | OpSendAnswerFromHost _ _ _ ice =>
      clientIceCandidates s' = clientIceCandidates s /\
      (hostIceCandidates s' = hostIceCandidates s \/ hostIceCandidates s' = ice)
  | _ =>
      hostIceCandidates s' = hostIceCandidates s /\
      clientIceCandidates s' = clientIceCandidates s
  end.

(** The candidates of [new] are those of [old] followed by further ones. *)
Definition extends (old new : option (list json)) : Prop :=
  exists added, parsedOrEmpty new = parsedOrEmpty old ++ added.

(** The calls that only ever append to the candidate lists. *)
Definition appendOnly (op : Op) : bool :=
  match op with
  | OpSendOfferFromClient _ _ _ _ | OpSendAnswerFromHost _ _ _ _ => false
  | _ => true
  end.

(** The statement that writes [endNotificationSent = true] for [sid]. *)
Definition setsEndFlag (sid : string) (q : Query) : bool :=
  match q with
  | UpdateSession sid' data =>
      String.eqb sid sid' &&
      existsb (fun a => match a with SetEndNotificationSent true => true | _ => false end) data
  | _ => false
  end.

Definition endFlagWrites (sid : string) (qs : list Query) : nat :=
  length (List.filter (setsEndFlag sid) qs).

Definition endedByHost (sid : string) : Notification :=
  {| title := "Remote Session Ended";
     content := "Session " +:+ sid +:+ " has been ended by the host." |}.

Definition sessionDisconnected (sid : string) : Notification :=
  {| title := "Remote Session Ended";
     content := "Session " +:+ sid +:+ " has been disconnected." |}.

(* ===================================================================== *)
(** ** A running example *)
(* ===================================================================== *)

Module Demo.

Definition alice : User :=
  {| user_id := 7; openId := "ops_alice"; user_name := Some "Alice"%string;
     email := Some "alice@mercury.com"%string; role := RoleAdmin |}.

Definition mallory : User :=
  {| user_id := 8; openId := "ops_mallory"; user_name := None;
     email := Some "mallory@mercury.com"%string; role := RoleUser |}.

Definition sid : string := "00112233445566778899aabb".
Definition password : string := "DEADBEEF".

(** A session created at time 0 for one hour, in a given state. *)
Definition row (st : Status) (endSent : bool) : Session :=
  {| id := 1; sessionId := sid; passwordHash := hashPassword password;
     status := st; hostUserId := Some 7; clientName := None; clientIp := None;
     hostOffer := Some "OFFER1"%string; clientAnswer := Some "ANSWER1"%string;
     clientOffer := None; hostAnswer := None;
     hostIceCandidates := Some [JStr "h1"]; clientIceCandidates := Some [JStr "c1"; JStr "c2"];
     startNotificationSent := false; endNotificationSent := endSent; autoRecord := false;
     calendarEventId := None; calendarSource := None;
     createdAt := 0; connectedAt := None; endedAt := None; expiresAt := 3600000 |}.

Definition world (st : Status) (endSent : bool) : World :=
  {| dbAvailable := true; sessions := {[ sid := row st endSent ]}; nextRowId := 2;
     users := [alice; mallory]; sessionLogs := []; outbox := []; calls := [] |}.

Definition environment : Env :=
  {| cookieSecret := "s3cret"; MERCURY_CONNECT_URL := None |}.

(** A request at time [t], from [who]. *)
Definition request (who : option User) (t : Z) : Ctx :=
  {| env := environment; user := who; xForwardedFor := Some "10.0.0.1, 10.0.0.2"%string;
     remoteAddress := Some "127.0.0.1"%string; now := t;
     entropy := fun i => Z.of_nat i * 17 + 3 |}.

End Demo.

(* ===================================================================== *)
(** ** Proof automation *)
(* ===================================================================== *)

Arguments verifyPassword : simpl never.
Arguments hashPassword : simpl never.
Arguments getCalendarApiKey : simpl never.
Arguments generateSessionId : simpl never.
Arguments generateSessionPassword : simpl never.

(** Symbolic execution of a procedure on a world given by its fields. *)
Ltac unfold_procs :=
  cbv [step after outcome
       signaling_join signaling_sendOffer signaling_sendAnswer signaling_sendIceCandidate
       signaling_getSignalingData signaling_sendOfferFromClient signaling_sendAnswerFromHost
       signaling_getAnswer signaling_getOffer signaling_clientDisconnect
       signaling_updateStatus session_end session_get notifyEnd
       protectedProcedure notifyOwner
       getSessionBySessionId updateSessionStatus updateSessionSignaling
       markNotificationSent logSessionActivity getUserById getUserByEmail
       selectSession selectUserById selectUserByEmail updateSession insertSessionLog
       getDb bind ret throw when key negb
       record onSessions addLog send bumpRowId
       dbAvailable sessions nextRowId users sessionLogs outbox calls
       fst snd].

Ltac split_cases :=
  repeat (match goal with
          | |- context [match ?x with _ => _ end] =>
              lazymatch x with
              | context [match _ with _ => _ end] => fail
              | _ => destruct x eqn:?
              end
          end; cbv beta iota).

Ltac lookup_altered H :=
  rewrite ?lookup_alter; repeat case_decide; subst; rewrite ?H;
  cbn [fmap option_fmap option_map];
  eexists; (split; [reflexivity|]).

(** Start of a proof about one call on a stored session: the world is
    split into its fields and the call is executed up to the first test. *)
Ltac on_stored w Hdb Hs :=
  destruct w as [db ss nid us logs out cs];
  cbn [dbAvailable sessions] in Hdb, Hs; subst db;
  unfold_procs; rewrite ?Hs; cbv beta iota.

(* ===================================================================== *)
(** ** Further vocabulary: what a call addresses, returns and preserves *)
(* ===================================================================== *)

(** The session a call addresses. *)
Definition opSid (op : Op) : string :=
  match op with
  | OpJoin _ sid _ _ | OpSendOffer _ sid _ | OpSendAnswer _ sid _ _
  | OpSendIceCandidate _ sid _ _ _ | OpSendOfferFromClient _ sid _ _
  | OpSendAnswerFromHost _ sid _ _ | OpClientDisconnect _ sid
  | OpUpdateStatus _ sid _ _ | OpEnd _ sid => sid
  end.

(** The error a call throws, if it throws. *)
Definition thrown {A} (r : Result A * World) : option Error :=
  match fst r with Ok _ => None | Err e => Some e end.

Definition failure (op : Op) (w : World) : option Error :=
  match op with
  | OpJoin c sid password name => thrown (signaling_join c sid password name w)
  | OpSendOffer c sid offer => thrown (signaling_sendOffer c sid offer w)
  | OpSendAnswer c sid password answer =>
      thrown (signaling_sendAnswer c sid password answer w)
  | OpSendIceCandidate c sid password candidate from =>
      thrown (signaling_sendIceCandidate c sid password candidate from w)
  | OpSendOfferFromClient c sid offer ice =>
      thrown (signaling_sendOfferFromClient c sid offer ice w)
  | OpSendAnswerFromHost c sid answer ice =>
      thrown (signaling_sendAnswerFromHost c sid answer ice w)
  | OpClientDisconnect c sid => thrown (signaling_clientDisconnect c sid w)
  | OpUpdateStatus c sid password st => thrown (signaling_updateStatus c sid password st w)
  | OpEnd c sid => thrown (session_end c sid w)
  end.

(** The columns that no [UPDATE] of [db.ts] names. *)
Definition sameIdentity (s s' : Session) : Prop :=
  id s' = id s /\ sessionId s' = sessionId s /\ passwordHash s' = passwordHash s /\
  hostUserId s' = hostUserId s /\ autoRecord s' = autoRecord s /\
  calendarEventId s' = calendarEventId s /\ calendarSource s' = calendarSource s /\
  createdAt s' = createdAt s /\ expiresAt s' = expiresAt s.

(** Symbolic execution of the creating procedures. *)
Ltac unfold_create :=
  cbv [outcome after thrown session_create calendar_createMeeting protectedProcedure
       createSession createCalendarSession insertSession
       getUserByEmail selectUserByEmail selectSession logSessionActivity insertSessionLog
       getDb bind ret throw negb from_option
       record onSessions addLog bumpRowId
       dbAvailable sessions nextRowId users sessionLogs outbox calls
       fst snd].

(** The address that [signaling.join] reads from the request. *)
Definition requestIp (c : Ctx) : string :=
  orElse (xForwardedFor c) (orElse (remoteAddress c) "unknown").

Definition sessionStarted (c : Ctx) (sid : string) (name : option string) : Notification :=
  {| title := "New Remote Session Started";
     content := "Client " +:+ dquote +:+ orElse name "Unknown" +:+ dquote
                +:+ " has joined session " +:+ sid +:+ ". IP: " +:+ requestIp c |}.

Definition joinedLog (c : Ctx) (s : Session) (name : option string) : SessionLog :=
  {| log_sessionId := id s; activityType := client_joined;
     details := Some (JObj (jfield "clientName" (JStr <$> name)
                            ++ [("clientIp"%string, JStr (requestIp c))]));
     log_createdAt := now c |}.

(** A session that [signaling.join] lets in at the time of [c]. *)
Definition joinable (c : Ctx) (s : Session) : Prop :=
  status s <> Expired /\ status s <> Disconnected /\ now c <= expiresAt s.

(* ===================================================================== *)
(** ** Further functions of [server/db.ts] and of the routers *)
(* ===================================================================== *)

(** The statements below are not issued by the procedures whose store
    accesses [calls] traces (the [Query] type has no constructor for them);
    they leave the trace as it is. *)

(** [SET status = 'expired', endedAt = now WHERE expiresAt < now AND status
    = 'waiting'] on one row. *)
Definition sweepRow (t : Z) (s : Session) : Session :=
  if (expiresAt s <? t) && bool_decide (status s = Waiting)
  then assignAll [SetStatus Expired; SetEndedAt t] s
  else s.

(** The function answers 0 whatever the statement changed. *)
Definition cleanupExpiredSessions (c : Ctx) : M Z :=
  db <- getDb ;;
  if negb db then ret 0 else
  fun w => (Ok 0, onSessions (fmap (sweepRow (now c))) w).

(** The rows of the table, in the order of a scan. *)
Definition rows (w : World) : list Session := (map_to_list (sessions w)).*2.

(** [ORDER BY createdAt DESC]: [a] may come before [b].  Rows with the same
    [createdAt] come in an order that SQL leaves open; the sort below is one
    such order. *)
Definition newerFirst (a b : Session) : Prop := createdAt b <= createdAt a.

#[global] Instance newerFirst_dec (a b : Session) : Decision (newerFirst a b).
Proof. unfold newerFirst. apply _. Defined.

Definition orderByCreatedAtDesc (l : list Session) : list Session :=
  merge_sort newerFirst l.

(** [limit] is taken among the integers. *)
Definition getSessionsForHost (hostUserId0 : Z) (limit : Z) : M (list Session) :=
  db <- getDb ;;
  if negb db then ret [] else
  fun w => (Ok (take (Z.to_nat limit)
                  (orderByCreatedAtDesc
                     (filter (fun s => hostUserId s = Some hostUserId0) (rows w)))), w).

Definition getActiveSessions (hostUserId0 : Z) : M (list Session) :=
  db <- getDb ;;
  if negb db then ret [] else
  fun w => (Ok (orderByCreatedAtDesc
                  (filter (fun s => hostUserId s = Some hostUserId0 /\ status s = Waiting)
                          (rows w))), w).

(** [session.list]; the input, when given, is [(limit, activeOnly)] with
    the defaults of its schema filled in. *)
Definition session_list (c : Ctx) (input : option (Z * bool)) : M (list Session) :=
  protectedProcedure c (fun u =>
    if from_option snd false input then getActiveSessions (user_id u)
    else getSessionsForHost (user_id u) (from_option fst 50 input)).

(** [ORDER BY createdAt DESC] on the audit log. *)
Definition newerLogFirst (a b : SessionLog) : Prop := log_createdAt b <= log_createdAt a.

#[global] Instance newerLogFirst_dec (a b : SessionLog) : Decision (newerLogFirst a b).
Proof. unfold newerLogFirst. apply _. Defined.

Definition getSessionLogs (rowId : Z) : M (list SessionLog) :=
  db <- getDb ;;
  if negb db then ret [] else
  fun w => (Ok (merge_sort newerLogFirst
                  (filter (fun l => log_sessionId l = rowId) (sessionLogs w))), w).

Definition session_logs (c : Ctx) (sid : string) : M (list SessionLog) :=
  protectedProcedure c (fun u =>
    session <- getSessionBySessionId sid ;;
    match session with
    | None => throw NotFoundOrUnauthorized
    | Some session =>
        if differs (hostUserId session) (user_id u) then throw NotFoundOrUnauthorized
        else getSessionLogs (id session)
    end).

(** [calendar.getApiKey] *)
Definition calendar_getApiKey (c : Ctx) : M string :=
  protectedProcedure c (fun u =>
    match role u with
    | RoleAdmin => ret (getCalendarApiKey (env c))
    | RoleUser => throw Unauthorized
    end).

(** Every character of [s] satisfies [p]. *)
Fixpoint allChars (p : ascii -> bool) (s : string) : bool :=
  match s with
  | EmptyString => true
  | String c rest => p c && allChars p rest
  end.

Definition isDigit (c : ascii) : bool :=
  let n := nat_of_ascii c in ((48 <=? n) && (n <=? 57))%nat.

(** [[0-9a-f]] *)
Definition isLowerHex (c : ascii) : bool :=
  let n := nat_of_ascii c in isDigit c || ((97 <=? n) && (n <=? 102))%nat.

(** [[A-F0-9]], the class that the test of the password generator uses. *)
Definition isUpperHex (c : ascii) : bool :=
  let n := nat_of_ascii c in isDigit c || ((65 <=? n) && (n <=? 70))%nat.

(** A world whose database is not configured. *)
Definition offlineWorld : World :=
  {| dbAvailable := false; sessions := ∅; nextRowId := 1; users := [];
     sessionLogs := []; outbox := []; calls := [] |}.

(* ===================================================================== *)
(** ** Verification codes ([server/opsplatform.ts]) *)
(* ===================================================================== *)

Record OpsUser : Type := {
  ou_id : string;
  ou_email : string;
  ou_name : option string;
}.

(** An entry of the in-memory map [verificationCodes]. *)
Record CodeEntry : Type := {
  ce_code : string;
  ce_expiresAt : Z;
  ce_email : string;
}.

(** [{ success, user?, error? }] *)
Record CodeResult : Type := {
  cr_success : bool;
  cr_user : option OpsUser;
  cr_error : option string;
}.

Definition codeError (msg : string) : CodeResult :=
  {| cr_success := false; cr_user := None; cr_error := Some msg |}.

Module Ops.
Section WithServices.

(** What lies outside the process: [String.prototype.toLowerCase], the
    answers of the Ops Platform database to [isActiveOpsUser] and
    [getActiveOpsUser], and whether Mailgun took the mail.  The generated
    code, computed from [Math.random] in floating point, is an argument. *)
Variable toLowerCase : string -> string.
Variable isActiveOpsUser : string -> bool.
Variable getActiveOpsUser : string -> option OpsUser.
Variable sendVerificationEmail : string -> string -> bool.

Definition requestVerificationCode (now0 : Z) (code email0 : string)
    (codes : gmap string CodeEntry) : CodeResult * gmap string CodeEntry :=
  if negb (isActiveOpsUser email0) then
    (codeError "This email is not associated with an active Mercury Holdings account.",
     codes)
  else
    let expires := now0 + 10 * 60 * 1000 in
    let codes' :=
      <[toLowerCase email0 := {| ce_code := code; ce_expiresAt := expires;
                                 ce_email := toLowerCase email0 |}]> codes in
    if negb (sendVerificationEmail email0 code) then
      (codeError "Failed to send verification email. Please try again.", codes')
    else ({| cr_success := true; cr_user := None; cr_error := None |}, codes').

Definition verifyCode (now0 : Z) (email0 code : string)
    (codes : gmap string CodeEntry) : CodeResult * gmap string CodeEntry :=
  match codes !! toLowerCase email0 with
  | None => (codeError "No verification code found. Please request a new code.", codes)
  | Some entry =>
      if ce_expiresAt entry <? now0 then
        (codeError "Verification code has expired. Please request a new code.",
         delete (toLowerCase email0) codes)
      else if negb (String.eqb (ce_code entry) code) then
        (codeError "Invalid verification code. Please try again.", codes)
      else
        let codes' := delete (toLowerCase email0) codes in
        match getActiveOpsUser email0 with
        | None => (codeError "User account not found or inactive.", codes')
        | Some u => ({| cr_success := true; cr_user := Some u; cr_error := None |}, codes')
        end
  end.

Definition cleanupExpiredCodes (now0 : Z) (codes : gmap string CodeEntry)
    : gmap string CodeEntry :=
  filter (fun kv => ~ (ce_expiresAt kv.2 < now0)) codes.

End WithServices.
End Ops.

(** Lower case of the letters A to Z, for the examples. *)
Definition asciiLowerChar (c : ascii) : ascii :=
  let n := nat_of_ascii c in
  if ((65 <=? n) && (n <=? 90))%nat then ascii_of_nat (n + 32) else c.

Fixpoint asciiLower (s : string) : string :=
  match s with
  | EmptyString => EmptyString
  | String c rest => String (asciiLowerChar c) (asciiLower rest)
  end.

(** Services for the examples: one active user, and a mail service that is
    down. *)
Module OpsDemo.

Definition carol : OpsUser :=
  {| ou_id := "u-17"; ou_email := "carol@mercuryholdings.co"; ou_name := Some "Carol" |}.

Definition isActiveOpsUser (email0 : string) : bool :=
  String.eqb (asciiLower email0) "carol@mercuryholdings.co".

Definition getActiveOpsUser (email0 : string) : option OpsUser :=
  if isActiveOpsUser email0 then Some carol else None.

Definition sendVerificationEmail (_ _ : string) : bool := false.

Definition entry (code : string) (expires : Z) : CodeEntry :=
  {| ce_code := code; ce_expiresAt := expires; ce_email := "carol@mercuryholdings.co" |}.

Definition codes : gmap string CodeEntry :=
  <["carol@mercuryholdings.co" := entry "481516" 600000]> ∅.

End OpsDemo.

(* ===================================================================== *)
(** ** Recordings ([server/db.ts], the [recording] router) *)
(* ===================================================================== *)

(** A row of the table [recordings]. *)
Record Recording : Type := {
  rec_id : Z;
  rec_sessionId : Z;
  rec_sessionStringId : string;
  rec_recordedBy : Z;
  rec_fileKey : string;
  rec_url : string;
  rec_fileSize : option Z;
  rec_durationSeconds : option Z;
  rec_mimeType : option string;
  rec_clientName : option string;
  rec_createdAt : Z;
}.

(** [ORDER BY createdAt DESC] on the recordings. *)
Definition newerRecordingFirst (a b : Recording) : Prop := rec_createdAt b <= rec_createdAt a.

#[global] Instance newerRecordingFirst_dec (a b : Recording) :
  Decision (newerRecordingFirst a b).
Proof. unfold newerRecordingFirst. apply _. Defined.

(** The table is passed to the functions in the order of a scan, and the
    functions that change it return it; these statements are not recorded
    among the [calls]. *)
Definition getRecordingsForUser (userId limit : Z) (table : list Recording)
    : M (list Recording) :=
  db <- getDb ;;
  if negb db then ret [] else
  ret (take (Z.to_nat limit)
         (merge_sort newerRecordingFirst
            (filter (fun r => rec_recordedBy r = userId) table))).

Definition getRecordingsForSession (sessionStringId : string) (table : list Recording)
    : M (list Recording) :=
  db <- getDb ;;
  if negb db then ret [] else
  ret (merge_sort newerRecordingFirst
         (filter (fun r => rec_sessionStringId r = sessionStringId) table)).

Definition deleteRecording (recordingId userId : Z) (table : list Recording)
    : M (bool * list Recording) :=
  db <- getDb ;;
  if negb db then ret (false, table) else
  match take 1 (filter (fun r => rec_id r = recordingId) table) with
  | [] => ret (false, table)
  | rec :: _ =>
      if negb (rec_recordedBy rec =? userId) then ret (false, table)
      else ret (true, filter (fun r => rec_id r <> recordingId) table)
  end.

Definition getRecordingById (id0 : Z) (table : list Recording) : M (option Recording) :=
  db <- getDb ;;
  if negb db then ret None else
  ret (head (take 1 (filter (fun r => rec_id r = id0) table))).

(** [recording.list]; the input, when given, is the limit, taken among the
    integers. *)
Definition recording_list (c : Ctx) (input : option Z) (table : list Recording)
    : M (list Recording) :=
  protectedProcedure c (fun u =>
    getRecordingsForUser (user_id u) (from_option (fun x => x) 50 input) table).

(** [recording.forSession] *)
Definition recording_forSession (c : Ctx) (sid : string) (table : list Recording)
    : M (list Recording) :=
  protectedProcedure c (fun u =>
    session <- getSessionBySessionId sid ;;
    match session with
    | None => throw NotFoundOrUnauthorized
    | Some session =>
        if differs (hostUserId session) (user_id u) then throw NotFoundOrUnauthorized
        else getRecordingsForSession sid table
    end).

(** Three recordings of the running example's session: two made by alice,
    one by mallory. *)
Module RecDemo.

Definition recording (n by_ : Z) : Recording :=
  {| rec_id := n; rec_sessionId := 1; rec_sessionStringId := Demo.sid;
     rec_recordedBy := by_; rec_fileKey := "recordings/k.webm";
     rec_url := "https://files.example/k.webm"; rec_fileSize := Some 2048;
     rec_durationSeconds := Some 12; rec_mimeType := Some "video/webm";
     rec_clientName := None; rec_createdAt := 100 + n |}.

Definition table : list Recording := [recording 1 7; recording 2 8; recording 3 7].

End RecDemo.

(* ===================================================================== *)
(** ** Cookies ([server/_core/context.ts]) *)
(* ===================================================================== *)

(** [String.prototype.split] with a separator of one character. *)
Fixpoint splitOn (sep : ascii) (s : string) : list string :=
  match s with
  | EmptyString => [EmptyString]
  | String c rest =>
      if Ascii.eqb c sep then EmptyString :: splitOn sep rest
      else match splitOn sep rest with
           | piece :: pieces => String c piece :: pieces
           | [] => [String c EmptyString]
           end
  end.

(** [Array.prototype.join] *)
Fixpoint joinWith (sep : ascii) (l : list string) : string :=
  match l with
  | [] => EmptyString
  | [piece] => piece
  | piece :: pieces => piece +:+ String sep (joinWith sep pieces)
  end.

(** The white space and line terminators of [String.prototype.trim] among
    the characters of a header, which Node delivers as Latin-1. *)
Definition isWhiteSpace (c : ascii) : bool :=
  let n := nat_of_ascii c in
  ((9 <=? n) && (n <=? 13) || (n =? 32) || (n =? 160))%nat.

Fixpoint trimStart (s : string) : string :=
  match s with
  | EmptyString => EmptyString
  | String c rest => if isWhiteSpace c then trimStart rest else s
  end.

Fixpoint trimEnd (s : string) : string :=
  match s with
  | EmptyString => EmptyString
  | String c rest =>
      match trimEnd rest with
      | EmptyString => if isWhiteSpace c then EmptyString else String c EmptyString
      | kept => String c kept
      end
  end.

Definition trim (s : string) : string := trimEnd (trimStart s).

(** The body of the [forEach] in [parseCookies]. *)
Definition setCookie (cookies : gmap string string) (cookie : string)
    : gmap string string :=
  match splitOn "=" (trim cookie) with
  | name :: rest =>
      if String.eqb name EmptyString then cookies
      else <[name := joinWith "=" rest]> cookies
  | [] => cookies
  end.

Definition parseCookies (cookieHeader : option string) : gmap string string :=
  match cookieHeader with
  | None => ∅
  | Some EmptyString => ∅
  | Some header => fold_left setCookie (splitOn ";" header) ∅
  end.

Definition lacks (sep : ascii) (s : string) : bool :=
  allChars (fun c => negb (Ascii.eqb c sep)) s.

Definition firstChar (s : string) : option ascii :=
  match s with
  | EmptyString => None
  | String c _ => Some c
  end.

Fixpoint lastChar (s : string) : option ascii :=
  match s with
  | EmptyString => None
  | String c EmptyString => Some c
  | String _ rest => lastChar rest
  end.

Definition blank (c : option ascii) : bool := from_option isWhiteSpace false c.

(** A cookie as a browser sends it: a name lacks [;] and [=] that does not
    begin with white space, and a value lacks [;] that does not end with
    white space. *)
Definition wellFormedCookie (p : string * string) : bool :=
  negb (String.eqb p.1 EmptyString) && lacks ";" p.1 && lacks "=" p.1
  && negb (blank (firstChar p.1))
  && lacks ";" p.2 && negb (blank (lastChar p.2)).

Definition cookiePair (p : string * string) : string := p.1 +:+ String "=" p.2.

(** The [Cookie] header of a list of cookies. *)
Fixpoint cookieHeaderOf (l : list (string * string)) : string :=
  match l with
  | [] => EmptyString
  | [p] => cookiePair p
  | p :: rest => cookiePair p +:+ String ";" (String " " (cookieHeaderOf rest))
  end.

Module CookieDemo.

Definition cookies : list (string * string) :=
  [("session", "good"); ("theme", "a=b"); ("session", "evil")].

End CookieDemo.

(** A table of four sessions for the examples of the listing: three hosted
    by alice, created at times 0, 10 and 20, and one hosted by mallory. *)
Module ListDemo.

Definition session (n : Z) (sid0 : string) (host created : Z) (st : Status) : Session :=
  {| id := n; sessionId := sid0; passwordHash := hashPassword Demo.password;
     status := st; hostUserId := Some host; clientName := None; clientIp := None;
     hostOffer := None; clientAnswer := None; clientOffer := None; hostAnswer := None;
     hostIceCandidates := None; clientIceCandidates := None;
     startNotificationSent := false; endNotificationSent := false; autoRecord := false;
     calendarEventId := None; calendarSource := None;
     createdAt := created; connectedAt := None; endedAt := None;
     expiresAt := created + 3600000 |}.

Definition oldest : Session := session 1 "aaaaaaaaaaaaaaaaaaaaaaaa" 7 0 Waiting.
Definition middle : Session := session 2 "bbbbbbbbbbbbbbbbbbbbbbbb" 7 10 Waiting.
Definition newest : Session := session 3 "cccccccccccccccccccccccc" 7 20 Connected.
Definition foreign : Session := session 4 "dddddddddddddddddddddddd" 8 30 Waiting.

Definition world : World :=
  {| dbAvailable := true;
     sessions := <[sessionId oldest := oldest]>
                   (<[sessionId middle := middle]>
                      (<[sessionId newest := newest]>
                         (<[sessionId foreign := foreign]> ∅)));
     nextRowId := 5; users := [Demo.alice; Demo.mallory]; sessionLogs := [];
     outbox := []; calls := [] |}.

End ListDemo.

(* ===================================================================== *)
(** ** Properties *)
(* ===================================================================== *)

Example sha256_abc :
  Sha256.hex "abc" = "ba7816bf8f01cfea414140de5dae2223b00361a396177a9cb410ff61f20015ad"%string.
Proof. vm_compute. reflexivity. Qed.

Example sha256_empty :
  Sha256.hex EmptyString = "e3b0c44298fc1c149afbf4c8996fb92427ae41e4649b934ca495991b7852b855"%string.
Proof. vm_compute. reflexivity. Qed.

Example sha256_two_blocks :
  Sha256.hex "abcdbcdecdefdefgefghfghighijhijkijkljklmklmnlmnomnopnopq"
  = "248d6a61d20638b8e5c026930c3e6039a33ce45964ff2167f6ecedd419db06c1"%string.
Proof. vm_compute. reflexivity. Qed.

(** P2, first half: a password verifies against its own hash. *)
Lemma verifyPassword_hashPassword (p : string) : verifyPassword p (hashPassword p) = true.
Proof. unfold verifyPassword. apply String.eqb_refl. Qed.

Section RunLemmas.
Variable w : World.
Hypothesis Hdb : dbAvailable w = true.

Lemma run_getSessionBySessionId sid :
  getSessionBySessionId sid w = (Ok (sessions w !! sid), record (SelectSession sid) w).
Proof. unfold getSessionBySessionId, bind, getDb. rewrite Hdb. reflexivity. Qed.

Lemma run_updateSessionSignaling sid data :
  updateSessionSignaling sid data w
  = (Ok tt, onSessions (alter (assignAll data) sid) (record (UpdateSession sid data) w)).
Proof. unfold updateSessionSignaling, bind, getDb. rewrite Hdb. reflexivity. Qed.

Lemma run_updateSessionStatus c sid st :
  updateSessionStatus c sid st w
  = updateSession sid
      (SetStatus st ::
       match st with
       | Connected => [SetConnectedAt (now c)]
       | Disconnected | Expired => [SetEndedAt (now c)]
       | _ => []
       end) w.
Proof. unfold updateSessionStatus, bind, getDb. rewrite Hdb. reflexivity. Qed.

Lemma run_markNotificationSent sid k :
  markNotificationSent sid k w
  = updateSession sid
      [match k with
       | NStart => SetStartNotificationSent true
       | NEnd => SetEndNotificationSent true
       end] w.
Proof. unfold markNotificationSent, bind, getDb. rewrite Hdb. reflexivity. Qed.

Lemma run_logSessionActivity c rowId k det :
  logSessionActivity c rowId k det w
  = insertSessionLog {| log_sessionId := rowId; activityType := k;
                        details := det; log_createdAt := now c |} w.
Proof. unfold logSessionActivity, bind, getDb. rewrite Hdb. reflexivity. Qed.

Lemma run_getUserByEmail mail :
  getUserByEmail mail w = selectUserByEmail mail w.
Proof. unfold getUserByEmail, bind, getDb. rewrite Hdb. reflexivity. Qed.

Lemma run_getUserById uid :
  getUserById uid w = selectUserById uid w.
Proof. unfold getUserById, bind, getDb. rewrite Hdb. reflexivity. Qed.
End RunLemmas.

Example demo_stored : stored (Demo.world Waiting false) Demo.sid (Demo.row Waiting false).
Proof. split; reflexivity. Qed.

Example demo_join_ok :
  outcome (signaling_join (Demo.request None 1000) Demo.sid Demo.password None
             (Demo.world Waiting false))
  = Ok {| jo_success := true; jo_sessionId := Demo.sid; jo_hostOffer := Some "OFFER1"%string |}.
Proof. vm_compute. reflexivity. Qed.

(** Scenario E2E-1: create, host offer, join, client answer. *)
Example demo_flow_a :
  let empty := {| dbAvailable := true; sessions := ∅; nextRowId := 1;
                  users := [Demo.alice]; sessionLogs := []; outbox := []; calls := [] |} in
  let id := "031425364758697a8b9cadbe"%string in
  let r0 := session_create (Demo.request (Some Demo.alice) 0) (Some (60, false)) empty in
  let r1 := signaling_sendOffer (Demo.request (Some Demo.alice) 10) id "OFFER1" (after r0) in
  let r2 := signaling_join (Demo.request None 20) id "CFE0F102" (Some "Bob"%string)
              (after r1) in
  let r3 := signaling_sendAnswer (Demo.request None 30) id "CFE0F102" "ANSWER1" (after r2) in
  outcome r0 = Ok {| co_sessionId := id; co_password := "CFE0F102";
                     co_expiresAt := 3600000; co_autoRecord := false |} /\
  outcome r2 = Ok {| jo_success := true; jo_sessionId := id;
                     jo_hostOffer := Some "OFFER1"%string |} /\
  outcome r3 = Ok true /\
  statusAt (after r3) id = Some Connected /\
  clientIp <$> sessions (after r3) !! id = Some (Some "10.0.0.1"%string) /\
  length (outbox (after r3)) = 1%nat.
Proof. vm_compute. repeat split; reflexivity. Qed.

Example demo_join_wrong_password :
  outcome (signaling_join (Demo.request None 1000) Demo.sid "deadbeef" None
             (Demo.world Waiting false))
  = Err InvalidPassword.
Proof. vm_compute. reflexivity. Qed.

(** C1 (expiry precedence).  A join attempt against a stored session whose
    [expiresAt] is earlier than the current time fails with the Expired
    error, whatever the stored status and whatever password is supplied;
    the only effect is the read of the session. *)
Theorem join_expired_precedence (c : Ctx) (w : World) (sid : string) (s : Session)
    (password : string) (name : option string) :
  stored w sid s ->
  expiresAt s < now c ->
  signaling_join c sid password name w = (Err ErrExpired, record (SelectSession sid) w).
Proof.
  intros [Hdb Hs] Hexp.
  unfold signaling_join, bind.
  rewrite (run_getSessionBySessionId w Hdb), Hs.
  apply Z.ltb_lt in Hexp. rewrite Hexp, orb_true_r.
  reflexivity.
Qed.

Lemma join_expired_precedence_witness :
  signaling_join (Demo.request None 3600001) Demo.sid "WRONG" None (Demo.world Connected false)
  = (Err ErrExpired, record (SelectSession Demo.sid) (Demo.world Connected false)).
Proof.
  apply (join_expired_precedence _ _ _ (Demo.row Connected false)).
  - split; reflexivity.
  - simpl. lia.
Defined.

Lemma step_status (op : Op) (w : World) (sid : string) (s : Session) :
  sessions w !! sid = Some s ->
  exists s', sessions (step op w) !! sid = Some s' /\
             statusStep op (status s) (status s').
Proof.
  destruct w as [db ss nid us logs out cs]. cbn [sessions]. intros Hs.
  destruct db, op; unfold_procs; split_cases; cbv [sessions snd];
    lookup_altered Hs; unfold statusStep; simpl; auto.
Qed.

Lemma run_cons (op : Op) (ops : list Op) (w : World) :
  run (op :: ops) w = run ops (step op w).
Proof. reflexivity. Qed.

Lemma run_status (ops : list Op) :
  forall (w : World) (sid : string) (st : Status),
    statusAt w sid = Some st ->
    st <> Waiting ->
    exists st', statusAt (run ops w) sid = Some st' /\
                st' <> Waiting /\
                (terminal st = true -> forallb keepsTerminal ops = true ->
                 terminal st' = true).
Proof.
  induction ops as [|op ops IH]; intros w sid st Hst Hnw.
  - exists st. auto.
  - unfold statusAt in Hst.
    destruct (sessions w !! sid) as [s|] eqn:Hs; [|discriminate].
    injection Hst as <-.
    destruct (step_status op w sid s Hs) as (s' & Hs' & Hrel).
    assert (Hst' : statusAt (step op w) sid = Some (status s'))
      by (unfold statusAt; rewrite Hs'; reflexivity).
    assert (Hnw' : status s' <> Waiting).
    { destruct Hrel as [->|Hrel]; [assumption|].
      destruct op; try contradiction; try destruct st; rewrite Hrel; discriminate. }
    destruct (IH (step op w) sid (status s') Hst' Hnw') as (st' & Hrun & Hnw'' & Hterm).
    exists st'. rewrite run_cons. repeat split; try assumption.
    intros Ht Hall. cbn [forallb] in Hall. apply andb_prop in Hall as [Hop Hall].
    apply Hterm; [|assumption].
    destruct Hrel as [->|Hrel]; [assumption|].
    destruct op; try contradiction; try destruct st; try discriminate Hop;
      rewrite Hrel; reflexivity.
Qed.

(** C2, as it stands, fails: a disconnected session is connected again by
    [updateStatus], and an expired one is set to connecting by
    [sendOfferFromClient]. *)
Lemma status_not_monotonic :
  statusAt (Demo.world Disconnected true) Demo.sid = Some Disconnected /\
  statusAt (run [OpUpdateStatus (Demo.request None 5000) Demo.sid None ToConnected]
                (Demo.world Disconnected true)) Demo.sid = Some Connected /\
  statusAt (Demo.world Expired false) Demo.sid = Some Expired /\
  statusAt (run [OpSendOfferFromClient (Demo.request None 5000) Demo.sid (Some JNull) None]
                (Demo.world Expired false)) Demo.sid = Some Connecting.
Proof. vm_compute. auto. Qed.

(** C2, amended.  Once the status of a stored session is disconnected or
    expired, no sequence of the exposed operations brings it back to
    waiting, and it stays terminal under every sequence made of join,
    sendOffer, sendIceCandidate, clientDisconnect, end and
    updateStatus(disconnected).  The status is not monotonic beyond that:
    updateStatus(connected), an accepted sendAnswer and an accepted
    sendAnswerFromHost set it to connected, and sendOfferFromClient sets it
    to connecting, whatever it was. *)
Theorem terminal_status_under_operations (w : World) (sid : string) (s : Session) :
  stored w sid s ->
  terminal (status s) = true ->
  (forall ops, exists st',
      statusAt (run ops w) sid = Some st' /\
      st' <> Waiting /\
      (forallb keepsTerminal ops = true -> terminal st' = true)) /\
  (forall c pw,
      statusAt (step (OpUpdateStatus c sid pw ToConnected) w) sid = Some Connected) /\
  (forall c offer ice,
      statusAt (step (OpSendOfferFromClient c sid offer ice) w) sid = Some Connecting) /\
  (forall c pw answer,
      verifyPassword pw (passwordHash s) = true ->
      statusAt (step (OpSendAnswer c sid pw answer) w) sid = Some Connected) /\
  (forall c u answer ice,
      user c = Some u -> hostUserId s = Some (user_id u) ->
      statusAt (step (OpSendAnswerFromHost c sid answer ice) w) sid = Some Connected).
Proof.
  intros [Hdb Hs] Hterm. split; [|repeat split].
  - intros ops.
    assert (Hst : statusAt w sid = Some (status s))
      by (unfold statusAt; rewrite Hs; reflexivity).
    assert (Hnw : status s <> Waiting) by (destruct (status s); discriminate).
    destruct (run_status ops w sid (status s) Hst Hnw) as (st' & H1 & H2 & H3).
    exists st'. auto.
  - intros c pw. destruct w as [db ss nid us logs out cs].
    cbn [dbAvailable sessions] in *. subst db.
    unfold statusAt. unfold_procs. rewrite Hs. cbv beta iota. cbv [sessions snd].
    rewrite !lookup_alter_eq, Hs. reflexivity.
  - intros c offer ice. destruct w as [db ss nid us logs out cs].
    cbn [dbAvailable sessions] in *. subst db.
    unfold statusAt. unfold_procs. rewrite Hs. cbv beta iota. cbv [sessions snd].
    rewrite !lookup_alter_eq, Hs. reflexivity.
  - intros c pw answer Hpw. destruct w as [db ss nid us logs out cs].
    cbn [dbAvailable sessions] in *. subst db.
    unfold statusAt. unfold_procs. rewrite Hs. cbv beta iota. rewrite Hpw.
    cbv [sessions snd].
    rewrite !lookup_alter_eq, Hs. reflexivity.
  - intros c u answer ice Hu Hh. destruct w as [db ss nid us logs out cs].
    cbn [dbAvailable sessions] in *. subst db.
    unfold statusAt. unfold_procs. rewrite Hu, Hs. cbv beta iota.
    unfold differs. rewrite Hh, Z.eqb_refl.
    cbv [sessions snd negb].
    rewrite !lookup_alter_eq, Hs. reflexivity.
Qed.

Lemma terminal_status_under_operations_witness :
  (exists st',
      statusAt (run [OpEnd (Demo.request (Some Demo.alice) 10) Demo.sid;
                     OpJoin (Demo.request None 20) Demo.sid Demo.password None;
                     OpSendIceCandidate (Demo.request None 30) Demo.sid None "c3" Client]
                    (Demo.world Disconnected true)) Demo.sid = Some st' /\
      st' <> Waiting /\
      (forallb keepsTerminal
         [OpEnd (Demo.request (Some Demo.alice) 10) Demo.sid;
          OpJoin (Demo.request None 20) Demo.sid Demo.password None;
          OpSendIceCandidate (Demo.request None 30) Demo.sid None "c3" Client] = true ->
       terminal st' = true)) /\
  statusAt (step (OpSendAnswer (Demo.request None 40) Demo.sid Demo.password "A")
                 (Demo.world Disconnected true)) Demo.sid = Some Connected /\
  statusAt (step (OpSendAnswerFromHost (Demo.request (Some Demo.alice) 50) Demo.sid None None)
                 (Demo.world Disconnected true)) Demo.sid = Some Connected.
Proof.
  assert (Hst : stored (Demo.world Disconnected true) Demo.sid (Demo.row Disconnected true))
    by (split; reflexivity).
  assert (Hpw : verifyPassword Demo.password (passwordHash (Demo.row Disconnected true)) = true)
    by (vm_compute; reflexivity).
  destruct (terminal_status_under_operations _ _ _ Hst eq_refl) as (A & _ & _ & D & E).
  split; [exact (A _)|]. split.
  - exact (D (Demo.request None 40) Demo.password "A"%string Hpw).
  - exact (E (Demo.request (Some Demo.alice) 50) Demo.alice None None eq_refl eq_refl).
Defined.

(** C3, as it stands, fails: on a session that expired long ago the
    disconnect, status and answer calls succeed, and polling reports the
    stored status, which is still waiting. *)
Lemma expired_session_accepts_writes :
  expiresAt (Demo.row Waiting false) < now (Demo.request None 9999999) /\
  outcome (signaling_clientDisconnect (Demo.request None 9999999) Demo.sid
             (Demo.world Waiting false)) = Ok true /\
  outcome (signaling_updateStatus (Demo.request None 9999999) Demo.sid None ToConnected
             (Demo.world Waiting false)) = Ok true /\
  outcome (signaling_sendAnswer (Demo.request None 9999999) Demo.sid Demo.password "A"
             (Demo.world Waiting false)) = Ok true /\
  outcome (signaling_getSignalingData (Demo.request None 9999999) Demo.sid
             (Some Demo.password) Client (Demo.world Waiting false))
  = Ok {| sd_status := Waiting; sd_hostOffer := Some "OFFER1"%string;
          sd_clientAnswer := None; sd_hostIceCandidates := Some [JStr "h1"];
          sd_clientIceCandidates := None; sd_clientName := None;
          sd_autoRecord := false |}.
Proof. vm_compute. repeat split; reflexivity. Qed.

(** C3, amended.  For a stored session whose [expiresAt] is in the past,
    signaling.join is the one operation that fails with Expired: no other
    session call and no read ever fails with it, whoever calls and whatever
    the session.  clientDisconnect, updateStatus and sendOfferFromClient
    succeed; sendAnswer and sendIceCandidate from the client succeed with the
    session password; sendOffer, sendAnswerFromHost, sendIceCandidate from
    the host and session.end succeed for the owner.  Polling with
    getSignalingData succeeds as well, for the client with the session
    password and for the owner, and reports the stored status as it is. *)
Theorem expiry_checked_by_join_only (c : Ctx) (w : World) (sid : string) (s : Session) :
  stored w sid s ->
  expiresAt s < now c ->
  (forall pw name, outcome (signaling_join c sid pw name w) = Err ErrExpired) /\
  (forall op, failure op w = Some ErrExpired ->
              exists c' sid' pw name, op = OpJoin c' sid' pw name) /\
  (forall c' sid' pw role,
      thrown (signaling_getSignalingData c' sid' pw role w) <> Some ErrExpired /\
      thrown (session_get c' sid' w) <> Some ErrExpired /\
      thrown (signaling_getOffer c' sid' w) <> Some ErrExpired /\
      thrown (signaling_getAnswer c' sid' w) <> Some ErrExpired) /\
  outcome (signaling_clientDisconnect c sid w) = Ok true /\
  (forall pw st, outcome (signaling_updateStatus c sid pw st w) = Ok true) /\
  (forall offer ice, outcome (signaling_sendOfferFromClient c sid offer ice w) = Ok true) /\
  (forall pw,
      verifyPassword pw (passwordHash s) = true ->
      (forall answer, outcome (signaling_sendAnswer c sid pw answer w) = Ok true) /\
      (forall cand,
          outcome (signaling_sendIceCandidate c sid (Some pw) cand Client w) = Ok true) /\
      exists out,
        outcome (signaling_getSignalingData c sid (Some pw) Client w) = Ok out /\
        sd_status out = status s) /\
  (forall u,
      user c = Some u -> hostUserId s = Some (user_id u) ->
      (forall offer, outcome (signaling_sendOffer c sid offer w) = Ok true) /\
      (forall answer ice,
          outcome (signaling_sendAnswerFromHost c sid answer ice w) = Ok true) /\
      (forall pw cand,
          outcome (signaling_sendIceCandidate c sid pw cand Host w) = Ok true) /\
      outcome (session_end c sid w) = Ok true /\
      forall pw, exists out,
          outcome (signaling_getSignalingData c sid pw Host w) = Ok out /\
          sd_status out = status s).
Proof.
  intros Hst Hexp.
  split.
  { intros pw name. destruct Hst as [Hdb Hs].
    unfold signaling_join, bind, outcome.
    rewrite (run_getSessionBySessionId w Hdb), Hs.
    apply Z.ltb_lt in Hexp. rewrite Hexp, orb_true_r. reflexivity. }
  split.
  { clear. intros op Hop. destruct w as [db ss nid us logs out cs].
    destruct op; try (do 4 eexists; reflexivity); exfalso; revert Hop;
      unfold failure, thrown; unfold_procs; split_cases; discriminate. }
  split.
  { clear. intros c' sid' pw role. destruct w as [db ss nid us logs out cs].
    unfold thrown. repeat split; unfold_procs; split_cases; discriminate. }
  destruct Hst as [Hdb Hs].
  split; [on_stored w Hdb Hs; destruct (endNotificationSent s); reflexivity|].
  split; [intros pw st; on_stored w Hdb Hs;
          destruct st, (endNotificationSent s); reflexivity|].
  split; [intros offer ice; on_stored w Hdb Hs; reflexivity|].
  split.
  - intros pw Hpw.
    assert (Hok : passwordRejected (Some pw) (passwordHash s) = false)
      by (cbn [passwordRejected]; rewrite Hpw; apply andb_false_r).
    split; [|split].
    + intros answer. on_stored w Hdb Hs. rewrite Hpw. reflexivity.
    + intros cand. on_stored w Hdb Hs. rewrite Hok. reflexivity.
    + on_stored w Hdb Hs. rewrite Hok. eexists; split; reflexivity.
  - intros u Hu Hh.
    assert (Hown : differs (hostUserId s) (user_id u) = false)
      by (unfold differs; rewrite Hh, Z.eqb_refl; reflexivity).
    assert (Hown' : differsOpt (user c) (hostUserId s) = false)
      by (unfold differsOpt; rewrite Hu; exact Hown).
    split; [|split; [|split; [|split]]].
    + intros offer. on_stored w Hdb Hs. rewrite Hu. cbv beta iota.
      rewrite Hs. cbv beta iota. rewrite Hown. reflexivity.
    + intros answer ice. on_stored w Hdb Hs. rewrite Hu. cbv beta iota.
      rewrite Hs. cbv beta iota. rewrite Hown. reflexivity.
    + intros pw cand. on_stored w Hdb Hs. rewrite Hown'. reflexivity.
    + on_stored w Hdb Hs. rewrite Hu. cbv beta iota.
      rewrite Hs. cbv beta iota. rewrite Hown.
      destruct (endNotificationSent s); reflexivity.
    + intros pw. on_stored w Hdb Hs. rewrite Hown'. eexists; split; reflexivity.
Qed.

Lemma expiry_checked_by_join_only_witness :
  outcome (signaling_join (Demo.request None 9999999) Demo.sid Demo.password None
             (Demo.world Connected false)) = Err ErrExpired /\
  outcome (signaling_clientDisconnect (Demo.request None 9999999) Demo.sid
             (Demo.world Connected false)) = Ok true /\
  outcome (signaling_sendAnswer (Demo.request None 9999999) Demo.sid Demo.password "A"
             (Demo.world Connected false)) = Ok true /\
  outcome (signaling_sendIceCandidate (Demo.request None 9999999) Demo.sid
             (Some Demo.password) "c3" Client (Demo.world Connected false)) = Ok true /\
  outcome (signaling_sendIceCandidate (Demo.request (Some Demo.alice) 9999999) Demo.sid
             None "h2" Host (Demo.world Connected false)) = Ok true /\
  outcome (session_end (Demo.request (Some Demo.alice) 9999999) Demo.sid
             (Demo.world Connected false)) = Ok true /\
  (exists out,
      outcome (signaling_getSignalingData (Demo.request None 9999999) Demo.sid
                 (Some Demo.password) Client (Demo.world Connected false)) = Ok out /\
      sd_status out = Connected) /\
  exists out,
    outcome (signaling_getSignalingData (Demo.request (Some Demo.alice) 9999999) Demo.sid
               None Host (Demo.world Connected false)) = Ok out /\
    sd_status out = Connected.
Proof.
  assert (Hst : stored (Demo.world Connected false) Demo.sid (Demo.row Connected false))
    by (split; reflexivity).
  assert (Hpw : verifyPassword Demo.password (passwordHash (Demo.row Connected false)) = true)
    by (vm_compute; reflexivity).
  destruct (expiry_checked_by_join_only (Demo.request None 9999999) _ _ _ Hst eq_refl)
    as (A & _ & _ & B & _ & _ & E & _).
  destruct (E Demo.password Hpw) as (E1 & E2 & E3).
  destruct (expiry_checked_by_join_only (Demo.request (Some Demo.alice) 9999999) _ _ _
              Hst eq_refl) as (_ & _ & _ & _ & _ & _ & _ & G).
  destruct (G Demo.alice eq_refl eq_refl) as (_ & _ & G3 & G4 & G5).
  split; [exact (A Demo.password None)|].
  split; [exact B|]. split; [exact (E1 "A"%string)|].
  split; [exact (E2 "c3"%string)|].
  split; [exact (G3 None "h2"%string)|].
  split; [exact G4|]. split; [exact E3|]. exact (G5 None).
Defined.

Lemma differs_true (h : option Z) (uid : Z) :
  h <> Some uid -> differs h uid = true.
Proof.
  intros Hne. unfold differs. destruct h as [x|]; [|reflexivity].
  destruct (Z.eqb_spec x uid) as [->|]; [contradiction|reflexivity].
Qed.

(** C4, as it stands, fails: session.end called by an authenticated user
    who is not the host of a stored, connected session does not fail with
    Unauthorized.  It fails with the error "Session not found or
    unauthorized", another error with another message, and the very outcome
    of the same call on a session id that does not exist. *)
Lemma end_by_stranger_not_unauthorized :
  outcome (session_end (Demo.request (Some Demo.mallory) 1000) Demo.sid
             (Demo.world Connected false)) <> Err Unauthorized /\
  outcome (session_end (Demo.request (Some Demo.mallory) 1000) Demo.sid
             (Demo.world Connected false)) = Err NotFoundOrUnauthorized /\
  outcome (session_end (Demo.request (Some Demo.mallory) 1000) "ffffffffffffffffffffffff"
             (Demo.world Connected false)) = Err NotFoundOrUnauthorized /\
  message NotFoundOrUnauthorized <> message Unauthorized.
Proof. vm_compute. repeat split; discriminate. Qed.

(** C4, amended.  For a stored session and an authenticated caller whose
    user id is not the session's [hostUserId], each of session.get,
    session.end, signaling.sendOffer, signaling.getOffer and
    signaling.sendAnswerFromHost fails, whatever the status and the expiry of
    the session, and nothing but the read of the session reaches the store.
    session.get fails with Unauthorized; the other four fail with the one
    error "Session not found or unauthorized", which is also what they
    answer for a session id that is not stored. *)
Theorem ownership_enforced (c : Ctx) (w : World) (sid : string) (s : Session) (u : User)
    (offer : string) (answer : option json) (ice : option (list json)) :
  stored w sid s ->
  user c = Some u ->
  hostUserId s <> Some (user_id u) ->
  session_get c sid w = (Err Unauthorized, record (SelectSession sid) w) /\
  session_end c sid w = (Err NotFoundOrUnauthorized, record (SelectSession sid) w) /\
  signaling_sendOffer c sid offer w
    = (Err NotFoundOrUnauthorized, record (SelectSession sid) w) /\
  signaling_getOffer c sid w = (Err NotFoundOrUnauthorized, record (SelectSession sid) w) /\
  signaling_sendAnswerFromHost c sid answer ice w
    = (Err NotFoundOrUnauthorized, record (SelectSession sid) w) /\
  forall sid',
    sessions w !! sid' = None ->
    session_get c sid' w = (Err NotFound, record (SelectSession sid') w) /\
    session_end c sid' w = (Err NotFoundOrUnauthorized, record (SelectSession sid') w) /\
    signaling_sendOffer c sid' offer w
      = (Err NotFoundOrUnauthorized, record (SelectSession sid') w) /\
    signaling_getOffer c sid' w
      = (Err NotFoundOrUnauthorized, record (SelectSession sid') w) /\
    signaling_sendAnswerFromHost c sid' answer ice w
      = (Err NotFoundOrUnauthorized, record (SelectSession sid') w).
Proof.
  intros [Hdb Hs] Hu Hne. apply differs_true in Hne.
  unfold session_get, session_end, signaling_sendOffer, signaling_getOffer,
    signaling_sendAnswerFromHost, protectedProcedure, bind.
  rewrite Hu, (run_getSessionBySessionId w Hdb), Hs, Hne.
  do 5 (split; [reflexivity|]).
  intros sid' Hnone. rewrite (run_getSessionBySessionId w Hdb), Hnone.
  repeat split.
Qed.

Lemma ownership_enforced_witness :
  session_get (Demo.request (Some Demo.mallory) 1000) Demo.sid (Demo.world Connected false)
  = (Err Unauthorized, record (SelectSession Demo.sid) (Demo.world Connected false)) /\
  session_end (Demo.request (Some Demo.mallory) 1000) Demo.sid (Demo.world Connected false)
  = (Err NotFoundOrUnauthorized, record (SelectSession Demo.sid) (Demo.world Connected false))
  /\
  signaling_sendAnswerFromHost (Demo.request (Some Demo.mallory) 1000) Demo.sid None None
    (Demo.world Connected false)
  = (Err NotFoundOrUnauthorized, record (SelectSession Demo.sid) (Demo.world Connected false)).
Proof.
  assert (Hst : stored (Demo.world Connected false) Demo.sid (Demo.row Connected false))
    by (split; reflexivity).
  assert (Hne : hostUserId (Demo.row Connected false) <> Some (user_id Demo.mallory))
    by discriminate.
  destruct (ownership_enforced (Demo.request (Some Demo.mallory) 1000)
              (Demo.world Connected false) Demo.sid (Demo.row Connected false) Demo.mallory
              "OFFER" None None Hst eq_refl Hne) as (A & B & _ & _ & E & _).
  split; [exact A|]. split; [exact B|exact E].
Defined.

(** C5 (role masking).  Whatever the world, a successful
    signaling.getSignalingData call with role client returns null for
    [clientAnswer] and [clientIceCandidates], and a successful call with role
    host returns null for [hostOffer] and [hostIceCandidates], whether or not
    the stored session holds them. *)
Theorem role_masking (c : Ctx) (w : World) (sid : string) (password : option string)
    (role0 : Side) (out : SignalingData) :
  outcome (signaling_getSignalingData c sid password role0 w) = Ok out ->
  match role0 with
  | Client => sd_clientAnswer out = None /\ sd_clientIceCandidates out = None
  | Host => sd_hostOffer out = None /\ sd_hostIceCandidates out = None
  end.
Proof.
  destruct w as [db ss nid us logs out0 cs].
  unfold_procs. intros H.
  destruct db; cbv beta iota in H; [|discriminate].
  destruct (ss !! sid) as [s|]; [|discriminate].
  destruct role0; cbv beta iota in H.
  - destruct (differsOpt (user c) (hostUserId s)); cbn in H; [discriminate|].
    injection H as <-. split; reflexivity.
  - destruct (passwordRejected password (passwordHash s)); cbn in H; [discriminate|].
    injection H as <-. split; reflexivity.
Qed.

Lemma role_masking_witness :
  clientAnswer (Demo.row Connected false) = Some "ANSWER1"%string /\
  clientIceCandidates (Demo.row Connected false) = Some [JStr "c1"; JStr "c2"] /\
  exists out,
    outcome (signaling_getSignalingData (Demo.request None 1000) Demo.sid
               (Some Demo.password) Client (Demo.world Connected false)) = Ok out /\
    sd_clientAnswer out = None /\ sd_clientIceCandidates out = None.
Proof.
  split; [reflexivity|]. split; [reflexivity|].
  eexists. split.
  - vm_compute. reflexivity.
  - refine (role_masking (Demo.request None 1000) (Demo.world Connected false)
              Demo.sid (Some Demo.password) Client _ _).
    vm_compute. reflexivity.
Defined.

(** C6.  The code misses the gate it sets out to build.  Under the comment
    "For client, verify password" the test is
    [input.from === 'client' && input.password], so a client call that
    supplies no password is not checked at all: sent by an unauthenticated
    caller to a stored session, it succeeds and its candidate is stored, where
    the claim has it fail with InvalidPassword and leave the session
    unchanged.  The same caller is refused with a wrong password, and
    sendAnswer, where the password is not optional, refuses the empty one. *)
Lemma ice_candidate_without_password :
  outcome (signaling_sendIceCandidate (Demo.request None 1000) Demo.sid None "c3" Client
             (Demo.world Connected false)) = Ok true /\
  clientIceCandidates <$>
    sessions (after (signaling_sendIceCandidate (Demo.request None 1000) Demo.sid None
                       "c3" Client (Demo.world Connected false))) !! Demo.sid
  = Some (Some [JStr "c1"; JStr "c2"; JStr "c3"]) /\
  outcome (signaling_sendIceCandidate (Demo.request None 1000) Demo.sid
             (Some "WRONG"%string) "c3" Client (Demo.world Connected false))
  = Err InvalidPassword /\
  outcome (signaling_sendAnswer (Demo.request None 1000) Demo.sid EmptyString "A"
             (Demo.world Connected false)) = Err InvalidPassword.
Proof. vm_compute. repeat split; reflexivity. Qed.

(** The checks that signaling.sendIceCandidate does make on a stored
    session.  A call with from=client that supplies a non-empty password
    which does not verify against the stored [passwordHash] fails with
    InvalidPassword and leaves every session unchanged, while a client call
    that supplies no password, or the empty one, escapes the check.  A call
    with from=host fails with Unauthorized, leaving every session unchanged,
    unless the caller is authenticated with a user id equal to the session's
    [hostUserId]. *)
Theorem ice_candidate_gating (c : Ctx) (w : World) (sid : string) (s : Session)
    (candidate : string) :
  stored w sid s ->
  (forall pw,
      pw <> EmptyString ->
      verifyPassword pw (passwordHash s) = false ->
      signaling_sendIceCandidate c sid (Some pw) candidate Client w
      = (Err InvalidPassword, record (SelectSession sid) w)) /\
  (forall pw,
      pw = None \/ pw = Some EmptyString ->
      outcome (signaling_sendIceCandidate c sid pw candidate Client w) = Ok true) /\
  (forall pw,
      ~ (exists u, user c = Some u /\ hostUserId s = Some (user_id u)) ->
      signaling_sendIceCandidate c sid pw candidate Host w
      = (Err Unauthorized, record (SelectSession sid) w)).
Proof.
  intros [Hdb Hs]. unfold signaling_sendIceCandidate, bind.
  rewrite (run_getSessionBySessionId w Hdb), Hs. repeat split.
  - intros pw Hne Hpw. cbn [passwordRejected].
    apply String.eqb_neq in Hne. rewrite Hne, Hpw. reflexivity.
  - intros pw [->| ->]; cbn [passwordRejected];
      rewrite ?String.eqb_refl; cbn [negb andb];
      rewrite run_updateSessionSignaling by exact Hdb; reflexivity.
  - intros pw Hno.
    assert (Hd : differsOpt (user c) (hostUserId s) = true).
    { unfold differsOpt. destruct (user c) as [u|]; [|reflexivity].
      apply differs_true. intros Hh. apply Hno. exists u. auto. }
    rewrite Hd. reflexivity.
Qed.

Lemma ice_candidate_gating_witness :
  signaling_sendIceCandidate (Demo.request None 1000) Demo.sid (Some "WRONG"%string) "c3"
    Client (Demo.world Connected false)
  = (Err InvalidPassword, record (SelectSession Demo.sid) (Demo.world Connected false)) /\
  outcome (signaling_sendIceCandidate (Demo.request None 1000) Demo.sid None "c3" Client
             (Demo.world Connected false)) = Ok true /\
  signaling_sendIceCandidate (Demo.request (Some Demo.mallory) 1000) Demo.sid None "c3"
    Host (Demo.world Connected false)
  = (Err Unauthorized, record (SelectSession Demo.sid) (Demo.world Connected false)).
Proof.
  assert (Hst : stored (Demo.world Connected false) Demo.sid (Demo.row Connected false))
    by (split; reflexivity).
  assert (Hpw : verifyPassword "WRONG" (passwordHash (Demo.row Connected false)) = false)
    by (vm_compute; reflexivity).
  destruct (ice_candidate_gating (Demo.request None 1000) _ _ _ "c3" Hst) as (A & B & _).
  destruct (ice_candidate_gating (Demo.request (Some Demo.mallory) 1000) _ _ _ "c3" Hst)
    as (_ & _ & C).
  split; [exact (A "WRONG"%string ltac:(discriminate) Hpw)|].
  split; [exact (B None (or_introl eq_refl))|].
  apply C. intros (u & Hu & Hh). injection Hu as <-. discriminate Hh.
Defined.

Lemma step_ice (op : Op) (w : World) (sid : string) (s : Session) :
  sessions w !! sid = Some s ->
  exists s', sessions (step op w) !! sid = Some s' /\ iceStep op s s'.
Proof.
  destruct w as [db ss nid us logs out cs]. cbn [sessions]. intros Hs.
  destruct db, op; unfold_procs; split_cases; cbv [sessions snd];
    lookup_altered Hs; unfold iceStep; simpl; auto;
    repeat match goal with
           | H : ss !! _ = Some _ |- _ => rewrite H in *
           end; simplify_eq; auto;
    match goal with
    | |- match ?f with Host => _ | Client => _ end => destruct f; auto
    end.
Qed.

Lemma extends_refl (l : option (list json)) : extends l l.
Proof. exists []. symmetry. apply app_nil_r. Qed.

Lemma extends_trans (a b c : option (list json)) :
  extends a b -> extends b c -> extends a c.
Proof.
  intros [x Hx] [y Hy]. exists (x ++ y). rewrite Hy, Hx. symmetry. apply app_assoc.
Qed.

Lemma iceStep_extends (op : Op) (s s' : Session) :
  appendOnly op = true ->
  iceStep op s s' ->
  extends (hostIceCandidates s) (hostIceCandidates s') /\
  extends (clientIceCandidates s) (clientIceCandidates s').
Proof.
  intros Hop Hrel.
  destruct op; try discriminate Hop; cbn [iceStep] in Hrel;
    try (destruct Hrel as [-> ->]; split; apply extends_refl).
  destruct from; destruct Hrel as [-> [-> | ->]]; split;
    try apply extends_refl; eexists; reflexivity.
Qed.

Lemma run_ice (ops : list Op) :
  forall (w : World) (sid : string) (s : Session),
    sessions w !! sid = Some s ->
    forallb appendOnly ops = true ->
    exists s', sessions (run ops w) !! sid = Some s' /\
               extends (hostIceCandidates s) (hostIceCandidates s') /\
               extends (clientIceCandidates s) (clientIceCandidates s').
Proof.
  induction ops as [|op ops IH]; intros w sid s Hs Hall.
  - exists s. auto using extends_refl.
  - cbn [forallb] in Hall. apply andb_prop in Hall as [Hop Hall].
    destruct (step_ice op w sid s Hs) as (s1 & Hs1 & Hrel).
    destruct (iceStep_extends op s s1 Hop Hrel) as [Hh Hc].
    destruct (IH (step op w) sid s1 Hs1 Hall) as (s' & Hs' & Hh' & Hc').
    exists s'. rewrite run_cons. eauto using extends_trans.
Qed.

(** C7, as it stands, fails: [sendOfferFromClient] overwrites the client's
    candidate list, with the list it is given or with null. *)
Lemma ice_candidates_overwritten :
  clientIceCandidates <$> sessions (Demo.world Connected false) !! Demo.sid
  = Some (Some [JStr "c1"; JStr "c2"]) /\
  clientIceCandidates <$>
    sessions (step (OpSendOfferFromClient (Demo.request None 1000) Demo.sid (Some JNull) None)
                   (Demo.world Connected false)) !! Demo.sid
  = Some None /\
  clientIceCandidates <$>
    sessions (step (OpSendOfferFromClient (Demo.request None 1000) Demo.sid (Some JNull)
                      (Some [JStr "x"]))
                   (Demo.world Connected false)) !! Demo.sid
  = Some (Some [JStr "x"]).
Proof. vm_compute. repeat split; reflexivity. Qed.

(** C7, amended.  For a stored session, every successful sendIceCandidate
    call appends exactly one candidate to the list of the submitting side
    and leaves the other side's list as it was; and under every sequence of
    join, sendOffer, sendAnswer, sendIceCandidate, clientDisconnect,
    updateStatus and end, each list keeps all the candidates it had, in
    order, possibly followed by new ones.  The lists are not append-only
    beyond that: sendOfferFromClient overwrites [clientIceCandidates], and
    sendAnswerFromHost by the owner overwrites [hostIceCandidates], with the
    list given in the call, or with null when none is given. *)
Theorem ice_candidates_append_only (w : World) (sid : string) (s : Session) :
  stored w sid s ->
  (forall c pw cand from,
      outcome (signaling_sendIceCandidate c sid pw cand from w) = Ok true ->
      exists s',
        sessions (after (signaling_sendIceCandidate c sid pw cand from w)) !! sid = Some s' /\
        match from with
        | Host =>
            hostIceCandidates s' = Some (parsedOrEmpty (hostIceCandidates s) ++ [JStr cand]) /\
            clientIceCandidates s' = clientIceCandidates s
        | Client =>
            clientIceCandidates s'
            = Some (parsedOrEmpty (clientIceCandidates s) ++ [JStr cand]) /\
            hostIceCandidates s' = hostIceCandidates s
        end) /\
  (forall ops,
      forallb appendOnly ops = true ->
      exists s', sessions (run ops w) !! sid = Some s' /\
                 extends (hostIceCandidates s) (hostIceCandidates s') /\
                 extends (clientIceCandidates s) (clientIceCandidates s')) /\
  (forall c offer ice,
      exists s',
        sessions (step (OpSendOfferFromClient c sid offer ice) w) !! sid = Some s' /\
        clientIceCandidates s' = ice /\
        hostIceCandidates s' = hostIceCandidates s) /\
  (forall c u answer ice,
      user c = Some u -> hostUserId s = Some (user_id u) ->
      exists s',
        sessions (step (OpSendAnswerFromHost c sid answer ice) w) !! sid = Some s' /\
        hostIceCandidates s' = ice /\
        clientIceCandidates s' = clientIceCandidates s).
Proof.
  intros [Hdb Hs]. split; [|split; [|split]].
  - intros c pw cand from. on_stored w Hdb Hs.
    destruct from; cbv beta iota.
    + destruct (differsOpt (user c) (hostUserId s)); cbv beta iota;
        [discriminate|]. intros _.
      eexists. split; [rewrite lookup_alter_eq, Hs; reflexivity|].
      split; reflexivity.
    + destruct (passwordRejected pw (passwordHash s)); cbv beta iota;
        [discriminate|]. intros _.
      eexists. split; [rewrite lookup_alter_eq, Hs; reflexivity|].
      split; reflexivity.
  - intros ops Hall. exact (run_ice ops w sid s Hs Hall).
  - intros c offer ice. on_stored w Hdb Hs.
    eexists. split; [rewrite !lookup_alter_eq, Hs; reflexivity|].
    destruct offer; split; reflexivity.
  - intros c u answer ice Hu Hh. on_stored w Hdb Hs.
    rewrite Hu. cbv beta iota. rewrite Hs. cbv beta iota.
    unfold differs. rewrite Hh, Z.eqb_refl. cbv [negb].
    eexists. split; [rewrite !lookup_alter_eq, Hs; reflexivity|].
    destruct answer; split; reflexivity.
Qed.

Lemma ice_candidates_append_only_witness :
  (exists s',
      sessions (after (signaling_sendIceCandidate (Demo.request None 10) Demo.sid
                         (Some Demo.password) "c3" Client (Demo.world Waiting false)))
        !! Demo.sid = Some s' /\
      clientIceCandidates s' = Some [JStr "c1"; JStr "c2"; JStr "c3"] /\
      hostIceCandidates s' = Some [JStr "h1"]) /\
  (exists s',
      sessions (run [OpSendIceCandidate (Demo.request None 10) Demo.sid None "c3" Client;
                     OpSendAnswer (Demo.request None 20) Demo.sid Demo.password "ANSWER2";
                     OpSendIceCandidate (Demo.request (Some Demo.alice) 30) Demo.sid None
                       "h2" Host]
                    (Demo.world Waiting false)) !! Demo.sid = Some s' /\
      extends (hostIceCandidates (Demo.row Waiting false)) (hostIceCandidates s') /\
      extends (clientIceCandidates (Demo.row Waiting false)) (clientIceCandidates s')) /\
  (exists s',
      sessions (step (OpSendAnswerFromHost (Demo.request (Some Demo.alice) 40) Demo.sid
                        None (Some [JStr "x"]))
                     (Demo.world Waiting false)) !! Demo.sid = Some s' /\
      hostIceCandidates s' = Some [JStr "x"] /\
      clientIceCandidates s' = Some [JStr "c1"; JStr "c2"]).
Proof.
  assert (Hst : stored (Demo.world Waiting false) Demo.sid (Demo.row Waiting false))
    by (split; reflexivity).
  assert (Hok : outcome (signaling_sendIceCandidate (Demo.request None 10) Demo.sid
                           (Some Demo.password) "c3" Client (Demo.world Waiting false))
                = Ok true)
    by (vm_compute; reflexivity).
  destruct (ice_candidates_append_only _ _ _ Hst) as (A & B & _ & D).
  split; [exact (A (Demo.request None 10) (Some Demo.password) "c3"%string Client Hok)|].
  split; [refine (B _ _); reflexivity|].
  exact (D (Demo.request (Some Demo.alice) 40) Demo.alice None (Some [JStr "x"])
           eq_refl eq_refl).
Defined.

(** The effect of [session.end] called by the owner of a stored session. *)
Lemma session_end_by_owner (c : Ctx) (w : World) (sid : string) (s : Session) (u : User) :
  stored w sid s ->
  user c = Some u ->
  hostUserId s = Some (user_id u) ->
  let r := session_end c sid w in
  let sent := endNotificationSent s in
  outcome r = Ok true /\
  dbAvailable (after r) = true /\
  sessions (after r) !! sid
  = Some (assignAll ([SetStatus Disconnected; SetEndedAt (now c)]
                     ++ if sent then [] else [SetEndNotificationSent true]) s) /\
  outbox (after r) = outbox w ++ (if sent then [] else [endedByHost sid]) /\
  calls (after r)
  = calls w ++ [SelectSession sid;
                UpdateSession sid [SetStatus Disconnected; SetEndedAt (now c)];
                InsertSessionLog (id s) session_ended]
            ++ (if sent then [] else [UpdateSession sid [SetEndNotificationSent true]]).
Proof.
  intros [Hdb Hs] Hu Hh. on_stored w Hdb Hs.
  rewrite Hu. cbv beta iota. rewrite Hs. cbv beta iota.
  unfold differs. rewrite Hh, Z.eqb_refl. cbv [negb].
  destruct (endNotificationSent s); cbv beta iota;
    rewrite !lookup_alter_eq, Hs, <- !app_assoc, ?app_nil_r; repeat split.
Qed.

(** C8, as it stands, fails: not for every session does the first of two
    session.end calls send the notification and set the flag.  Once a client
    has disconnected from a connected session, which sends the end
    notification and sets [endNotificationSent], two session.end calls by the
    owner both succeed, dispatch nothing and write no flag: none in all, not
    one. *)
Lemma end_after_disconnect_notifies_nothing :
  let w0 := after (signaling_clientDisconnect (Demo.request None 500) Demo.sid
                     (Demo.world Connected false)) in
  let r1 := session_end (Demo.request (Some Demo.alice) 1000) Demo.sid w0 in
  let r2 := session_end (Demo.request (Some Demo.alice) 2000) Demo.sid (after r1) in
  endNotificationSent <$> sessions w0 !! Demo.sid = Some true /\
  outcome r1 = Ok true /\ outcome r2 = Ok true /\
  outbox (after r2) = outbox w0 /\
  endFlagWrites Demo.sid (calls (after r2)) = endFlagWrites Demo.sid (calls w0).
Proof. vm_compute. repeat split; reflexivity. Qed.

(** C8, amended.  When the owner of a stored session calls session.end
    twice in sequence, both calls succeed and together they dispatch at most
    one end notification and write [endNotificationSent = true] at most once.
    When the session has not yet had its end notification, the first call
    dispatches it and writes the flag, and the second, reading the flag as
    true, dispatches nothing and does not write the flag: one dispatch and one
    write in all.  When the flag is already set, neither call dispatches or
    writes anything. *)
Theorem end_twice_notifies_once (c1 c2 : Ctx) (w : World) (sid : string) (s : Session)
    (u : User) :
  stored w sid s ->
  user c1 = Some u ->
  user c2 = Some u ->
  hostUserId s = Some (user_id u) ->
  let r1 := session_end c1 sid w in
  let r2 := session_end c2 sid (after r1) in
  outcome r1 = Ok true /\ outcome r2 = Ok true /\
  outbox (after r1)
  = outbox w ++ (if endNotificationSent s then [] else [endedByHost sid]) /\
  outbox (after r2) = outbox (after r1) /\
  endFlagWrites sid (calls (after r1))
  = ((if endNotificationSent s then 0 else 1) + endFlagWrites sid (calls w))%nat /\
  endFlagWrites sid (calls (after r2)) = endFlagWrites sid (calls (after r1)) /\
  endNotificationSent <$> sessions (after r2) !! sid = Some true.
Proof.
  intros Hst Hu1 Hu2 Hh r1 r2.
  destruct (session_end_by_owner c1 w sid s u Hst Hu1 Hh)
    as (Hr1 & Hdb1 & Hs1 & Hout1 & Hcalls1).
  fold r1 in Hr1, Hdb1, Hs1, Hout1, Hcalls1.
  set (s1 := assignAll ([SetStatus Disconnected; SetEndedAt (now c1)]
                        ++ if endNotificationSent s then []
                           else [SetEndNotificationSent true]) s) in Hs1.
  assert (Hflag : endNotificationSent s1 = true)
    by (subst s1; destruct (endNotificationSent s) eqn:E; cbn; [exact E|reflexivity]).
  assert (Hh1 : hostUserId s1 = Some (user_id u))
    by (subst s1; destruct (endNotificationSent s); exact Hh).
  clearbody s1.
  assert (Hst1 : stored (after r1) sid s1) by (split; assumption).
  destruct (session_end_by_owner c2 (after r1) sid s1 u Hst1 Hu2 Hh1)
    as (Hr2 & _ & Hs2 & Hout2 & Hcalls2).
  fold r2 in Hr2, Hs2, Hout2, Hcalls2.
  rewrite Hflag in Hs2, Hout2, Hcalls2.
  repeat split; try assumption.
  - rewrite Hout2. apply app_nil_r.
  - rewrite Hcalls1. unfold endFlagWrites.
    rewrite !List.filter_app, !length_app.
    destruct (endNotificationSent s); cbn [List.filter setsEndFlag existsb];
      rewrite ?String.eqb_refl; cbn [andb orb length]; lia.
  - rewrite Hcalls2. unfold endFlagWrites.
    rewrite !List.filter_app, !length_app. cbn [List.filter setsEndFlag existsb].
    rewrite ?String.eqb_refl. cbn [andb orb length]. lia.
  - rewrite Hs2. cbn. rewrite Hflag. reflexivity.
Qed.

Lemma end_twice_notifies_once_witness :
  let r1 := session_end (Demo.request (Some Demo.alice) 1000) Demo.sid
              (Demo.world Connected false) in
  let r2 := session_end (Demo.request (Some Demo.alice) 2000) Demo.sid (after r1) in
  outbox (after r1) = outbox (Demo.world Connected false) ++ [endedByHost Demo.sid] /\
  outbox (after r2) = outbox (after r1) /\
  endFlagWrites Demo.sid (calls (after r1))
  = (1 + endFlagWrites Demo.sid (calls (Demo.world Connected false)))%nat /\
  endFlagWrites Demo.sid (calls (after r2)) = endFlagWrites Demo.sid (calls (after r1)).
Proof.
  assert (Hst : stored (Demo.world Connected false) Demo.sid (Demo.row Connected false))
    by (split; reflexivity).
  destruct (end_twice_notifies_once (Demo.request (Some Demo.alice) 1000)
              (Demo.request (Some Demo.alice) 2000) (Demo.world Connected false)
              Demo.sid (Demo.row Connected false) Demo.alice Hst eq_refl eq_refl eq_refl)
    as (_ & _ & A & B & C & D & _).
  cbv zeta. split; [exact A|]. split; [exact B|]. split; [exact C|exact D].
Defined.

Example demo_end_twice :
  let w2 := after (session_end (Demo.request (Some Demo.alice) 2000) Demo.sid
                     (after (session_end (Demo.request (Some Demo.alice) 1000) Demo.sid
                               (Demo.world Connected false)))) in
  outbox w2 = [endedByHost Demo.sid] /\
  calls w2 = [SelectSession Demo.sid;
              UpdateSession Demo.sid [SetStatus Disconnected; SetEndedAt 1000];
              InsertSessionLog 1 session_ended;
              UpdateSession Demo.sid [SetEndNotificationSent true];
              SelectSession Demo.sid;
              UpdateSession Demo.sid [SetStatus Disconnected; SetEndedAt 2000];
              InsertSessionLog 1 session_ended].
Proof. vm_compute. split; reflexivity. Qed.

Lemma found_user_db (w : World) (mail : string) (host : User) :
  outcome (getUserByEmail mail w) = Ok (Some host) ->
  dbAvailable w = true /\
  List.find (fun u => bool_decide (email u = Some mail)) (users w) = Some host.
Proof.
  unfold getUserByEmail, bind, getDb, outcome.
  destruct (dbAvailable w); cbn; [|discriminate].
  intros H. injection H as H. auto.
Qed.

(** C9 (calendar bridge).  calendar.createMeeting with an [apiKey]
    different from the derived calendar key fails with InvalidKey and leaves
    the world as it was: no statement reaches the store.  With the right key
    and a [hostEmail] that resolves to a local user, and the store accepting
    the generated session id as new, it creates a waiting session owned by
    that user, stores the hash of the generated password, and returns that
    password together with [joinUrl = <base>/join/<sessionId>?p=<password>]
    and [hostUrl = <base>/viewer/<sessionId>]. *)
Theorem createMeeting_contract (c : Ctx) (w : World) (apiKey hostEmail : string)
    (minutes : Z) (calId calSrc : option string) :
  (apiKey <> getCalendarApiKey (env c) ->
   calendar_createMeeting c apiKey hostEmail minutes calId calSrc w = (Err InvalidKey, w)) /\
  (forall host,
      apiKey = getCalendarApiKey (env c) ->
      outcome (getUserByEmail hostEmail w) = Ok (Some host) ->
      sessions w !! generateSessionId (entropy c) 0 = None ->
      let sid := generateSessionId (entropy c) 0 in
      let pw := generateSessionPassword (entropy c) 12 in
      let r := calendar_createMeeting c apiKey hostEmail minutes calId calSrc w in
      exists out row,
        outcome r = Ok out /\
        mo_sessionId out = sid /\
        mo_password out = pw /\
        joinUrl out = baseUrl (env c) +:+ "/join/" +:+ sid +:+ "?p=" +:+ pw /\
        hostUrl out = baseUrl (env c) +:+ "/viewer/" +:+ sid /\
        sessions (after r) !! sid = Some row /\
        passwordHash row = hashPassword pw /\
        status row = Waiting /\
        hostUserId row = Some (user_id host) /\
        expiresAt row = now c + minutes * 60 * 1000).
Proof.
  split.
  - intros Hkey. unfold calendar_createMeeting.
    apply String.eqb_neq in Hkey. rewrite Hkey. reflexivity.
  - intros host -> Hhost Hfresh sid pw r.
    destruct (found_user_db w hostEmail host Hhost) as [Hdb Hfind].
    subst sid pw r. unfold calendar_createMeeting. rewrite String.eqb_refl. cbn [negb].
    destruct w as [db ss nid us logs out cs].
    cbn [dbAvailable sessions users] in Hdb, Hfresh, Hfind. subst db.
    cbv [outcome after createCalendarSession insertSession newSession
         getUserByEmail selectUserByEmail selectSession logSessionActivity insertSessionLog
         getDb bind ret throw negb
         record onSessions addLog bumpRowId
         dbAvailable sessions nextRowId users sessionLogs outbox calls
         sessionId id fst snd].
    rewrite Hfind. cbv beta iota. rewrite Hfresh. cbv beta iota.
    rewrite !lookup_insert_eq. cbv beta iota.
    do 2 eexists. repeat split.
Qed.

Lemma createMeeting_contract_witness :
  calendar_createMeeting (Demo.request None 1000) "not-the-key" "alice@mercury.com" 120
    None None (Demo.world Waiting false)
  = (Err InvalidKey, Demo.world Waiting false) /\
  exists out row,
    outcome (calendar_createMeeting (Demo.request None 1000)
               (getCalendarApiKey Demo.environment) "alice@mercury.com" 120 None None
               (Demo.world Waiting false)) = Ok out /\
    mo_sessionId out = generateSessionId (entropy (Demo.request None 1000)) 0 /\
    mo_password out = generateSessionPassword (entropy (Demo.request None 1000)) 12 /\
    joinUrl out
    = baseUrl Demo.environment +:+ "/join/"
      +:+ generateSessionId (entropy (Demo.request None 1000)) 0 +:+ "?p="
      +:+ generateSessionPassword (entropy (Demo.request None 1000)) 12 /\
    hostUrl out
    = baseUrl Demo.environment +:+ "/viewer/"
      +:+ generateSessionId (entropy (Demo.request None 1000)) 0 /\
    sessions (after (calendar_createMeeting (Demo.request None 1000)
                       (getCalendarApiKey Demo.environment) "alice@mercury.com" 120
                       None None (Demo.world Waiting false)))
      !! generateSessionId (entropy (Demo.request None 1000)) 0 = Some row /\
    passwordHash row
    = hashPassword (generateSessionPassword (entropy (Demo.request None 1000)) 12) /\
    status row = Waiting /\
    hostUserId row = Some (user_id Demo.alice) /\
    expiresAt row = 1000 + 120 * 60 * 1000.
Proof.
  assert (Hkey : "not-the-key"%string <> getCalendarApiKey (env (Demo.request None 1000)))
    by (vm_compute; discriminate).
  assert (Hfresh : sessions (Demo.world Waiting false)
                     !! generateSessionId (entropy (Demo.request None 1000)) 0 = None)
    by (vm_compute; reflexivity).
  split.
  - exact (proj1 (createMeeting_contract (Demo.request None 1000) (Demo.world Waiting false)
                    "not-the-key" "alice@mercury.com" 120 None None) Hkey).
  - exact (proj2 (createMeeting_contract (Demo.request None 1000) (Demo.world Waiting false)
                    (getCalendarApiKey Demo.environment) "alice@mercury.com" 120 None None)
             Demo.alice eq_refl eq_refl Hfresh).
Defined.

Example demo_createMeeting :
  let r := calendar_createMeeting (Demo.request None 1000)
             (getCalendarApiKey Demo.environment) "alice@mercury.com" 120
             (Some "cal-event-123"%string) (Some "ops-platform"%string)
             (Demo.world Waiting false) in
  (joinUrl <$> match outcome r with Ok out => Some out | Err _ => None end)
  = Some ("https://connect.mercuryholdings.co/join/031425364758697a8b9cadbe?p=CFE0F102")%string /\
  (hostUrl <$> match outcome r with Ok out => Some out | Err _ => None end)
  = Some ("https://connect.mercuryholdings.co/viewer/031425364758697a8b9cadbe")%string /\
  hostUserId <$> sessions (after r) !! "031425364758697a8b9cadbe"%string = Some (Some 7).
Proof. vm_compute. repeat split; reflexivity. Qed.

(** C10.  signaling.updateStatus asks for no credential: whoever the caller
    is and whatever password is or is not supplied, on a stored session the
    call succeeds and sets the status to connected or disconnected as
    requested; setting disconnected also appends the [disconnected] log entry
    and goes through the end notification, sent unless the flag says it
    already was, after which the flag is set.  The call fails only when the
    session is not found, and then with NotFound. *)
Theorem updateStatus_needs_no_credential (c : Ctx) (w : World) (sid : string)
    (pw : option string) (st : StatusUpdate) :
  (forall s,
      stored w sid s ->
      let r := signaling_updateStatus c sid pw st w in
      outcome r = Ok true /\
      statusAt (after r) sid = Some (statusOf st) /\
      match st with
      | ToConnected =>
          sessionLogs (after r) = sessionLogs w /\ outbox (after r) = outbox w
      | ToDisconnected =>
          sessionLogs (after r)
          = sessionLogs w ++ [{| log_sessionId := id s; activityType := disconnected;
                                 details := Some (JObj []); log_createdAt := now c |}] /\
          outbox (after r)
          = outbox w ++ (if endNotificationSent s then [] else [sessionDisconnected sid]) /\
          endNotificationSent <$> sessions (after r) !! sid = Some true
      end) /\
  (forall e,
      outcome (signaling_updateStatus c sid pw st w) = Err e ->
      e = NotFound /\ outcome (getSessionBySessionId sid w) = Ok None) /\
  (outcome (getSessionBySessionId sid w) = Ok None ->
   outcome (signaling_updateStatus c sid pw st w) = Err NotFound).
Proof.
  split; [|split].
  - intros s [Hdb Hs] r. subst r. unfold statusAt. on_stored w Hdb Hs.
    destruct st; cbv beta iota.
    + rewrite !lookup_alter_eq, Hs. repeat split.
    + destruct (endNotificationSent s) eqn:Hsent; cbv beta iota;
        rewrite !lookup_alter_eq, Hs, ?app_nil_r; cbn; rewrite ?Hsent; repeat split.
  - intros e. destruct w as [db ss nid us logs out cs]. unfold_procs.
    destruct db; cbv beta iota.
    + destruct (ss !! sid) as [s|]; cbv beta iota.
      * destruct st; cbv beta iota; [discriminate|].
        destruct (endNotificationSent s); discriminate.
      * intros H. injection H as <-. split; reflexivity.
    + intros H. injection H as <-. split; reflexivity.
  - destruct w as [db ss nid us logs out cs]. unfold_procs.
    destruct db; cbv beta iota; [|reflexivity].
    destruct (ss !! sid) as [s|]; cbv beta iota; [discriminate|reflexivity].
Qed.

Lemma updateStatus_needs_no_credential_witness :
  outcome (signaling_updateStatus (Demo.request None 1000) Demo.sid None ToDisconnected
             (Demo.world Connected false)) = Ok true /\
  (NotFound = NotFound /\
   outcome (getSessionBySessionId "ffffffffffffffffffffffff" (Demo.world Connected false))
   = Ok None) /\
  outcome (signaling_updateStatus (Demo.request None 1000) "ffffffffffffffffffffffff" None
             ToConnected (Demo.world Connected false)) = Err NotFound.
Proof.
  assert (Hst : stored (Demo.world Connected false) Demo.sid (Demo.row Connected false))
    by (split; reflexivity).
  assert (Herr : outcome (signaling_updateStatus (Demo.request None 1000)
                            "ffffffffffffffffffffffff" None ToConnected
                            (Demo.world Connected false)) = Err NotFound)
    by (vm_compute; reflexivity).
  assert (Hnone : outcome (getSessionBySessionId "ffffffffffffffffffffffff"
                             (Demo.world Connected false)) = Ok None)
    by (vm_compute; reflexivity).
  split; [|split].
  - exact (proj1 (proj1 (updateStatus_needs_no_credential (Demo.request None 1000)
                           (Demo.world Connected false) Demo.sid None ToDisconnected)
                    (Demo.row Connected false) Hst)).
  - exact (proj1 (proj2 (updateStatus_needs_no_credential (Demo.request None 1000)
                           (Demo.world Connected false) "ffffffffffffffffffffffff" None
                           ToConnected)) NotFound Herr).
  - exact (proj2 (proj2 (updateStatus_needs_no_credential (Demo.request None 1000)
                           (Demo.world Connected false) "ffffffffffffffffffffffff" None
                           ToConnected)) Hnone).
Defined.

(* ===================================================================== *)
(** ** Further properties of the store and of the procedures *)
(* ===================================================================== *)

Lemma assignAll_app (d1 d2 : list Assign) (s : Session) :
  assignAll (d1 ++ d2) s = assignAll d2 (assignAll d1 s).
Proof. unfold assignAll. apply fold_left_app. Qed.

Lemma alter_assignAll_app (d1 d2 : list Assign) (k : string) (m : gmap string Session) :
  alter (assignAll d2) k (alter (assignAll d1) k m) = alter (assignAll (d1 ++ d2)) k m.
Proof.
  rewrite alter_alter_eq. apply alter_ext. intros s _. cbn.
  symmetry. apply assignAll_app.
Qed.

Lemma alter_assignAll_nil (k : string) (m : gmap string Session) :
  m = alter (assignAll []) k m.
Proof. symmetry. apply alter_id. reflexivity. Qed.

(** Every call changes the table by one list of column assignments on the
    row it addresses. *)
Lemma step_sessions (op : Op) (w : World) :
  exists data, sessions (step op w) = alter (assignAll data) (opSid op) (sessions w).
Proof.
  destruct w as [db ss nid us logs out cs].
  destruct db, op; unfold_procs; split_cases; cbv [sessions snd opSid];
    rewrite ?alter_assignAll_app;
    first [eexists; reflexivity | exists []; apply alter_assignAll_nil].
Qed.

Lemma assignAll_identity (data : list Assign) (s : Session) :
  sameIdentity s (assignAll data s).
Proof.
  revert s. induction data as [|a data IH]; intros s.
  - repeat split.
  - cbn [assignAll fold_left]. specialize (IH (assign a s)).
    unfold assignAll in IH. unfold sameIdentity in *.
    destruct IH as (H1 & H2 & H3 & H4 & H5 & H6 & H7 & H8 & H9).
    rewrite H1, H2, H3, H4, H5, H6, H7, H8, H9. repeat split.
Qed.

Lemma sameIdentity_trans (a b c : Session) :
  sameIdentity a b -> sameIdentity b c -> sameIdentity a c.
Proof.
  unfold sameIdentity.
  intros (A1 & A2 & A3 & A4 & A5 & A6 & A7 & A8 & A9)
         (B1 & B2 & B3 & B4 & B5 & B6 & B7 & B8 & B9).
  rewrite B1, B2, B3, B4, B5, B6, B7, B8, B9. repeat split; assumption.
Qed.

(** X1.  No sequence of join, sendOffer, sendAnswer, sendIceCandidate,
    sendOfferFromClient, sendAnswerFromHost, clientDisconnect, updateStatus
    and end creates or deletes a session, and none changes the row id, the
    [sessionId], the [passwordHash], the owner, the [autoRecord] policy, the
    calendar provenance, [createdAt] or [expiresAt] of a session. *)
Theorem session_identity_preserved (ops : list Op) (w : World) (sid : string) :
  (sessions w !! sid = None -> sessions (run ops w) !! sid = None) /\
  (forall s, sessions w !! sid = Some s ->
             exists s', sessions (run ops w) !! sid = Some s' /\ sameIdentity s s').
Proof.
  revert w. induction ops as [|op ops IH]; intros w.
  - split; [auto|]. intros s Hs. exists s. split; [assumption|]. repeat split.
  - rewrite run_cons. destruct (step_sessions op w) as [data Hdata].
    destruct (IH (step op w)) as [Hnone Hsome]. split.
    + intros Hs. apply Hnone. rewrite Hdata. apply lookup_alter_None. assumption.
    + intros s Hs.
      assert (Hstep : exists s1, sessions (step op w) !! sid = Some s1 /\ sameIdentity s s1).
      { rewrite Hdata, lookup_alter. case_decide as Hk.
        - rewrite Hk, Hs. eexists. split; [reflexivity|]. apply assignAll_identity.
        - exists s. split; [assumption|]. repeat split. }
      destruct Hstep as (s1 & Hs1 & Hid1).
      destruct (Hsome s1 Hs1) as (s' & Hs' & Hid').
      exists s'. split; [assumption|]. exact (sameIdentity_trans _ _ _ Hid1 Hid').
Qed.

Lemma session_identity_preserved_witness :
  exists s',
    sessions (run [OpSendOfferFromClient (Demo.request None 10) Demo.sid (Some JNull) None;
                   OpUpdateStatus (Demo.request None 20) Demo.sid None ToDisconnected]
                  (Demo.world Waiting false)) !! Demo.sid = Some s' /\
    sameIdentity (Demo.row Waiting false) s'.
Proof.
  refine (proj2 (session_identity_preserved _ (Demo.world Waiting false) Demo.sid)
            (Demo.row Waiting false) _).
  reflexivity.
Defined.



Lemma step_appends (op : Op) (w : World) :
  dbAvailable (step op w) = dbAvailable w /\
  users (step op w) = users w /\
  nextRowId (step op w) = nextRowId w /\
  (exists l, sessionLogs (step op w) = sessionLogs w ++ l) /\
  (exists n, outbox (step op w) = outbox w ++ n) /\
  (exists q, calls (step op w) = calls w ++ q).
Proof.
  destruct w as [db ss nid us logs out cs].
  destruct db, op; unfold_procs; split_cases;
    cbv [dbAvailable users nextRowId sessionLogs outbox calls snd];
    rewrite <- ?app_assoc;
    (split; [reflexivity|]); (split; [reflexivity|]); (split; [reflexivity|]);
    (split; [first [eexists; reflexivity | exists []; symmetry; apply app_nil_r]|]);
    (split; first [eexists; reflexivity | exists []; symmetry; apply app_nil_r]).
Qed.

(** X3.  The audit log and the notifier's outbox only grow: whatever calls
    are made, the log entries and the notifications that existed are still
    there, in the same order, followed by the new ones; and no call touches
    the users table. *)
Theorem audit_log_append_only (ops : list Op) (w : World) :
  (exists l, sessionLogs (run ops w) = sessionLogs w ++ l) /\
  (exists n, outbox (run ops w) = outbox w ++ n) /\
  users (run ops w) = users w.
Proof.
  revert w. induction ops as [|op ops IH]; intros w.
  - split; [exists []|split; [exists []|reflexivity]]; symmetry; apply app_nil_r.
  - rewrite run_cons.
    destruct (IH (step op w)) as ((l & Hl) & (n & Hn) & Hu).
    destruct (step_appends op w) as (_ & Hu1 & _ & (l1 & Hl1) & (n1 & Hn1) & _).
    rewrite Hl, Hn, Hu, Hl1, Hn1, Hu1, <- !app_assoc. eauto.
Qed.

(** X4.  A call that throws has changed nothing: the sessions table, the
    audit log and the outbox are as before, and the only statement that may
    have reached the store is the read of the session. *)
Theorem failed_call_changes_nothing (op : Op) (w : World) (e : Error) :
  failure op w = Some e ->
  sessions (step op w) = sessions w /\
  sessionLogs (step op w) = sessionLogs w /\
  outbox (step op w) = outbox w /\
  (calls (step op w) = calls w \/
   calls (step op w) = calls w ++ [SelectSession (opSid op)]).
Proof.
  destruct w as [db ss nid us logs out cs].
  destruct db, op; unfold failure, thrown; unfold_procs; split_cases;
    cbv [sessions sessionLogs outbox calls snd opSid];
    intros H; try discriminate H; auto.
Qed.

Lemma failed_call_changes_nothing_witness :
  sessions (step (OpSendAnswer (Demo.request None 10) Demo.sid "WRONG" "A")
                 (Demo.world Waiting false))
  = sessions (Demo.world Waiting false).
Proof.
  refine (proj1 (failed_call_changes_nothing
                   (OpSendAnswer (Demo.request None 10) Demo.sid "WRONG" "A")
                   (Demo.world Waiting false) InvalidPassword _)).
  vm_compute. reflexivity.
Defined.

Lemma sessionId_newSession c sid hash host expires rec calId calSrc rowId :
  sessionId (newSession c sid hash host expires rec calId calSrc rowId) = sid.
Proof. reflexivity. Qed.

(** The world that [session.create] leaves behind when the insert is
    accepted. *)
Lemma run_session_create (c : Ctx) (w : World) (u : User) (input : option (Z * bool)) :
  user c = Some u ->
  dbAvailable w = true ->
  sessions w !! generateSessionId (entropy c) 0 = None ->
  let sid := generateSessionId (entropy c) 0 in
  let pw := generateSessionPassword (entropy c) 12 in
  let expires := now c + from_option fst 60 input * 60 * 1000 in
  let row := newSession c sid (hashPassword pw) (user_id u) expires
               (from_option snd false input) None None (nextRowId w) in
  session_create c input w
  = (Ok {| co_sessionId := sid; co_password := pw; co_expiresAt := expires;
           co_autoRecord := from_option snd false input |},
     addLog {| log_sessionId := nextRowId w; activityType := session_created;
               details := Some (JObj [("hostUserId"%string, JNum (user_id u))]);
               log_createdAt := now c |}
       (record (InsertSessionLog (nextRowId w) session_created)
          (record (SelectSession sid)
             (bumpRowId (onSessions (insert sid row) (record (InsertSession sid) w)))))).
Proof.
  intros Hu Hdb Hfresh sid pw expires row. subst sid pw expires row.
  destruct w as [db ss nid us logs out cs].
  cbn [dbAvailable sessions nextRowId] in *. subst db.
  unfold_create. rewrite Hu. cbv beta iota.
  rewrite !sessionId_newSession, Hfresh. cbv beta iota.
  rewrite lookup_insert_eq. cbv beta iota. reflexivity.
Qed.

(** X5.  session.create, called by an authenticated user while the generated
    id is new, stores one more session and touches no other: it is waiting,
    owned by the caller, expires [expiresInMinutes] (60 when not given) after
    the call, holds the hash of the returned password and no signaling
    payload, no candidate list and no notification flag; one [session_created]
    log entry is written and nothing is sent. *)
Theorem session_create_contract (c : Ctx) (w : World) (u : User)
    (input : option (Z * bool)) :
  user c = Some u ->
  dbAvailable w = true ->
  sessions w !! generateSessionId (entropy c) 0 = None ->
  let sid := generateSessionId (entropy c) 0 in
  let r := session_create c input w in
  exists out row,
    outcome r = Ok out /\
    co_sessionId out = sid /\
    co_password out = generateSessionPassword (entropy c) 12 /\
    co_expiresAt out = now c + from_option fst 60 input * 60 * 1000 /\
    sessions (after r) = <[sid := row]> (sessions w) /\
    id row = nextRowId w /\ sessionId row = sid /\
    passwordHash row = hashPassword (co_password out) /\
    status row = Waiting /\ hostUserId row = Some (user_id u) /\
    expiresAt row = co_expiresAt out /\ createdAt row = now c /\
    autoRecord row = from_option snd false input /\
    (clientName row, clientIp row) = (None, None) /\
    (hostOffer row, clientAnswer row) = (None, None) /\
    (clientOffer row, hostAnswer row) = (None, None) /\
    (hostIceCandidates row, clientIceCandidates row) = (None, None) /\
    (startNotificationSent row, endNotificationSent row) = (false, false) /\
    (connectedAt row, endedAt row) = (None, None) /\
    sessionLogs (after r)
    = sessionLogs w ++ [{| log_sessionId := nextRowId w; activityType := session_created;
                           details := Some (JObj [("hostUserId"%string, JNum (user_id u))]);
                           log_createdAt := now c |}] /\
    outbox (after r) = outbox w.
Proof.
  intros Hu Hdb Hfresh sid r. subst r.
  rewrite (run_session_create c w u input Hu Hdb Hfresh).
  do 2 eexists. repeat split.
Qed.

Lemma session_create_contract_witness :
  exists out row,
    outcome (session_create (Demo.request (Some Demo.alice) 0) (Some (5, true))
               (Demo.world Waiting false)) = Ok out /\
    co_sessionId out = "031425364758697a8b9cadbe"%string /\
    co_password out = "CFE0F102"%string /\
    co_expiresAt out = 300000 /\
    sessions (after (session_create (Demo.request (Some Demo.alice) 0) (Some (5, true))
                       (Demo.world Waiting false)))
    = <["031425364758697a8b9cadbe"%string := row]> (sessions (Demo.world Waiting false)) /\
    id row = 2 /\ sessionId row = "031425364758697a8b9cadbe"%string /\
    passwordHash row = hashPassword (co_password out) /\
    status row = Waiting /\ hostUserId row = Some 7.
Proof.
  assert (Hfresh : sessions (Demo.world Waiting false)
                     !! generateSessionId (entropy (Demo.request (Some Demo.alice) 0)) 0
                   = None) by (vm_compute; reflexivity).
  destruct (session_create_contract (Demo.request (Some Demo.alice) 0)
              (Demo.world Waiting false) Demo.alice (Some (5, true)) eq_refl eq_refl Hfresh)
    as (out & row & H1 & H2 & H3 & H4 & H5 & H6 & H7 & H8 & H9 & H10 & _).
  exists out, row. repeat split; assumption.
Defined.

(** The effect of an accepted [signaling.join]. *)
Lemma run_join_accepted (c : Ctx) (w : World) (sid : string) (s : Session)
    (pw : string) (name : option string) :
  stored w sid s ->
  joinable c s ->
  verifyPassword pw (passwordHash s) = true ->
  let r := signaling_join c sid pw name w in
  let sent := startNotificationSent s in
  outcome r = Ok {| jo_success := true; jo_sessionId := sessionId s;
                    jo_hostOffer := hostOffer s |} /\
  dbAvailable (after r) = true /\
  sessions (after r) !! sid
  = Some (assignAll ((key SetClientName name ++ [SetClientIp (beforeComma (requestIp c))])
                     ++ if sent then [] else [SetStartNotificationSent true]) s) /\
  sessionLogs (after r) = sessionLogs w ++ [joinedLog c s name] /\
  outbox (after r) = outbox w ++ (if sent then [] else [sessionStarted c sid name]).
Proof.
  intros [Hdb Hs] (Hexp & Hdis & Htime) Hpw. on_stored w Hdb Hs.
  rewrite (bool_decide_eq_false_2 _ Hexp), (bool_decide_eq_false_2 _ Hdis).
  apply Z.ltb_ge in Htime. rewrite Htime, Hpw. cbv [orb negb].
  destruct (startNotificationSent s), name; cbv beta iota;
    rewrite ?alter_assignAll_app, !lookup_alter_eq, Hs, ?app_nil_r; repeat split.
Qed.

Lemma newSession_joinable (c c2 : Ctx) sid hash host expires rec calId calSrc rowId :
  now c2 <= expires ->
  joinable c2 (newSession c sid hash host expires rec calId calSrc rowId).
Proof. intros H. repeat split; [discriminate|discriminate|exact H]. Qed.

(** X6.  The password that session.create returns opens the session it
    created: a join with it, at any time up to the expiry, is accepted and
    finds no host offer yet, while a join with a password of another hash is
    refused with InvalidPassword. *)
Theorem create_then_join (c c2 : Ctx) (w : World) (u : User) (input : option (Z * bool))
    (name : option string) :
  user c = Some u ->
  dbAvailable w = true ->
  sessions w !! generateSessionId (entropy c) 0 = None ->
  now c2 <= now c + from_option fst 60 input * 60 * 1000 ->
  let sid := generateSessionId (entropy c) 0 in
  let pw := generateSessionPassword (entropy c) 12 in
  let w1 := after (session_create c input w) in
  outcome (signaling_join c2 sid pw name w1)
  = Ok {| jo_success := true; jo_sessionId := sid; jo_hostOffer := None |} /\
  (forall other,
      hashPassword other <> hashPassword pw ->
      outcome (signaling_join c2 sid other name w1) = Err InvalidPassword).
Proof.
  intros Hu Hdb Hfresh Htime sid pw w1. subst w1.
  rewrite (run_session_create c w u input Hu Hdb Hfresh). fold sid pw.
  set (row := newSession c sid (hashPassword pw) (user_id u) _ _ None None (nextRowId w)).
  match goal with |- context [after (_, ?x)] => set (w1 := x) end.
  assert (Hst : stored w1 sid row).
  { split; [exact Hdb|]. subst w1. destruct w. cbn. apply lookup_insert_eq. }
  assert (Hj : joinable c2 row) by (apply newSession_joinable; exact Htime).
  split.
  - apply (run_join_accepted c2 w1 sid row pw name Hst Hj).
    apply verifyPassword_hashPassword.
  - intros other Hne. destruct Hst as [Hdb1 Hs1].
    unfold signaling_join, bind, outcome, after. cbn [snd].
    rewrite (run_getSessionBySessionId w1 Hdb1), Hs1.
    cbn [status passwordHash expiresAt row newSession bool_decide decide_rel].
    destruct Hj as (_ & _ & Ht). apply Z.ltb_ge in Ht.
    cbn [expiresAt row newSession] in Ht. rewrite Ht.
    unfold verifyPassword. apply String.eqb_neq in Hne. rewrite Hne. reflexivity.
Qed.

Lemma create_then_join_witness :
  outcome (signaling_join (Demo.request None 300000)
             (generateSessionId (entropy (Demo.request (Some Demo.alice) 0)) 0)
             (generateSessionPassword (entropy (Demo.request (Some Demo.alice) 0)) 12)
             (Some "Bob"%string)
             (after (session_create (Demo.request (Some Demo.alice) 0) (Some (5, true))
                       (Demo.world Waiting false))))
  = Ok {| jo_success := true;
          jo_sessionId := generateSessionId (entropy (Demo.request (Some Demo.alice) 0)) 0;
          jo_hostOffer := None |}.
Proof.
  assert (Hfresh : sessions (Demo.world Waiting false)
                     !! generateSessionId (entropy (Demo.request (Some Demo.alice) 0)) 0
                   = None) by (vm_compute; reflexivity).
  refine (proj1 (create_then_join (Demo.request (Some Demo.alice) 0)
                   (Demo.request None 300000) (Demo.world Waiting false) Demo.alice
                   (Some (5, true)) (Some "Bob"%string) eq_refl eq_refl Hfresh _)).
  vm_compute. discriminate.
Defined.

Lemma assignAll_join_fields (data : list Assign) (s : Session) :
  Forall (fun a => match a with
                   | SetClientName _ | SetClientIp _ | SetStartNotificationSent _ => True
                   | _ => False
                   end) data ->
  status (assignAll data s) = status s /\
  passwordHash (assignAll data s) = passwordHash s /\
  expiresAt (assignAll data s) = expiresAt s /\
  hostOffer (assignAll data s) = hostOffer s.
Proof.
  revert s. induction data as [|a data IH]; intros s Hall; [repeat split|].
  apply Forall_cons in Hall as [Ha Hall].
  cbn [assignAll fold_left]. destruct (IH (assign a s) Hall) as (H1 & H2 & H3 & H4).
  unfold assignAll in *. rewrite H1, H2, H3, H4.
  destruct a; try contradiction; repeat split.
Qed.

(** X7.  A second join is accepted like the first, and the host is told only
    once: of two joins with the session password on a joinable session whose
    start notification was not yet sent, the first sends it and the second
    sends nothing.  Neither changes the status; both are logged. *)
Theorem join_twice_notifies_once (c1 c2 : Ctx) (w : World) (sid : string) (s : Session)
    (pw : string) (name1 name2 : option string) :
  stored w sid s ->
  joinable c1 s ->
  joinable c2 s ->
  verifyPassword pw (passwordHash s) = true ->
  startNotificationSent s = false ->
  let r1 := signaling_join c1 sid pw name1 w in
  let r2 := signaling_join c2 sid pw name2 (after r1) in
  outcome r1 = Ok {| jo_success := true; jo_sessionId := sessionId s;
                     jo_hostOffer := hostOffer s |} /\
  outcome r2 = outcome r1 /\
  outbox (after r1) = outbox w ++ [sessionStarted c1 sid name1] /\
  outbox (after r2) = outbox (after r1) /\
  statusAt (after r2) sid = Some (status s) /\
  sessionLogs (after r2) = sessionLogs w ++ [joinedLog c1 s name1; joinedLog c2 s name2].
Proof.
  intros Hst Hj1 Hj2 Hpw Hsent r1 r2.
  destruct (run_join_accepted c1 w sid s pw name1 Hst Hj1 Hpw)
    as (Hr1 & Hdb1 & Hs1 & Hlog1 & Hout1).
  fold r1 in Hr1, Hdb1, Hs1, Hlog1, Hout1. rewrite Hsent in Hs1, Hout1.
  match type of Hs1 with _ = Some ?x => set (s1 := x) in Hs1 end.
  assert (Hf1 : status s1 = status s /\ passwordHash s1 = passwordHash s /\
                expiresAt s1 = expiresAt s /\ hostOffer s1 = hostOffer s).
  { apply assignAll_join_fields. destruct name1; repeat constructor. }
  destruct Hf1 as (Est & Epw & Eexp & Eoff).
  assert (Hst1 : stored (after r1) sid s1) by (split; assumption).
  assert (Hj : joinable c2 s1) by (unfold joinable; rewrite Est, Eexp; exact Hj2).
  assert (Hpw1 : verifyPassword pw (passwordHash s1) = true) by (rewrite Epw; exact Hpw).
  destruct (run_join_accepted c2 (after r1) sid s1 pw name2 Hst1 Hj Hpw1)
    as (Hr2 & _ & Hs2 & Hlog2 & Hout2).
  fold r2 in Hr2, Hs2, Hlog2, Hout2.
  assert (Hsent1 : startNotificationSent s1 = true) by (subst s1; destruct name1; reflexivity).
  rewrite Hsent1 in Hs2, Hout2.
  assert (Hid1 : sessionId s1 = sessionId s /\ id s1 = id s).
  { destruct (assignAll_identity
                ((key SetClientName name1 ++ [SetClientIp (beforeComma (requestIp c1))])
                 ++ [SetStartNotificationSent true]) s) as (A1 & A2 & _). auto. }
  destruct Hid1 as [Esid Eid].
  repeat split.
  - exact Hr1.
  - rewrite Hr2, Hr1, Esid, Eoff. reflexivity.
  - exact Hout1.
  - rewrite Hout2. apply app_nil_r.
  - unfold statusAt. rewrite Hs2. cbn [fmap option_fmap option_map].
    f_equal. rewrite <- Est.
    apply assignAll_join_fields. destruct name2; repeat constructor.
  - rewrite Hlog2, Hlog1, <- app_assoc. unfold joinedLog. rewrite Eid. reflexivity.
Qed.

Lemma join_twice_notifies_once_witness :
  outbox (after (signaling_join (Demo.request None 2000) Demo.sid Demo.password None
                   (after (signaling_join (Demo.request None 1000) Demo.sid Demo.password
                             (Some "Bob"%string) (Demo.world Waiting false)))))
  = outbox (after (signaling_join (Demo.request None 1000) Demo.sid Demo.password
                     (Some "Bob"%string) (Demo.world Waiting false))).
Proof.
  assert (Hpw : verifyPassword Demo.password (passwordHash (Demo.row Waiting false)) = true)
    by (vm_compute; reflexivity).
  assert (Hj : forall t, t <= 3600000 -> joinable (Demo.request None t) (Demo.row Waiting false))
    by (intros t Ht; repeat split; [discriminate|discriminate|exact Ht]).
  refine (proj1 (proj2 (proj2 (proj2
            (join_twice_notifies_once (Demo.request None 1000) (Demo.request None 2000)
               (Demo.world Waiting false) Demo.sid (Demo.row Waiting false) Demo.password
               (Some "Bob"%string) None _ (Hj 1000 _) (Hj 2000 _) Hpw eq_refl))))).
  - split; reflexivity.
  - discriminate.
  - discriminate.
Defined.

Lemma differs_false (h : option Z) (uid : Z) : h = Some uid -> differs h uid = false.
Proof. intros ->. unfold differs. rewrite Z.eqb_refl. reflexivity. Qed.

(** *** Effects of the accepted writes and results of the reads *)

Lemma effect_sendOffer (c : Ctx) (w : World) (sid : string) (s : Session) (u : User)
    (offer : string) :
  stored w sid s -> user c = Some u -> hostUserId s = Some (user_id u) ->
  outcome (signaling_sendOffer c sid offer w) = Ok true /\
  stored (after (signaling_sendOffer c sid offer w)) sid (assignAll [SetHostOffer offer] s).
Proof.
  intros [Hdb Hs] Hu Hh. apply differs_false in Hh. unfold stored. on_stored w Hdb Hs.
  rewrite Hu. cbv beta iota. rewrite Hs. cbv beta iota. rewrite Hh.
  rewrite lookup_alter_eq, Hs. repeat split.
Qed.

Lemma effect_sendAnswer (c : Ctx) (w : World) (sid : string) (s : Session)
    (pw answer : string) :
  stored w sid s -> verifyPassword pw (passwordHash s) = true ->
  outcome (signaling_sendAnswer c sid pw answer w) = Ok true /\
  stored (after (signaling_sendAnswer c sid pw answer w)) sid
    (assignAll [SetClientAnswer answer; SetStatus Connected; SetConnectedAt (now c)] s).
Proof.
  intros [Hdb Hs] Hpw. unfold stored. on_stored w Hdb Hs. rewrite Hpw.
  rewrite alter_assignAll_app, lookup_alter_eq, Hs. repeat split.
Qed.

Lemma effect_sendIceCandidate (c : Ctx) (w : World) (sid : string) (s : Session)
    (pw : option string) (cand : string) (from : Side) :
  stored w sid s ->
  match from with
  | Client => passwordRejected pw (passwordHash s) = false
  | Host => exists u, user c = Some u /\ hostUserId s = Some (user_id u)
  end ->
  outcome (signaling_sendIceCandidate c sid pw cand from w) = Ok true /\
  stored (after (signaling_sendIceCandidate c sid pw cand from w)) sid
    (assignAll
       [match from with
        | Host => SetHostIceCandidates
                    (Some (parsedOrEmpty (hostIceCandidates s) ++ [JStr cand]))
        | Client => SetClientIceCandidates
                      (Some (parsedOrEmpty (clientIceCandidates s) ++ [JStr cand]))
        end] s).
Proof.
  intros [Hdb Hs] Hauth. unfold stored. on_stored w Hdb Hs. destruct from.
  - destruct Hauth as (u & Hu & Hh). apply differs_false in Hh.
    unfold differsOpt. rewrite Hu, Hh. rewrite lookup_alter_eq, Hs. repeat split.
  - rewrite Hauth. rewrite lookup_alter_eq, Hs. repeat split.
Qed.

Lemma effect_sendOfferFromClient (c : Ctx) (w : World) (sid : string) (s : Session)
    (offer : option json) (ice : option (list json)) :
  stored w sid s ->
  outcome (signaling_sendOfferFromClient c sid offer ice w) = Ok true /\
  stored (after (signaling_sendOfferFromClient c sid offer ice w)) sid
    (assignAll ((key SetClientOffer offer ++ [SetClientIceCandidates ice])
                ++ [SetStatus Connecting]) s).
Proof.
  intros [Hdb Hs]. unfold stored. on_stored w Hdb Hs.
  destruct offer; rewrite alter_assignAll_app, lookup_alter_eq, Hs; repeat split.
Qed.

Lemma effect_sendAnswerFromHost (c : Ctx) (w : World) (sid : string) (s : Session)
    (u : User) (answer : option json) (ice : option (list json)) :
  stored w sid s -> user c = Some u -> hostUserId s = Some (user_id u) ->
  outcome (signaling_sendAnswerFromHost c sid answer ice w) = Ok true /\
  stored (after (signaling_sendAnswerFromHost c sid answer ice w)) sid
    (assignAll ((key SetHostAnswer answer ++ [SetHostIceCandidates ice])
                ++ [SetStatus Connected; SetConnectedAt (now c)]) s).
Proof.
  intros [Hdb Hs] Hu Hh. apply differs_false in Hh. unfold stored. on_stored w Hdb Hs.
  rewrite Hu. cbv beta iota. rewrite Hs. cbv beta iota. rewrite Hh.
  destruct answer; rewrite alter_assignAll_app, lookup_alter_eq, Hs; repeat split.
Qed.

Lemma poll_as_client (c : Ctx) (w : World) (sid : string) (s : Session)
    (pw : option string) :
  stored w sid s -> passwordRejected pw (passwordHash s) = false ->
  outcome (signaling_getSignalingData c sid pw Client w)
  = Ok {| sd_status := status s; sd_hostOffer := hostOffer s; sd_clientAnswer := None;
          sd_hostIceCandidates := hostIceCandidates s; sd_clientIceCandidates := None;
          sd_clientName := clientName s; sd_autoRecord := autoRecord s |}.
Proof. intros [Hdb Hs] Hpw. on_stored w Hdb Hs. rewrite Hpw. reflexivity. Qed.

Lemma poll_as_host (c : Ctx) (w : World) (sid : string) (s : Session) (u : User)
    (pw : option string) :
  stored w sid s -> user c = Some u -> hostUserId s = Some (user_id u) ->
  outcome (signaling_getSignalingData c sid pw Host w)
  = Ok {| sd_status := status s; sd_hostOffer := None; sd_clientAnswer := clientAnswer s;
          sd_hostIceCandidates := None; sd_clientIceCandidates := clientIceCandidates s;
          sd_clientName := clientName s; sd_autoRecord := autoRecord s |}.
Proof.
  intros [Hdb Hs] Hu Hh. apply differs_false in Hh. on_stored w Hdb Hs.
  unfold differsOpt. rewrite Hu, Hh. reflexivity.
Qed.

Lemma verified_not_rejected (pw hash : string) :
  verifyPassword pw hash = true -> passwordRejected (Some pw) hash = false.
Proof. intros H. cbn [passwordRejected]. rewrite H. apply andb_false_r. Qed.

(** X8.  Flow A delivers what was deposited.  The offer that the owner sends
    is what the client gets, from its next join and from its polls; the
    answer that the client then sends with the session password is what the
    owner polls, together with the status connected; and neither poll shows
    the poller its own side's payload. *)
Theorem flow_a_round_trip (c1 c2 c3 c4 : Ctx) (w : World) (sid : string) (s : Session)
    (u : User) (pw offer answer : string) (name : option string) :
  stored w sid s ->
  user c1 = Some u -> user c4 = Some u ->
  hostUserId s = Some (user_id u) ->
  verifyPassword pw (passwordHash s) = true ->
  joinable c2 s ->
  let w1 := after (signaling_sendOffer c1 sid offer w) in
  let w2 := after (signaling_sendAnswer c3 sid pw answer w1) in
  outcome (signaling_join c2 sid pw name w1)
  = Ok {| jo_success := true; jo_sessionId := sessionId s; jo_hostOffer := Some offer |} /\
  (exists out, outcome (signaling_getSignalingData c2 sid (Some pw) Client w1) = Ok out /\
               sd_hostOffer out = Some offer /\ sd_clientAnswer out = None) /\
  (exists out, outcome (signaling_getSignalingData c4 sid None Host w2) = Ok out /\
               sd_clientAnswer out = Some answer /\ sd_status out = Connected /\
               sd_hostOffer out = None) /\
  connectedAt <$> sessions w2 !! sid = Some (Some (now c3)).
Proof.
  intros Hst Hu1 Hu4 Hh Hpw Hj w1 w2.
  destruct (effect_sendOffer c1 w sid s u offer Hst Hu1 Hh) as [_ Hst1]. fold w1 in Hst1.
  destruct (effect_sendAnswer c3 w1 sid _ pw answer Hst1 Hpw) as [_ Hst2]. fold w2 in Hst2.
  split; [|split; [|split]].
  - exact (proj1 (run_join_accepted c2 w1 sid _ pw name Hst1 Hj Hpw)).
  - eexists. split.
    + apply (poll_as_client c2 w1 sid _ (Some pw) Hst1).
      apply verified_not_rejected. exact Hpw.
    + split; reflexivity.
  - eexists. split.
    + exact (poll_as_host c4 w2 sid _ u None Hst2 Hu4 Hh).
    + repeat split.
  - rewrite (proj2 Hst2). reflexivity.
Qed.

Lemma flow_a_round_trip_witness :
  outcome (signaling_join (Demo.request None 20) Demo.sid Demo.password None
             (after (signaling_sendOffer (Demo.request (Some Demo.alice) 10) Demo.sid
                       "OFFER2" (Demo.world Waiting false))))
  = Ok {| jo_success := true; jo_sessionId := Demo.sid;
          jo_hostOffer := Some "OFFER2"%string |}.
Proof.
  assert (Hpw : verifyPassword Demo.password (passwordHash (Demo.row Waiting false)) = true)
    by (vm_compute; reflexivity).
  assert (Hj : joinable (Demo.request None 20) (Demo.row Waiting false))
    by (repeat split; discriminate).
  refine (proj1 (flow_a_round_trip (Demo.request (Some Demo.alice) 10) (Demo.request None 20)
                   (Demo.request None 30) (Demo.request (Some Demo.alice) 40)
                   (Demo.world Waiting false) Demo.sid (Demo.row Waiting false) Demo.alice
                   Demo.password "OFFER2" "ANSWER2" None _ eq_refl eq_refl eq_refl Hpw Hj)).
  split; reflexivity.
Defined.

Lemma read_getOffer (c : Ctx) (w : World) (sid : string) (s : Session) (u : User) :
  stored w sid s -> user c = Some u -> hostUserId s = Some (user_id u) ->
  outcome (signaling_getOffer c sid w)
  = Ok match clientOffer s with
       | None => {| oo_offer := None; oo_iceCandidates := None;
                    oo_clientName := clientName s |}
       | Some o => {| oo_offer := Some o;
                      oo_iceCandidates := Some (parsedOrEmpty (clientIceCandidates s));
                      oo_clientName := clientName s |}
       end.
Proof.
  intros [Hdb Hs] Hu Hh. apply differs_false in Hh. on_stored w Hdb Hs.
  rewrite Hu. cbv beta iota. rewrite Hs. cbv beta iota. rewrite Hh.
  destruct (clientOffer s); reflexivity.
Qed.

Lemma read_getAnswer (c : Ctx) (w : World) (sid : string) (s : Session) :
  stored w sid s ->
  outcome (signaling_getAnswer c sid w)
  = Ok match hostAnswer s with
       | None => {| ao_answer := None; ao_iceCandidates := None |}
       | Some a => {| ao_answer := Some a;
                      ao_iceCandidates := Some (parsedOrEmpty (hostIceCandidates s)) |}
       end.
Proof.
  intros [Hdb Hs]. on_stored w Hdb Hs. destruct (hostAnswer s); reflexivity.
Qed.

(** X9.  Flow B delivers what was deposited.  After sendOfferFromClient with
    an offer, the owner's getOffer returns that offer and the candidates sent
    with it, the empty list when none were sent, and the status is
    connecting; after the owner's sendAnswerFromHost with an answer, getAnswer
    returns that answer and its candidates to any caller, and the status is
    connected. *)
Theorem flow_b_round_trip (c1 c2 c3 c4 : Ctx) (w : World) (sid : string) (s : Session)
    (u : User) (offer answer : json) (ice1 ice2 : option (list json)) :
  stored w sid s ->
  user c2 = Some u -> user c3 = Some u ->
  hostUserId s = Some (user_id u) ->
  let w1 := after (signaling_sendOfferFromClient c1 sid (Some offer) ice1 w) in
  let w2 := after (signaling_sendAnswerFromHost c3 sid (Some answer) ice2 w1) in
  outcome (signaling_getOffer c2 sid w1)
  = Ok {| oo_offer := Some offer; oo_iceCandidates := Some (parsedOrEmpty ice1);
          oo_clientName := clientName s |} /\
  statusAt w1 sid = Some Connecting /\
  outcome (signaling_getAnswer c4 sid w2)
  = Ok {| ao_answer := Some answer; ao_iceCandidates := Some (parsedOrEmpty ice2) |} /\
  statusAt w2 sid = Some Connected.
Proof.
  intros Hst Hu2 Hu3 Hh w1 w2.
  destruct (effect_sendOfferFromClient c1 w sid s (Some offer) ice1 Hst) as [_ Hst1].
  fold w1 in Hst1.
  destruct (effect_sendAnswerFromHost c3 w1 sid _ u (Some answer) ice2 Hst1 Hu3 Hh)
    as [_ Hst2].
  fold w2 in Hst2.
  split; [|split; [|split]].
  - exact (read_getOffer c2 w1 sid _ u Hst1 Hu2 Hh).
  - unfold statusAt. rewrite (proj2 Hst1). reflexivity.
  - exact (read_getAnswer c4 w2 sid _ Hst2).
  - unfold statusAt. rewrite (proj2 Hst2). reflexivity.
Qed.

Lemma flow_b_round_trip_witness :
  outcome (signaling_getOffer (Demo.request (Some Demo.alice) 20) Demo.sid
             (after (signaling_sendOfferFromClient (Demo.request None 10) Demo.sid
                       (Some (JStr "sdp")) None (Demo.world Waiting false))))
  = Ok {| oo_offer := Some (JStr "sdp"); oo_iceCandidates := Some [];
          oo_clientName := None |}.
Proof.
  refine (proj1 (flow_b_round_trip (Demo.request None 10) (Demo.request (Some Demo.alice) 20)
                   (Demo.request (Some Demo.alice) 30) (Demo.request None 40)
                   (Demo.world Waiting false) Demo.sid (Demo.row Waiting false) Demo.alice
                   (JStr "sdp") (JStr "answer") None None _ eq_refl eq_refl eq_refl)).
  split; reflexivity.
Defined.

(** X10.  In flow B the candidates travel with the payload they were sent
    with: while the client has sent no offer, getOffer reports no candidates
    although sendIceCandidate has stored some, and likewise getAnswer while
    the host has sent no answer; and a sendOfferFromClient that leaves the
    offer out stores its candidates without any offer becoming visible. *)
Theorem flow_b_candidates_need_payload (c1 c2 : Ctx) (w : World) (sid : string)
    (s : Session) (u : User) (pw : option string) (cand : string)
    (ice : option (list json)) :
  stored w sid s ->
  user c2 = Some u ->
  hostUserId s = Some (user_id u) ->
  clientOffer s = None ->
  hostAnswer s = None ->
  passwordRejected pw (passwordHash s) = false ->
  let w1 := after (signaling_sendIceCandidate c1 sid pw cand Client w) in
  let w2 := after (signaling_sendIceCandidate c2 sid pw cand Host w) in
  let w3 := after (signaling_sendOfferFromClient c1 sid None ice w) in
  outcome (signaling_getOffer c2 sid w1)
  = Ok {| oo_offer := None; oo_iceCandidates := None; oo_clientName := clientName s |} /\
  outcome (signaling_getAnswer c1 sid w2)
  = Ok {| ao_answer := None; ao_iceCandidates := None |} /\
  outcome (signaling_getOffer c2 sid w3)
  = Ok {| oo_offer := None; oo_iceCandidates := None; oo_clientName := clientName s |} /\
  clientIceCandidates <$> sessions w3 !! sid = Some ice.
Proof.
  intros Hst Hu Hh Hoff Hans Hpw w1 w2 w3.
  destruct (effect_sendIceCandidate c1 w sid s pw cand Client Hst Hpw) as [_ Hst1].
  fold w1 in Hst1.
  assert (Hown : exists u, user c2 = Some u /\ hostUserId s = Some (user_id u)) by eauto.
  destruct (effect_sendIceCandidate c2 w sid s pw cand Host Hst Hown) as [_ Hst2].
  fold w2 in Hst2.
  destruct (effect_sendOfferFromClient c1 w sid s None ice Hst) as [_ Hst3].
  fold w3 in Hst3.
  split; [|split; [|split]].
  - rewrite (read_getOffer c2 w1 sid _ u Hst1 Hu Hh). cbn. rewrite Hoff. reflexivity.
  - rewrite (read_getAnswer c1 w2 sid _ Hst2). cbn. rewrite Hans. reflexivity.
  - rewrite (read_getOffer c2 w3 sid _ u Hst3 Hu Hh). cbn. rewrite Hoff. reflexivity.
  - rewrite (proj2 Hst3). reflexivity.
Qed.

Lemma flow_b_candidates_need_payload_witness :
  outcome (signaling_getOffer (Demo.request (Some Demo.alice) 20) Demo.sid
             (after (signaling_sendIceCandidate (Demo.request (Some Demo.alice) 10)
                       Demo.sid None "c3" Client (Demo.world Waiting false))))
  = Ok {| oo_offer := None; oo_iceCandidates := None; oo_clientName := None |}.
Proof.
  refine (proj1 (flow_b_candidates_need_payload (Demo.request (Some Demo.alice) 10)
                   (Demo.request (Some Demo.alice) 20) (Demo.world Waiting false) Demo.sid
                   (Demo.row Waiting false) Demo.alice None "c3" None
                   _ eq_refl eq_refl eq_refl eq_refl eq_refl)).
  split; reflexivity.
Defined.

(** X11.  Candidates reach the other side in the order of submission: after
    two accepted sendIceCandidate calls from the client, the owner's poll
    shows the client's earlier candidates followed by the two new ones, and
    the client's own poll shows the host's list unchanged and never its
    own. *)
Theorem candidates_polled_in_order (c1 c2 c3 : Ctx) (w : World) (sid : string)
    (s : Session) (u : User) (pw : option string) (a b : string) :
  stored w sid s ->
  user c3 = Some u ->
  hostUserId s = Some (user_id u) ->
  passwordRejected pw (passwordHash s) = false ->
  let w2 := after (signaling_sendIceCandidate c2 sid pw b Client
                     (after (signaling_sendIceCandidate c1 sid pw a Client w))) in
  (exists out, outcome (signaling_getSignalingData c3 sid None Host w2) = Ok out /\
               sd_clientIceCandidates out
               = Some (parsedOrEmpty (clientIceCandidates s) ++ [JStr a; JStr b])) /\
  (exists out, outcome (signaling_getSignalingData c3 sid pw Client w2) = Ok out /\
               sd_hostIceCandidates out = hostIceCandidates s /\
               sd_clientIceCandidates out = None).
Proof.
  intros Hst Hu Hh Hpw w2.
  destruct (effect_sendIceCandidate c1 w sid s pw a Client Hst Hpw) as [_ Hst1].
  destruct (effect_sendIceCandidate c2 _ sid _ pw b Client Hst1 Hpw) as [_ Hst2].
  fold w2 in Hst2. split.
  - eexists. split; [exact (poll_as_host c3 w2 sid _ u None Hst2 Hu Hh)|].
    cbn. rewrite <- app_assoc. reflexivity.
  - eexists. split; [exact (poll_as_client c3 w2 sid _ pw Hst2 Hpw)|].
    split; reflexivity.
Qed.

Lemma candidates_polled_in_order_witness :
  exists out,
    outcome (signaling_getSignalingData (Demo.request (Some Demo.alice) 30) Demo.sid None
               Host
               (after (signaling_sendIceCandidate (Demo.request None 20) Demo.sid
                         (Some Demo.password) "c4" Client
                         (after (signaling_sendIceCandidate (Demo.request None 10) Demo.sid
                                   (Some Demo.password) "c3" Client
                                   (Demo.world Connected false))))))
    = Ok out /\
    sd_clientIceCandidates out
    = Some (parsedOrEmpty (clientIceCandidates (Demo.row Connected false))
            ++ [JStr "c3"; JStr "c4"]).
Proof.
  assert (Hpw : passwordRejected (Some Demo.password)
                  (passwordHash (Demo.row Connected false)) = false)
    by (vm_compute; reflexivity).
  refine (proj1 (candidates_polled_in_order (Demo.request None 10) (Demo.request None 20)
                   (Demo.request (Some Demo.alice) 30) (Demo.world Connected false) Demo.sid
                   (Demo.row Connected false) Demo.alice (Some Demo.password) "c3" "c4"
                   _ eq_refl eq_refl Hpw)).
  split; reflexivity.
Defined.

Lemma run_cleanupExpiredSessions (c : Ctx) (w : World) :
  dbAvailable w = true ->
  cleanupExpiredSessions c w = (Ok 0, onSessions (fmap (sweepRow (now c))) w).
Proof. intros Hdb. unfold cleanupExpiredSessions, bind, getDb. rewrite Hdb. reflexivity. Qed.

Lemma lookup_swept (t : Z) (w : World) (sid : string) :
  sessions (onSessions (fmap (sweepRow t)) w) !! sid = sweepRow t <$> sessions w !! sid.
Proof. destruct w. cbn. apply lookup_fmap. Qed.

(** X12.  The periodic sweep marks exactly the waiting sessions that are past
    their expiry: each becomes expired, with [endedAt] set to the time of the
    sweep and nothing else changed.  Every other session stays as it is, a
    connecting or connected one past its expiry included.  The function does
    not report how many it marked: it answers 0.  A later sweep leaves the
    sessions that an earlier one marked as they are, [endedAt] included. *)
Theorem sweep_marks_waiting_expired (c c' : Ctx) (w : World) (sid : string) (s : Session) :
  stored w sid s ->
  let r := cleanupExpiredSessions c w in
  let r' := cleanupExpiredSessions c' (after r) in
  outcome r = Ok 0 /\
  (status s = Waiting -> expiresAt s < now c ->
   sessions (after r) !! sid = Some (assignAll [SetStatus Expired; SetEndedAt (now c)] s) /\
   sessions (after r') !! sid = sessions (after r) !! sid) /\
  (status s <> Waiting \/ now c <= expiresAt s ->
   sessions (after r) !! sid = Some s).
Proof.
  intros [Hdb Hs] r r'. subst r r'.
  rewrite (run_cleanupExpiredSessions c w Hdb). cbn [outcome after fst snd].
  rewrite run_cleanupExpiredSessions by (destruct w; exact Hdb). cbn [after snd].
  rewrite !lookup_swept, Hs. cbn [fmap option_fmap option_map].
  split; [reflexivity|]. split.
  - intros Hst Hexp. apply Z.ltb_lt in Hexp.
    assert (E : sweepRow (now c) s = assignAll [SetStatus Expired; SetEndedAt (now c)] s).
    { unfold sweepRow. rewrite Hexp, Hst. reflexivity. }
    rewrite E. split; [reflexivity|].
    unfold sweepRow. cbn [status assignAll fold_left assign].
    rewrite andb_false_r. reflexivity.
  - intros Hno. unfold sweepRow.
    destruct Hno as [Hst | Htime].
    + rewrite (bool_decide_eq_false_2 _ Hst), andb_false_r. reflexivity.
    + apply Z.ltb_ge in Htime. rewrite Htime. reflexivity.
Qed.

Lemma sweep_marks_waiting_expired_witness :
  let r := cleanupExpiredSessions (Demo.request None 9000000) (Demo.world Waiting false) in
  let r' := cleanupExpiredSessions (Demo.request None 9999999) (after r) in
  outcome r = Ok 0 /\
  sessions (after r) !! Demo.sid
  = Some (assignAll [SetStatus Expired; SetEndedAt 9000000] (Demo.row Waiting false)) /\
  sessions (after r') !! Demo.sid = sessions (after r) !! Demo.sid /\
  sessions (after (cleanupExpiredSessions (Demo.request None 9000000)
                     (Demo.world Connected false))) !! Demo.sid
  = Some (Demo.row Connected false).
Proof.
  assert (Hw : stored (Demo.world Waiting false) Demo.sid (Demo.row Waiting false))
    by (split; reflexivity).
  assert (Hc : stored (Demo.world Connected false) Demo.sid (Demo.row Connected false))
    by (split; reflexivity).
  destruct (sweep_marks_waiting_expired (Demo.request None 9000000)
              (Demo.request None 9999999) (Demo.world Waiting false) Demo.sid
              (Demo.row Waiting false) Hw) as (A & B & _).
  destruct (B eq_refl eq_refl) as (B1 & B2).
  destruct (sweep_marks_waiting_expired (Demo.request None 9000000)
              (Demo.request None 9999999) (Demo.world Connected false) Demo.sid
              (Demo.row Connected false) Hc) as (_ & _ & C).
  cbv zeta. split; [exact A|]. split; [exact B1|]. split; [exact B2|].
  apply C. left. discriminate.
Defined.

(** X13.  The sweep decides no join: at any time from the sweep on, a join
    has the same outcome on the swept table as on the table left unswept,
    whatever the session id, the password and the name. *)
Theorem sweep_changes_no_join (c c' : Ctx) (w : World) (sid pw : string)
    (name : option string) :
  now c <= now c' ->
  outcome (signaling_join c' sid pw name (after (cleanupExpiredSessions c w)))
  = outcome (signaling_join c' sid pw name w).
Proof.
  intros Htime. destruct w as [db ss nid us logs out cs].
  destruct db; cbv [cleanupExpiredSessions]; unfold_procs; [|reflexivity].
  rewrite lookup_fmap. destruct (ss !! sid) as [s|]; cbn [fmap option_fmap option_map];
    cbv beta iota; [|reflexivity].
  unfold sweepRow.
  destruct (andb (expiresAt s <? now c) (bool_decide (status s = Waiting))) eqn:Hsw.
  - apply andb_prop in Hsw as [Hexp _]. apply Z.ltb_lt in Hexp.
    assert (Hlate : (expiresAt s <? now c') = true) by (apply Z.ltb_lt; lia).
    cbn [status expiresAt assignAll fold_left assign bool_decide decide_rel orb].
    rewrite Hlate, !orb_true_r. reflexivity.
  - split_cases; reflexivity.
Qed.

Lemma sweep_changes_no_join_witness :
  outcome (signaling_join (Demo.request None 9999999) Demo.sid Demo.password None
             (after (cleanupExpiredSessions (Demo.request None 9000000)
                       (Demo.world Waiting false))))
  = outcome (signaling_join (Demo.request None 9999999) Demo.sid Demo.password None
               (Demo.world Waiting false)).
Proof. apply sweep_changes_no_join. discriminate. Defined.

#[local] Instance newerFirst_total : Total newerFirst.
Proof. intros a b. unfold newerFirst. lia. Qed.

#[local] Instance newerFirst_trans : Transitive newerFirst.
Proof. intros a b c. unfold newerFirst. lia. Qed.

Lemma elem_of_rows (w : World) (s : Session) :
  s ∈ rows w <-> exists sid, sessions w !! sid = Some s.
Proof.
  unfold rows. rewrite list_elem_of_fmap. split.
  - intros ([sid s'] & -> & Hin). exists sid. apply elem_of_map_to_list. exact Hin.
  - intros [sid Hs]. exists (sid, s). split; [reflexivity|].
    apply elem_of_map_to_list. exact Hs.
Qed.

Lemma elem_of_ordered (l : list Session) (s : Session) :
  s ∈ orderByCreatedAtDesc l <-> s ∈ l.
Proof. unfold orderByCreatedAtDesc. rewrite merge_sort_Permutation. reflexivity. Qed.

Lemma ordered_sorted (l : list Session) : StronglySorted newerFirst (orderByCreatedAtDesc l).
Proof. apply StronglySorted_merge_sort; apply _. Qed.

Lemma take_sorted (n : nat) (l : list Session) :
  StronglySorted newerFirst l -> StronglySorted newerFirst (take n l).
Proof.
  intros H. rewrite <- (take_drop n l) in H. apply StronglySorted_app_1_l in H. exact H.
Qed.

Lemma run_session_list (c : Ctx) (w : World) (u : User) (input : option (Z * bool)) :
  user c = Some u ->
  dbAvailable w = true ->
  session_list c input w
  = (Ok (if from_option snd false input
         then orderByCreatedAtDesc
                (filter (fun s => hostUserId s = Some (user_id u) /\ status s = Waiting)
                        (rows w))
         else take (Z.to_nat (from_option fst 50 input))
                (orderByCreatedAtDesc
                   (filter (fun s => hostUserId s = Some (user_id u)) (rows w)))), w).
Proof.
  intros Hu Hdb. unfold session_list, protectedProcedure. rewrite Hu.
  destruct (from_option snd false input);
    unfold getActiveSessions, getSessionsForHost, bind, getDb; rewrite Hdb; reflexivity.
Qed.

(** X14.  session.list shows a user nothing but that user's own sessions:
    every row it returns is a stored session whose [hostUserId] is the
    caller, the rows come newest first, the table is left as it is, with
    [activeOnly] every row is waiting, and without it there are at most
    [limit] rows (50 when no limit is given). *)
Theorem session_list_own_sessions_only (c : Ctx) (w : World) (u : User)
    (input : option (Z * bool)) :
  user c = Some u ->
  exists l,
    session_list c input w = (Ok l, w) /\
    StronglySorted newerFirst l /\
    (forall s, s ∈ l ->
               hostUserId s = Some (user_id u) /\
               (exists sid, sessions w !! sid = Some s) /\
               (from_option snd false input = true -> status s = Waiting)) /\
    (from_option snd false input = false ->
     (length l <= Z.to_nat (from_option fst 50%Z input))%nat).
Proof.
  intros Hu. destruct (dbAvailable w) eqn:Hdb.
  - rewrite (run_session_list c w u input Hu Hdb).
    eexists. split; [reflexivity|].
    destruct (from_option snd false input).
    + split; [apply ordered_sorted|]. split; [|discriminate].
      intros s Hin. apply elem_of_ordered, list_elem_of_filter in Hin as [[Hh Hst] Hin].
      apply elem_of_rows in Hin. auto.
    + split; [apply take_sorted, ordered_sorted|]. split.
      * intros s Hin. apply elem_of_take in Hin as (i & Hi & _).
        apply list_elem_of_lookup_2, elem_of_ordered, list_elem_of_filter in Hi as [Hh Hin].
        apply elem_of_rows in Hin. split; [exact Hh|]. split; [exact Hin|discriminate].
      * intros _. rewrite length_take. lia.
  - exists []. unfold session_list, protectedProcedure. rewrite Hu.
    split; [destruct (from_option snd false input);
            unfold getActiveSessions, getSessionsForHost, bind, getDb; rewrite Hdb;
            reflexivity|].
    split; [constructor|]. split; [intros s Hin; inversion Hin|].
    intros _. cbn. lia.
Qed.

Lemma session_list_own_sessions_only_witness :
  exists l,
    session_list (Demo.request (Some Demo.alice) 100) (Some (10, false))
      (Demo.world Connected false)
    = (Ok l, Demo.world Connected false) /\
    StronglySorted newerFirst l /\
    (forall s, s ∈ l ->
               hostUserId s = Some (user_id Demo.alice) /\
               (exists sid, sessions (Demo.world Connected false) !! sid = Some s) /\
               (from_option snd false (Some (10, false)) = true -> status s = Waiting)) /\
    (from_option snd false (Some (10, false)) = false ->
     (length l <= Z.to_nat (from_option fst 50%Z (Some (10%Z, false))))%nat).
Proof.
  exact (session_list_own_sessions_only (Demo.request (Some Demo.alice) 100)
           (Demo.world Connected false) Demo.alice (Some (10, false)) eq_refl).
Defined.

Example demo_session_list :
  outcome (session_list (Demo.request (Some Demo.alice) 100) None
             (Demo.world Connected false)) = Ok [Demo.row Connected false] /\
  outcome (session_list (Demo.request (Some Demo.alice) 100) (Some (50, true))
             (Demo.world Connected false)) = Ok [] /\
  outcome (session_list (Demo.request (Some Demo.mallory) 100) None
             (Demo.world Connected false)) = Ok [].
Proof. vm_compute. repeat split; reflexivity. Qed.

(** X15.  session.list leaves out nothing it should show.  With
    [activeOnly], every waiting session of the caller is returned, however
    many there are; without it, a session of the caller is missing only when
    [limit] rows were returned and each of them is at least as new as the
    missing one. *)
Theorem session_list_complete (c : Ctx) (w : World) (u : User) (input : option (Z * bool))
    (l : list Session) (sid : string) (s : Session) :
  user c = Some u ->
  stored w sid s ->
  hostUserId s = Some (user_id u) ->
  outcome (session_list c input w) = Ok l ->
  if from_option snd false input
  then status s = Waiting -> s ∈ l
  else s ∈ l \/
       (length l = Z.to_nat (from_option fst 50 input) /\
        forall s', s' ∈ l -> createdAt s <= createdAt s').
Proof.
  intros Hu [Hdb Hs] Hh Hout.
  rewrite (run_session_list c w u input Hu Hdb) in Hout. cbn [outcome fst] in Hout.
  injection Hout as <-.
  assert (Hrow : s ∈ rows w) by (apply elem_of_rows; eauto).
  destruct (from_option snd false input).
  - intros Hst. apply elem_of_ordered, list_elem_of_filter. auto.
  - set (n := Z.to_nat (from_option fst 50 input)).
    set (sorted := orderByCreatedAtDesc
                     (filter (fun s0 => hostUserId s0 = Some (user_id u)) (rows w))).
    assert (Hin : s ∈ sorted) by (apply elem_of_ordered, list_elem_of_filter; auto).
    assert (Hsorted : StronglySorted newerFirst (take n sorted ++ drop n sorted))
      by (rewrite take_drop; apply ordered_sorted).
    rewrite <- (take_drop n sorted) in Hin. apply elem_of_app in Hin as [Hin|Hin].
    + left. exact Hin.
    + right. split.
      * apply length_take_le. apply list_elem_of_lookup_1 in Hin as [i Hi].
        apply lookup_lt_Some in Hi. rewrite length_drop in Hi. lia.
      * intros s' Hs'. exact (StronglySorted_app_1_elem_of _ _ _ _ _ Hsorted Hs' Hin).
Qed.

(** Four sessions are stored and three are alice's.  With a limit of two
    the oldest of hers is left out, behind two newer ones; with [activeOnly]
    both of her waiting sessions are listed. *)
Lemma session_list_complete_witness :
  outcome (session_list (Demo.request (Some Demo.alice) 100) (Some (2, false))
             ListDemo.world) = Ok [ListDemo.newest; ListDemo.middle] /\
  (ListDemo.oldest ∉ [ListDemo.newest; ListDemo.middle]) /\
  length [ListDemo.newest; ListDemo.middle] = 2%nat /\
  (forall s', s' ∈ [ListDemo.newest; ListDemo.middle] ->
              createdAt ListDemo.oldest <= createdAt s') /\
  outcome (session_list (Demo.request (Some Demo.alice) 100) (Some (2, true))
             ListDemo.world) = Ok [ListDemo.middle; ListDemo.oldest] /\
  ListDemo.oldest ∈ [ListDemo.middle; ListDemo.oldest].
Proof.
  assert (Hst : stored ListDemo.world (sessionId ListDemo.oldest) ListDemo.oldest)
    by (split; reflexivity).
  assert (Hall : outcome (session_list (Demo.request (Some Demo.alice) 100)
                            (Some (2, false)) ListDemo.world)
                 = Ok [ListDemo.newest; ListDemo.middle])
    by (vm_compute; reflexivity).
  assert (Hactive : outcome (session_list (Demo.request (Some Demo.alice) 100)
                               (Some (2, true)) ListDemo.world)
                    = Ok [ListDemo.middle; ListDemo.oldest])
    by (vm_compute; reflexivity).
  assert (Hout : ListDemo.oldest ∉ [ListDemo.newest; ListDemo.middle]).
  { intros Hin. apply elem_of_cons in Hin as [Hin|Hin]; [discriminate Hin|].
    apply elem_of_cons in Hin as [Hin|Hin]; [discriminate Hin|inversion Hin]. }
  pose proof (session_list_complete (Demo.request (Some Demo.alice) 100) ListDemo.world
                Demo.alice (Some (2, false)) [ListDemo.newest; ListDemo.middle]
                (sessionId ListDemo.oldest) ListDemo.oldest eq_refl Hst eq_refl Hall)
    as Hlimit.
  pose proof (session_list_complete (Demo.request (Some Demo.alice) 100) ListDemo.world
                Demo.alice (Some (2, true)) [ListDemo.middle; ListDemo.oldest]
                (sessionId ListDemo.oldest) ListDemo.oldest eq_refl Hst eq_refl Hactive)
    as Hwaiting.
  cbn [from_option snd fst] in Hlimit, Hwaiting.
  destruct Hlimit as [Hin|[Hlen Hnewer]]; [contradiction|].
  split; [exact Hall|]. split; [exact Hout|]. split; [exact Hlen|].
  split; [exact Hnewer|]. split; [exact Hactive|]. exact (Hwaiting eq_refl).
Defined.

#[local] Instance newerLogFirst_total : Total newerLogFirst.
Proof. intros a b. unfold newerLogFirst. lia. Qed.

#[local] Instance newerLogFirst_trans : Transitive newerLogFirst.
Proof. intros a b c. unfold newerLogFirst. lia. Qed.

Lemma run_session_logs (c : Ctx) (w : World) (sid : string) (s : Session) (u : User) :
  stored w sid s -> user c = Some u -> hostUserId s = Some (user_id u) ->
  outcome (session_logs c sid w)
  = Ok (merge_sort newerLogFirst
          (filter (fun l => log_sessionId l = id s) (sessionLogs w))).
Proof.
  intros [Hdb Hs] Hu Hh. apply differs_false in Hh.
  unfold session_logs, protectedProcedure, bind, outcome. rewrite Hu.
  rewrite (run_getSessionBySessionId w Hdb), Hs, Hh.
  unfold getSessionLogs, bind, getDb. cbn [dbAvailable record]. 
  destruct w; cbn in *. rewrite Hdb. reflexivity.
Qed.

(** X16.  session.logs gives the owner the audit trail of the addressed
    session and of no other: the entries returned are exactly the log entries
    that carry the row id of the session, each as often as it was logged,
    newest first.  An accepted join is in the trail the owner reads next. *)
Theorem session_logs_of_one_session (c c1 : Ctx) (w : World) (sid : string) (s : Session)
    (u : User) (pw : string) (name : option string) :
  stored w sid s ->
  user c = Some u ->
  hostUserId s = Some (user_id u) ->
  (exists l,
      outcome (session_logs c sid w) = Ok l /\
      l ≡ₚ filter (fun e => log_sessionId e = id s) (sessionLogs w) /\
      StronglySorted newerLogFirst l /\
      (forall e, e ∈ l <-> e ∈ sessionLogs w /\ log_sessionId e = id s)) /\
  (joinable c1 s -> verifyPassword pw (passwordHash s) = true ->
   exists l,
     outcome (session_logs c sid (after (signaling_join c1 sid pw name w))) = Ok l /\
     joinedLog c1 s name ∈ l).
Proof.
  intros Hst Hu Hh. split.
  - rewrite (run_session_logs c w sid s u Hst Hu Hh). eexists. split; [reflexivity|].
    split; [apply merge_sort_Permutation|].
    split; [apply StronglySorted_merge_sort; apply _|].
    intros e. rewrite merge_sort_Permutation, list_elem_of_filter. tauto.
  - intros Hj Hpw.
    destruct (run_join_accepted c1 w sid s pw name Hst Hj Hpw)
      as (_ & Hdb1 & Hs1 & Hlog1 & _).
    match type of Hs1 with _ = Some ?x => set (s1 := x) in Hs1 end.
    assert (Hst1 : stored (after (signaling_join c1 sid pw name w)) sid s1)
      by (split; assumption).
    destruct (assignAll_identity
                ((key SetClientName name ++ [SetClientIp (beforeComma (requestIp c1))])
                 ++ if startNotificationSent s then [] else [SetStartNotificationSent true])
                s) as (Eid & _ & _ & Eh & _).
    fold s1 in Eid, Eh.
    assert (Hh1 : hostUserId s1 = Some (user_id u)) by (rewrite Eh; exact Hh).
    rewrite (run_session_logs c _ sid s1 u Hst1 Hu Hh1). eexists. split; [reflexivity|].
    rewrite merge_sort_Permutation, list_elem_of_filter, Hlog1, Eid.
    split; [reflexivity|]. apply elem_of_app. right. apply list_elem_of_singleton. reflexivity.
Qed.

Lemma session_logs_of_one_session_witness :
  exists l,
    outcome (session_logs (Demo.request (Some Demo.alice) 50) Demo.sid
               (after (signaling_join (Demo.request None 10) Demo.sid Demo.password None
                         (Demo.world Waiting false)))) = Ok l /\
    joinedLog (Demo.request None 10) (Demo.row Waiting false) None ∈ l.
Proof.
  assert (Hpw : verifyPassword Demo.password (passwordHash (Demo.row Waiting false)) = true)
    by (vm_compute; reflexivity).
  assert (Hj : joinable (Demo.request None 10) (Demo.row Waiting false))
    by (repeat split; discriminate).
  refine (proj2 (session_logs_of_one_session (Demo.request (Some Demo.alice) 50)
                   (Demo.request None 10) (Demo.world Waiting false) Demo.sid
                   (Demo.row Waiting false) Demo.alice Demo.password None
                   _ eq_refl eq_refl) Hj Hpw).
  split; reflexivity.
Defined.

(** *** Shapes of the generated credentials *)

Lemma length_append (a b : string) :
  String.length (a +:+ b) = (String.length a + String.length b)%nat.
Proof.
  induction a as [|c a IH]; [reflexivity|].
  change (S (String.length (a +:+ b)) = S (String.length a + String.length b)).
  rewrite IH. reflexivity.
Qed.

Lemma allChars_append (p : ascii -> bool) (a b : string) :
  allChars p (a +:+ b) = allChars p a && allChars p b.
Proof.
  induction a as [|c a IH]; [reflexivity|].
  change (p c && allChars p (a +:+ b) = p c && allChars p a && allChars p b).
  rewrite IH. apply andb_assoc.
Qed.

Lemma length_substring_prefix (n : nat) (s : string) :
  (n <= String.length s)%nat -> String.length (substring 0 n s) = n.
Proof.
  revert s. induction n as [|n IH]; intros s Hn.
  - destruct s; reflexivity.
  - destruct s as [|c s]; cbn in Hn; [lia|]. cbn. rewrite IH by lia. reflexivity.
Qed.

Lemma allChars_substring_prefix (p : ascii -> bool) (n : nat) (s : string) :
  allChars p s = true -> allChars p (substring 0 n s) = true.
Proof.
  revert s. induction n as [|n IH]; intros s Hs.
  - destruct s; reflexivity.
  - destruct s as [|c s]; [reflexivity|]. cbn in *.
    apply andb_prop in Hs as [Hc Hs]. rewrite Hc, (IH s Hs). reflexivity.
Qed.

Lemma hex_digit_lower (d : Z) : 0 <= d < 16 -> isLowerHex (Sha256.hex_digit d) = true.
Proof.
  intros Hd.
  assert (H : d = 0 \/ d = 1 \/ d = 2 \/ d = 3 \/ d = 4 \/ d = 5 \/ d = 6 \/ d = 7 \/
              d = 8 \/ d = 9 \/ d = 10 \/ d = 11 \/ d = 12 \/ d = 13 \/ d = 14 \/ d = 15)
    by lia.
  repeat (destruct H as [->|H]; [reflexivity|]). subst d. reflexivity.
Qed.

Lemma nibble_range (x : Z) : 0 <= Z.land x 15 < 16.
Proof. change 15 with (Z.ones 4). rewrite Z.land_ones by lia. apply Z.mod_pos_bound. lia. Qed.

Lemma hex_of_shape (n : nat) (x : Z) :
  String.length (Sha256.hex_of n x) = n /\ allChars isLowerHex (Sha256.hex_of n x) = true.
Proof.
  induction n as [|n [IHl IHc]]; [split; reflexivity|].
  cbn [Sha256.hex_of String.length allChars]. rewrite IHl, IHc.
  rewrite hex_digit_lower by apply nibble_range. split; reflexivity.
Qed.

Lemma randomHex_shape (rnd : nat -> Z) (from n : nat) :
  String.length (randomHex rnd from n) = (2 * n)%nat /\
  allChars isLowerHex (randomHex rnd from n) = true.
Proof.
  unfold randomHex. revert from. induction n as [|n IH]; intros from; [split; reflexivity|].
  cbn [seq fold_right]. destruct (IH (S from)) as [IHl IHc].
  destruct (hex_of_shape 2 (rnd from mod 256)) as [Hl Hc].
  rewrite length_append, allChars_append, IHl, IHc, Hl, Hc. split; [lia|reflexivity].
Qed.

Lemma toUpperChar_hex (c : ascii) : isLowerHex c = true -> isUpperHex (toUpperChar c) = true.
Proof.
  unfold isLowerHex, isUpperHex, isDigit, toUpperChar.
  assert (Hc : (nat_of_ascii c < 256)%nat) by apply nat_ascii_bounded.
  intros H.
  destruct ((97 <=? nat_of_ascii c) && (nat_of_ascii c <=? 122))%nat eqn:Hlow.
  - apply andb_prop in Hlow as [H1 H2]. apply Nat.leb_le in H1, H2.
    rewrite nat_ascii_embedding by lia.
    apply orb_prop in H as [H|H]; apply andb_prop in H as [H3 H4];
      apply Nat.leb_le in H3, H4; [lia|].
    apply orb_true_intro. right. apply andb_true_intro. split; apply Nat.leb_le; lia.
  - apply orb_prop in H as [H|H]; [rewrite H; reflexivity|].
    apply andb_prop in H as [H3 H4]. apply Nat.leb_le in H3, H4.
    apply andb_false_iff in Hlow as [Hl|Hl]; apply Nat.leb_gt in Hl; lia.
Qed.

Lemma toUpperCase_shape (s : string) :
  String.length (toUpperCase s) = String.length s /\
  (allChars isLowerHex s = true -> allChars isUpperHex (toUpperCase s) = true).
Proof.
  induction s as [|c s [IHl IHc]]; [split; reflexivity|]. cbn. rewrite IHl.
  split; [reflexivity|]. intros H. apply andb_prop in H as [Hc Hs].
  rewrite (toUpperChar_hex c Hc), (IHc Hs). reflexivity.
Qed.

(** X17.  Whatever the random bytes are, a generated session id has 24
    characters, all of them lower-case hexadecimal digits, and a generated
    session password has 8 characters, all of them digits or letters from A
    to F. *)
Theorem generated_credentials_shape (rnd : nat -> Z) (pos : nat) :
  String.length (generateSessionId rnd pos) = 24%nat /\
  allChars isLowerHex (generateSessionId rnd pos) = true /\
  String.length (generateSessionPassword rnd pos) = 8%nat /\
  allChars isUpperHex (generateSessionPassword rnd pos) = true.
Proof.
  unfold generateSessionId, generateSessionPassword.
  destruct (randomHex_shape rnd pos 12) as [Hl12 Hc12].
  destruct (randomHex_shape rnd pos 4) as [Hl4 Hc4].
  destruct (toUpperCase_shape (randomHex rnd pos 4)) as [Hul Huc].
  rewrite Hl12, Hc12, Hul, Hl4, (Huc Hc4). repeat split.
Qed.

Lemma sha256_hex_shape (s : string) :
  String.length (Sha256.hex s) = 64%nat /\ allChars isLowerHex (Sha256.hex s) = true.
Proof.
  unfold Sha256.hex, Sha256.digest_words. cbv zeta. cbn [fold_right].
  rewrite !length_append, !allChars_append.
  repeat match goal with
         | |- context [Sha256.hex_of 8 ?x] =>
             let Hl := fresh in let Hc := fresh in
             destruct (hex_of_shape 8 x) as [Hl Hc]; rewrite Hl, Hc; clear Hl Hc
         end.
  split; reflexivity.
Qed.

(** X18.  Whatever the password, its stored hash has 64 characters, all
    lower-case hexadecimal digits; and whatever the server secret, the
    calendar API key has 32 characters of the same kind. *)
Theorem hash_and_key_shape (password : string) (e : Env) :
  String.length (hashPassword password) = 64%nat /\
  allChars isLowerHex (hashPassword password) = true /\
  String.length (getCalendarApiKey e) = 32%nat /\
  allChars isLowerHex (getCalendarApiKey e) = true.
Proof.
  unfold hashPassword, getCalendarApiKey.
  destruct (sha256_hex_shape password) as [Hl Hc].
  destruct (sha256_hex_shape ("calendar-api-" +:+ cookieSecret e)) as [Hl' Hc'].
  split; [exact Hl|]. split; [exact Hc|]. split.
  - apply length_substring_prefix. rewrite Hl'. lia.
  - apply allChars_substring_prefix. exact Hc'.
Qed.

(** X19.  The key that calendar.getApiKey hands to an administrator is the
    key the calendar procedures accept: with it, and the same server secret,
    createMeeting never fails with InvalidKey and getMeetingStatus reports the
    stored status and timestamps of a stored session, while every other key
    is refused with InvalidKey before the store is touched.  A user who is
    not an administrator is refused the key with Unauthorized. *)
Theorem api_key_round_trip (c c' : Ctx) (w w' : World) (u : User) :
  user c = Some u ->
  env c' = env c ->
  match role u with
  | RoleAdmin =>
      exists k,
        calendar_getApiKey c w = (Ok k, w) /\
        (forall mail minutes calId calSrc,
            thrown (calendar_createMeeting c' k mail minutes calId calSrc w')
            <> Some InvalidKey) /\
        (forall sid s,
            stored w' sid s ->
            outcome (calendar_getMeetingStatus c' k sid w')
            = Ok {| ms_sessionId := sessionId s; ms_status := status s;
                    ms_clientName := clientName s; ms_createdAt := createdAt s;
                    ms_connectedAt := connectedAt s; ms_endedAt := endedAt s;
                    ms_expiresAt := expiresAt s |}) /\
        (forall k' sid,
            k' <> k -> calendar_getMeetingStatus c' k' sid w' = (Err InvalidKey, w'))
  | RoleUser => calendar_getApiKey c w = (Err Unauthorized, w)
  end.
Proof.
  intros Hu Henv. unfold calendar_getApiKey, protectedProcedure. rewrite Hu.
  destruct (role u); [reflexivity|].
  exists (getCalendarApiKey (env c)). split; [reflexivity|]. split; [|split].
  - intros mail minutes calId calSrc.
    unfold calendar_createMeeting. rewrite Henv, String.eqb_refl. cbn [negb].
    destruct w' as [db ss nid us logs out cs].
    destruct db; unfold_create; split_cases; cbn; discriminate.
  - intros sid s [Hdb Hs]. unfold calendar_getMeetingStatus, bind, outcome.
    rewrite Henv, String.eqb_refl. cbn [negb].
    rewrite (run_getSessionBySessionId w' Hdb), Hs. reflexivity.
  - intros k' sid Hk. unfold calendar_getMeetingStatus.
    rewrite Henv. apply String.eqb_neq in Hk. rewrite Hk. reflexivity.
Qed.

Lemma api_key_round_trip_witness :
  exists k,
    calendar_getApiKey (Demo.request (Some Demo.alice) 10) (Demo.world Waiting false)
    = (Ok k, Demo.world Waiting false) /\
    outcome (calendar_getMeetingStatus (Demo.request None 20) k Demo.sid
               (Demo.world Connected false))
    = Ok {| ms_sessionId := Demo.sid; ms_status := Connected; ms_clientName := None;
            ms_createdAt := 0; ms_connectedAt := None; ms_endedAt := None;
            ms_expiresAt := 3600000 |}.
Proof.
  destruct (api_key_round_trip (Demo.request (Some Demo.alice) 10) (Demo.request None 20)
              (Demo.world Waiting false) (Demo.world Connected false) Demo.alice
              eq_refl eq_refl) as (k & Hk & _ & Hstatus & _).
  exists k. split; [exact Hk|].
  apply (Hstatus Demo.sid (Demo.row Connected false)). split; reflexivity.
Defined.

(** X20.  Without a database no procedure does anything: each of the nine
    session calls leaves the world exactly as it was and fails as for an
    unknown session (or as unauthenticated), session.create fails with
    CreateFailed, createMeeting with the right key fails with HostNotFound, and
    session.list returns the empty list. *)
Theorem nothing_happens_without_database (w : World) :
  dbAvailable w = false ->
  (forall op,
      step op w = w /\
      (failure op w = Some NotFound \/ failure op w = Some NotFoundOrUnauthorized \/
       failure op w = Some Unauthenticated)) /\
  (forall c u input,
      user c = Some u -> session_create c input w = (Err CreateFailed, w)) /\
  (forall c mail minutes calId calSrc,
      calendar_createMeeting c (getCalendarApiKey (env c)) mail minutes calId calSrc w
      = (Err HostNotFound, w)) /\
  (forall c u input, user c = Some u -> session_list c input w = (Ok [], w)).
Proof.
  intros Hdb. destruct w as [db ss nid us logs out cs]. cbn in Hdb. subst db.
  split; [|split; [|split]].
  - intros op. destruct op; unfold failure, thrown; unfold_procs; split_cases; auto.
  - intros c u input Hu. unfold_create. rewrite Hu. reflexivity.
  - intros c mail minutes calId calSrc. unfold calendar_createMeeting.
    rewrite String.eqb_refl. reflexivity.
  - intros c u input Hu. unfold session_list, protectedProcedure. rewrite Hu.
    destruct (from_option snd false input); reflexivity.
Qed.

Lemma nothing_happens_without_database_witness :
  session_create (Demo.request (Some Demo.alice) 10) None offlineWorld
  = (Err CreateFailed, offlineWorld).
Proof.
  exact (proj1 (proj2 (nothing_happens_without_database offlineWorld eq_refl))
           (Demo.request (Some Demo.alice) 10) Demo.alice None eq_refl).
Defined.



(* ===================================================================== *)
(** ** Verification codes *)
(* ===================================================================== *)

Section CodeProperties.
Variable toLowerCase : string -> string.
Variable isActiveOpsUser : string -> bool.
Variable getActiveOpsUser : string -> option OpsUser.
Variable sendVerificationEmail : string -> string -> bool.

Abbreviation request := (Ops.requestVerificationCode toLowerCase isActiveOpsUser
                       sendVerificationEmail).
Abbreviation verify := (Ops.verifyCode toLowerCase getActiveOpsUser).
Abbreviation cleanup := Ops.cleanupExpiredCodes.

(** X22.  A requested code verifies once, under any spelling of the address
    with the same lower-case form, until ten minutes have passed, and also
    when the mail could not be sent: for an active user, the first
    verification with the requested code within the ten minutes succeeds with
    the user's details, whatever the earlier content of the map; after the
    ten minutes it fails as expired.  An inactive address is refused and
    stores nothing. *)
Theorem code_verifies_within_ten_minutes (t t' : Z) (code email1 email2 : string)
    (codes : gmap string CodeEntry) :
  toLowerCase email2 = toLowerCase email1 ->
  let r := request t code email1 codes in
  (isActiveOpsUser email1 = false -> r.2 = codes /\ cr_success r.1 = false) /\
  (isActiveOpsUser email1 = true ->
   cr_success r.1 = sendVerificationEmail email1 code /\
   (t' <= t + 600000 ->
    (verify t' email2 code r.2).1
    = match getActiveOpsUser email2 with
      | Some u => {| cr_success := true; cr_user := Some u; cr_error := None |}
      | None => codeError "User account not found or inactive."
      end) /\
   (t + 600000 < t' ->
    (verify t' email2 code r.2).1
    = codeError "Verification code has expired. Please request a new code.")).
Proof.
  intros Hlow r. subst r. unfold Ops.requestVerificationCode. split.
  - intros Hact. rewrite Hact. split; reflexivity.
  - intros Hact. rewrite Hact. cbn [negb].
    split; [destruct (sendVerificationEmail email1 code); reflexivity|].
    assert (Hlook : forall b : bool,
               (if b return (CodeResult * gmap string CodeEntry)
                then (codeError "Failed to send verification email. Please try again.",
                      <[toLowerCase email1 :=
                          {| ce_code := code; ce_expiresAt := t + 10 * 60 * 1000;
                             ce_email := toLowerCase email1 |}]> codes)
                else ({| cr_success := true; cr_user := None; cr_error := None |},
                      <[toLowerCase email1 :=
                          {| ce_code := code; ce_expiresAt := t + 10 * 60 * 1000;
                             ce_email := toLowerCase email1 |}]> codes)).2
               !! toLowerCase email2
               = Some {| ce_code := code; ce_expiresAt := t + 10 * 60 * 1000;
                         ce_email := toLowerCase email1 |}).
    { intros b. rewrite Hlow. destruct b; apply lookup_insert_eq. }
    split; intros Ht; unfold Ops.verifyCode; rewrite Hlook; cbn [ce_expiresAt ce_code].
    + assert (E : (t + 10 * 60 * 1000 <? t') = false) by (apply Z.ltb_ge; lia).
      rewrite E, String.eqb_refl. cbn [negb].
      destruct (getActiveOpsUser email2); reflexivity.
    + assert (E : (t + 10 * 60 * 1000 <? t') = true) by (apply Z.ltb_lt; lia).
      rewrite E. reflexivity.
Qed.

(** X23.  A code is consumed by the verification that accepts it, and by the
    first attempt after its expiry: once [verifyCode] has found the given
    code to be the stored one and still valid, or has found the stored code
    expired, every later verification for that address, with any code and at
    any time, finds no code, until a new one is requested.  This holds also
    when the accepted verification then fails to find the user. *)
Theorem code_is_single_use (t t' : Z) (email1 email2 code code' : string)
    (codes : gmap string CodeEntry) (entry : CodeEntry) :
  toLowerCase email2 = toLowerCase email1 ->
  codes !! toLowerCase email1 = Some entry ->
  ce_code entry = code \/ ce_expiresAt entry < t ->
  let r := verify t email1 code codes in
  r.2 = delete (toLowerCase email1) codes /\
  verify t' email2 code' r.2
  = (codeError "No verification code found. Please request a new code.", r.2).
Proof.
  intros Hlow Hentry Hcase r.
  assert (Hr : r.2 = delete (toLowerCase email1) codes).
  { subst r. unfold Ops.verifyCode. rewrite Hentry.
    destruct (ce_expiresAt entry <? t) eqn:Hexp; [reflexivity|].
    destruct Hcase as [Hcode|Hlate]; [|apply Z.ltb_ge in Hexp; lia].
    rewrite Hcode, String.eqb_refl. cbn [negb].
    destruct (getActiveOpsUser email1); reflexivity. }
  split; [exact Hr|].
  unfold Ops.verifyCode at 1. rewrite Hlow, Hr, lookup_delete_eq. reflexivity.
Qed.

(** X24.  A wrong code costs nothing: a verification with a code other than
    the stored, still valid one fails as invalid and leaves the map as it is,
    so the right code is accepted afterwards exactly as it would have been
    before, whatever the number of wrong attempts. *)
Theorem wrong_codes_leave_the_code_valid (t : Z) (email0 : string) (wrong : list string)
    (codes : gmap string CodeEntry) (entry : CodeEntry) :
  codes !! toLowerCase email0 = Some entry ->
  t <= ce_expiresAt entry ->
  Forall (fun c => c <> ce_code entry) wrong ->
  fold_left (fun m c => (verify t email0 c m).2) wrong codes = codes /\
  Forall (fun c => (verify t email0 c codes).1
                   = codeError "Invalid verification code. Please try again.") wrong.
Proof.
  intros Hentry Ht Hwrong.
  assert (Hone : forall c, c <> ce_code entry ->
                           verify t email0 c codes
                           = (codeError "Invalid verification code. Please try again.",
                              codes)).
  { intros c Hc. unfold Ops.verifyCode. rewrite Hentry.
    apply Z.ltb_ge in Ht. rewrite Ht.
    assert (E : String.eqb (ce_code entry) c = false) by (apply String.eqb_neq; congruence).
    rewrite E. reflexivity. }
  split.
  - induction Hwrong as [|c wrong Hc _ IH]; [reflexivity|].
    cbn [fold_left]. rewrite (Hone c Hc). exact IH.
  - eapply Forall_impl; [exact Hwrong|]. intros c Hc. cbn beta.
    rewrite (Hone c Hc). reflexivity.
Qed.

(** X25.  [cleanupExpiredCodes] removes the expired codes and only those,
    and it never decides whether a verification succeeds: at any time from
    the cleanup on, a verification succeeds on the cleaned map exactly when
    it does on the map left as it was, with the same user.  What changes is
    the message for a code that had expired by the cleanup: it is reported
    as not found instead of expired. *)
Theorem code_cleanup_changes_message_only (t t' : Z) (email0 code : string)
    (codes : gmap string CodeEntry) :
  (forall k,
      cleanup t codes !! k
      = match codes !! k with
        | Some entry => if ce_expiresAt entry <? t then None else Some entry
        | None => None
        end) /\
  (t <= t' ->
   let cleaned := (verify t' email0 code (cleanup t codes)).1 in
   let plain := (verify t' email0 code codes).1 in
   cr_success cleaned = cr_success plain /\
   cr_user cleaned = cr_user plain /\
   match codes !! toLowerCase email0 with
   | Some entry =>
       if ce_expiresAt entry <? t then
         cleaned = codeError "No verification code found. Please request a new code." /\
         plain = codeError "Verification code has expired. Please request a new code."
       else cleaned = plain
   | None => cleaned = plain
   end).
Proof.
  assert (Hlook : forall k,
             cleanup t codes !! k
             = match codes !! k with
               | Some entry => if ce_expiresAt entry <? t then None else Some entry
               | None => None
               end).
  { intros k. unfold Ops.cleanupExpiredCodes.
    destruct (codes !! k) as [entry|] eqn:Hk.
    - destruct (ce_expiresAt entry <? t) eqn:Hexp.
      + apply Z.ltb_lt in Hexp. apply map_lookup_filter_None. right.
        intros x Hx. rewrite Hk in Hx. injection Hx as <-. cbn. lia.
      + apply Z.ltb_ge in Hexp. apply map_lookup_filter_Some. split; [exact Hk|].
        cbn. lia.
    - apply map_lookup_filter_None. left. exact Hk. }
  split; [exact Hlook|].
  intros Ht. cbv zeta. unfold Ops.verifyCode. rewrite Hlook.
  destruct (codes !! toLowerCase email0) as [entry|]; [|repeat split].
  destruct (ce_expiresAt entry <? t) eqn:Hexp.
  - apply Z.ltb_lt in Hexp.
    assert (E : (ce_expiresAt entry <? t') = true) by (apply Z.ltb_lt; lia).
    rewrite E. repeat split.
  - destruct (ce_expiresAt entry <? t'); [repeat split|].
    destruct (negb (String.eqb (ce_code entry) code)); [repeat split|].
    destruct (getActiveOpsUser email0); repeat split.
Qed.

End CodeProperties.

(** The mail service is down, the address is spelled in two ways, and the
    code still verifies. *)
Lemma code_verifies_within_ten_minutes_witness :
  (Ops.verifyCode asciiLower OpsDemo.getActiveOpsUser 2000 "carol@mercuryholdings.co"
     "481516"
     (Ops.requestVerificationCode asciiLower OpsDemo.isActiveOpsUser
        OpsDemo.sendVerificationEmail 1000 "481516" "Carol@MercuryHoldings.co" ∅).2).1
  = {| cr_success := true; cr_user := Some OpsDemo.carol; cr_error := None |}.
Proof.
  refine (proj1 (proj2 (proj2 (code_verifies_within_ten_minutes asciiLower
            OpsDemo.isActiveOpsUser OpsDemo.getActiveOpsUser
            OpsDemo.sendVerificationEmail 1000 2000 "481516"
            "Carol@MercuryHoldings.co" "carol@mercuryholdings.co" ∅ _) _)) _).
  - reflexivity.
  - reflexivity.
  - lia.
Defined.

Lemma code_is_single_use_witness :
  let r := Ops.verifyCode asciiLower OpsDemo.getActiveOpsUser 5000
             "carol@mercuryholdings.co" "481516" OpsDemo.codes in
  r.2 = delete (asciiLower "carol@mercuryholdings.co") OpsDemo.codes /\
  Ops.verifyCode asciiLower OpsDemo.getActiveOpsUser 6000 "CAROL@mercuryholdings.co"
    "481516" r.2
  = (codeError "No verification code found. Please request a new code.", r.2).
Proof.
  refine (code_is_single_use asciiLower OpsDemo.getActiveOpsUser 5000 6000
            "carol@mercuryholdings.co" "CAROL@mercuryholdings.co" "481516" "481516"
            OpsDemo.codes (OpsDemo.entry "481516" 600000) _ _ _).
  - reflexivity.
  - vm_compute. reflexivity.
  - left. reflexivity.
Defined.

Lemma wrong_codes_leave_the_code_valid_witness :
  fold_left (fun m c => (Ops.verifyCode asciiLower OpsDemo.getActiveOpsUser 5000
                           "carol@mercuryholdings.co" c m).2)
    ["000000"; "000001"; "000002"] OpsDemo.codes = OpsDemo.codes /\
  Forall (fun c => (Ops.verifyCode asciiLower OpsDemo.getActiveOpsUser 5000
                      "carol@mercuryholdings.co" c OpsDemo.codes).1
                   = codeError "Invalid verification code. Please try again.")
    ["000000"; "000001"; "000002"].
Proof.
  refine (wrong_codes_leave_the_code_valid asciiLower OpsDemo.getActiveOpsUser 5000
            "carol@mercuryholdings.co" ["000000"; "000001"; "000002"]
            OpsDemo.codes (OpsDemo.entry "481516" 600000) _ _ _).
  - vm_compute. reflexivity.
  - cbn. lia.
  - repeat constructor; discriminate.
Defined.

Lemma code_cleanup_changes_message_only_witness :
  (Ops.verifyCode asciiLower OpsDemo.getActiveOpsUser 700000 "carol@mercuryholdings.co"
     "481516" (Ops.cleanupExpiredCodes 650000 OpsDemo.codes)).1
  = codeError "No verification code found. Please request a new code." /\
  (Ops.verifyCode asciiLower OpsDemo.getActiveOpsUser 700000 "carol@mercuryholdings.co"
     "481516" OpsDemo.codes).1
  = codeError "Verification code has expired. Please request a new code.".
Proof.
  refine (proj2 (proj2 (proj2 (code_cleanup_changes_message_only asciiLower
            OpsDemo.getActiveOpsUser 650000 700000 "carol@mercuryholdings.co" "481516"
            OpsDemo.codes) _))).
  lia.
Defined.

(* ===================================================================== *)
(** ** Recordings *)
(* ===================================================================== *)

#[local] Instance newerRecordingFirst_total : Total newerRecordingFirst.
Proof. intros a b. unfold newerRecordingFirst. lia. Qed.

#[local] Instance newerRecordingFirst_trans : Transitive newerRecordingFirst.
Proof. intros a b c. unfold newerRecordingFirst. lia. Qed.

(** [id] is the primary key. *)
Lemma unique_recording_id (table : list Recording) (a b : Recording) :
  NoDup (rec_id <$> table) -> a ∈ table -> b ∈ table -> rec_id a = rec_id b -> a = b.
Proof.
  induction table as [|r table IH]; intros Hnd Ha Hb E; [inversion Ha|].
  rewrite fmap_cons in Hnd. apply NoDup_cons in Hnd as [Hr Hnd].
  apply elem_of_cons in Ha as [->|Ha]; apply elem_of_cons in Hb as [->|Hb].
  - reflexivity.
  - exfalso. apply Hr. rewrite E. apply list_elem_of_fmap. exists b. auto.
  - exfalso. apply Hr. rewrite <- E. apply list_elem_of_fmap. exists a. auto.
  - apply IH; assumption.
Qed.

Lemma first_match {A} (P : A -> Prop) `{forall x, Decision (P x)} (l rest : list A) (r : A) :
  take 1 (filter P l) = r :: rest -> r ∈ l /\ P r.
Proof.
  destruct (filter P l) as [|x l'] eqn:E; [discriminate|].
  cbn. intros Hx. injection Hx as -> _.
  assert (Hin : r ∈ filter P l) by (rewrite E; left).
  apply list_elem_of_filter in Hin. tauto.
Qed.

Lemma no_match {A} (P : A -> Prop) `{forall x, Decision (P x)} (l : list A) :
  take 1 (filter P l) = [] -> filter P l = [].
Proof. destruct (filter P l); [reflexivity|discriminate]. Qed.

Lemma filter_implied {A} (P Q : A -> Prop) `{forall x, Decision (P x)}
    `{forall x, Decision (Q x)} (l : list A) :
  (forall x, x ∈ l -> P x -> Q x) -> filter P (filter Q l) = filter P l.
Proof.
  induction l as [|x l IH]; intros Himp; [reflexivity|].
  assert (IH' : filter P (filter Q l) = filter P l)
    by (apply IH; intros y Hy; apply Himp; right; exact Hy).
  rewrite !filter_cons. destruct (decide (Q x)) as [Hq|Hq].
  - rewrite filter_cons. destruct (decide (P x)); rewrite IH'; reflexivity.
  - destruct (decide (P x)) as [Hp|Hp]; [|exact IH'].
    exfalso. apply Hq, Himp; [left|exact Hp].
Qed.

Lemma run_deleteRecording (w : World) (table : list Recording) (recordingId userId : Z) :
  dbAvailable w = true ->
  deleteRecording recordingId userId table w
  = (Ok match take 1 (filter (fun r => rec_id r = recordingId) table) with
        | [] => (false, table)
        | rec :: _ =>
            if negb (rec_recordedBy rec =? userId) then (false, table)
            else (true, filter (fun r => rec_id r <> recordingId) table)
        end, w).
Proof.
  intros Hdb. unfold deleteRecording, bind, getDb. rewrite Hdb. cbn [negb].
  destruct (take 1 (filter (fun r => rec_id r = recordingId) table)) as [|rec rest];
    [reflexivity|].
  destruct (negb (rec_recordedBy rec =? userId)); reflexivity.
Qed.

(** X26.  A recording is deleted by the user who recorded it and by nobody
    else.  [deleteRecording] answers true exactly when the database is there
    and the recording with the given id was recorded by the given user; it
    then removes that row and no other.  In every other case the table is
    left as it is.  So no call removes a recording of another user, the
    recordings that another user is shown by [getRecordingsForUser] are the
    same before and after, and once a recording is deleted, a further delete
    of it answers false for everybody and [getRecordingById] finds nothing. *)
Theorem recording_deleted_by_its_owner_only (w : World) (table : list Recording)
    (recordingId userId : Z) :
  NoDup (rec_id <$> table) ->
  exists deleted table',
    deleteRecording recordingId userId table w = (Ok (deleted, table'), w) /\
    (deleted = true <->
     dbAvailable w = true /\
     exists r, r ∈ table /\ rec_id r = recordingId /\ rec_recordedBy r = userId) /\
    (deleted = false -> table' = table) /\
    (deleted = true -> forall r, r ∈ table' <-> r ∈ table /\ rec_id r <> recordingId) /\
    (forall r, r ∈ table -> rec_recordedBy r <> userId -> r ∈ table') /\
    (forall other limit w2, other <> userId ->
       getRecordingsForUser other limit table' w2
       = getRecordingsForUser other limit table w2) /\
    (deleted = true -> forall anyone w2,
       deleteRecording recordingId anyone table' w2 = (Ok (false, table'), w2) /\
       getRecordingById recordingId table' w2 = (Ok None, w2)).
Proof.
  intros Hnd.
  destruct (dbAvailable w) eqn:Hdb.
  2:{ exists false, table. unfold deleteRecording, bind, getDb. rewrite Hdb.
      split; [reflexivity|]. split; [split; [discriminate|intros [? _]; discriminate]|].
      split; [reflexivity|]. split; [discriminate|]. split; [auto|].
      split; [reflexivity|discriminate]. }
  rewrite (run_deleteRecording w table recordingId userId Hdb).
  destruct (take 1 (filter (fun r => rec_id r = recordingId) table)) as [|rec rest] eqn:Hsel.
  - apply no_match in Hsel.
    exists false, table. split; [reflexivity|].
    split.
    { split; [discriminate|]. intros (_ & r & Hin & Hid & _). exfalso.
      assert (Hr : r ∈ filter (fun r => rec_id r = recordingId) table)
        by (apply list_elem_of_filter; auto).
      rewrite Hsel in Hr. inversion Hr. }
    split; [reflexivity|]. split; [discriminate|]. split; [auto|].
    split; [reflexivity|discriminate].
  - apply first_match in Hsel as [Hin Hid].
    destruct (rec_recordedBy rec =? userId) eqn:Hown; cbn [negb].
    + apply Z.eqb_eq in Hown.
      exists true, (filter (fun r => rec_id r <> recordingId) table).
      split; [reflexivity|].
      split; [split; [intros _; split; [reflexivity|]; exists rec; auto|reflexivity]|].
      split; [discriminate|].
      split; [intros _ r; rewrite list_elem_of_filter; tauto|].
      assert (Hothers : forall r, r ∈ table -> rec_recordedBy r <> userId ->
                                  rec_id r <> recordingId).
      { intros r Hr Hby E. apply Hby. rewrite <- Hown. f_equal.
        apply (unique_recording_id table); [assumption..|congruence]. }
      split; [intros r Hr Hby; apply list_elem_of_filter; auto|].
      split.
      * intros other limit w2 Hother. unfold getRecordingsForUser.
        rewrite (filter_implied (fun r => rec_recordedBy r = other)); [reflexivity|].
        intros r Hr Hby. apply Hothers; [exact Hr|congruence].
      * intros _ anyone w2.
        assert (Hgone : filter (fun r => rec_id r = recordingId)
                          (filter (fun r => rec_id r <> recordingId) table) = []).
        { destruct (filter (fun r => rec_id r = recordingId)
                      (filter (fun r => rec_id r <> recordingId) table))
            as [|r l'] eqn:E; [reflexivity|]. exfalso.
          assert (Hr : r ∈ filter (fun r => rec_id r = recordingId)
                         (filter (fun r => rec_id r <> recordingId) table))
            by (rewrite E; left).
          apply list_elem_of_filter in Hr as [Hrid Hr].
          apply list_elem_of_filter in Hr as [Hne _]. exact (Hne Hrid). }
        unfold deleteRecording, getRecordingById, bind, getDb, ret.
        rewrite Hgone. destruct (dbAvailable w2); split; reflexivity.
    + apply Z.eqb_neq in Hown.
      exists false, table. split; [reflexivity|].
      split.
      { split; [discriminate|]. intros (_ & r & Hr & Hrid & Hby). exfalso.
        apply Hown. rewrite <- Hby. f_equal.
        apply (unique_recording_id table); [assumption..|congruence]. }
      split; [reflexivity|]. split; [discriminate|]. split; [auto|].
      split; [reflexivity|discriminate].
Qed.

Lemma recording_deleted_by_its_owner_only_witness :
  exists deleted table',
    deleteRecording 2 7 RecDemo.table (Demo.world Connected false)
    = (Ok (deleted, table'), Demo.world Connected false) /\
    (deleted = true <->
     dbAvailable (Demo.world Connected false) = true /\
     exists r, r ∈ RecDemo.table /\ rec_id r = 2 /\ rec_recordedBy r = 7) /\
    (deleted = false -> table' = RecDemo.table) /\
    (deleted = true ->
     forall r, r ∈ table' <-> r ∈ RecDemo.table /\ rec_id r <> 2) /\
    (forall r, r ∈ RecDemo.table -> rec_recordedBy r <> 7 -> r ∈ table') /\
    (forall other limit w2, other <> 7 ->
       getRecordingsForUser other limit table' w2
       = getRecordingsForUser other limit RecDemo.table w2) /\
    (deleted = true -> forall anyone w2,
       deleteRecording 2 anyone table' w2 = (Ok (false, table'), w2) /\
       getRecordingById 2 table' w2 = (Ok None, w2)).
Proof.
  refine (recording_deleted_by_its_owner_only (Demo.world Connected false)
            RecDemo.table 2 7 _).
  apply (bool_decide_unpack _). vm_compute. reflexivity.
Defined.

(** alice cannot delete mallory's recording, and can delete her own. *)
Example demo_deleteRecording :
  outcome (deleteRecording 2 7 RecDemo.table (Demo.world Connected false))
  = Ok (false, RecDemo.table) /\
  outcome (deleteRecording 3 7 RecDemo.table (Demo.world Connected false))
  = Ok (true, [RecDemo.recording 1 7; RecDemo.recording 2 8]).
Proof. vm_compute. split; reflexivity. Qed.

(** X27.  Who is shown which recordings.  recording.list shows the caller
    recordings of the table that the caller recorded, and no others, newest
    first and at most [limit] of them (50 when no limit is given).
    recording.forSession refuses whoever is not the host of the addressed
    session, and shows the host every recording filed under the session's
    string id, whoever recorded it.  Neither changes the sessions. *)
Theorem recordings_read_by_owner_and_host (c : Ctx) (w : World) (u : User)
    (table : list Recording) (input : option Z) (sid : string) :
  user c = Some u ->
  dbAvailable w = true ->
  (exists l,
      recording_list c input table w = (Ok l, w) /\
      StronglySorted newerRecordingFirst l /\
      (forall r, r ∈ l -> r ∈ table /\ rec_recordedBy r = user_id u) /\
      (length l <= Z.to_nat (from_option (fun x => x) 50%Z input))%nat) /\
  sessions (after (recording_forSession c sid table w)) = sessions w /\
  match sessions w !! sid with
  | Some s =>
      if differs (hostUserId s) (user_id u)
      then outcome (recording_forSession c sid table w) = Err NotFoundOrUnauthorized
      else exists l,
          outcome (recording_forSession c sid table w) = Ok l /\
          StronglySorted newerRecordingFirst l /\
          l ≡ₚ filter (fun r => rec_sessionStringId r = sid) table
  | None => outcome (recording_forSession c sid table w) = Err NotFoundOrUnauthorized
  end.
Proof.
  intros Hu Hdb. split.
  - unfold recording_list, protectedProcedure, getRecordingsForUser, bind, getDb.
    rewrite Hu, Hdb. cbn [negb]. eexists. split; [reflexivity|].
    set (sorted := merge_sort newerRecordingFirst
                     (filter (fun r => rec_recordedBy r = user_id u) table)).
    assert (Hsorted : StronglySorted newerRecordingFirst sorted)
      by (apply StronglySorted_merge_sort; apply _).
    split.
    { rewrite <- (take_drop (Z.to_nat (from_option (fun x => x) 50 input)) sorted)
        in Hsorted.
      apply StronglySorted_app_1_l in Hsorted. exact Hsorted. }
    split; [|rewrite length_take; lia].
    intros r Hin. apply elem_of_take in Hin as (i & Hi & _).
    apply list_elem_of_lookup_2 in Hi. unfold sorted in Hi.
    rewrite merge_sort_Permutation in Hi. apply list_elem_of_filter in Hi. tauto.
  - unfold recording_forSession, protectedProcedure, bind, outcome, after.
    rewrite Hu, (run_getSessionBySessionId w Hdb).
    destruct (sessions w !! sid) as [s|]; [|split; reflexivity].
    destruct (differs (hostUserId s) (user_id u)); [split; reflexivity|].
    unfold getRecordingsForSession, bind, getDb. cbn [dbAvailable record].
    rewrite Hdb. cbn [negb]. split; [reflexivity|].
    eexists. split; [reflexivity|].
    split; [apply StronglySorted_merge_sort; apply _|apply merge_sort_Permutation].
Qed.

Lemma recordings_read_by_owner_and_host_witness :
  exists l,
    outcome (recording_forSession (Demo.request (Some Demo.alice) 50) Demo.sid
               RecDemo.table (Demo.world Connected false)) = Ok l /\
    StronglySorted newerRecordingFirst l /\
    l ≡ₚ filter (fun r => rec_sessionStringId r = Demo.sid) RecDemo.table.
Proof.
  exact (proj2 (proj2 (recordings_read_by_owner_and_host
                         (Demo.request (Some Demo.alice) 50) (Demo.world Connected false)
                         Demo.alice RecDemo.table None Demo.sid eq_refl eq_refl))).
Defined.

Example demo_recording_list :
  outcome (recording_list (Demo.request (Some Demo.alice) 50) (Some 1) RecDemo.table
             (Demo.world Connected false)) = Ok [RecDemo.recording 3 7] /\
  outcome (recording_list (Demo.request (Some Demo.mallory) 50) None RecDemo.table
             (Demo.world Connected false)) = Ok [RecDemo.recording 2 8] /\
  outcome (recording_forSession (Demo.request (Some Demo.mallory) 50) Demo.sid
             RecDemo.table (Demo.world Connected false)) = Err NotFoundOrUnauthorized.
Proof. vm_compute. repeat split; reflexivity. Qed.

(* ===================================================================== *)
(** ** Cookies *)
(* ===================================================================== *)

Lemma splitOn_nonempty (sep : ascii) (s : string) : splitOn sep s <> [].
Proof.
  destruct s as [|c rest]; cbn; [discriminate|].
  destruct (Ascii.eqb c sep); [discriminate|].
  destruct (splitOn sep rest); discriminate.
Qed.

Lemma splitOn_whole (sep : ascii) (s : string) :
  lacks sep s = true -> splitOn sep s = [s].
Proof.
  induction s as [|c rest IH]; [reflexivity|].
  unfold lacks. cbn [splitOn allChars]. intros H.
  apply andb_true_iff in H as [Hc Hrest].
  apply negb_true_iff in Hc. rewrite Hc, (IH Hrest). reflexivity.
Qed.

Lemma append_empty (b : string) : EmptyString +:+ b = b.
Proof. reflexivity. Qed.

Lemma append_cons (c : ascii) (a b : string) : String c a +:+ b = String c (a +:+ b).
Proof. reflexivity. Qed.

Lemma append_assoc (a b c : string) : a +:+ b +:+ c = (a +:+ b) +:+ c.
Proof. induction a as [|x a IH]; [reflexivity|]. rewrite !append_cons, IH. reflexivity. Qed.

Lemma splitOn_app (sep : ascii) (s1 s2 : string) :
  lacks sep s1 = true ->
  splitOn sep (s1 +:+ String sep s2) = s1 :: splitOn sep s2.
Proof.
  induction s1 as [|c rest IH]; unfold lacks;
    rewrite ?append_empty, ?append_cons; cbn [splitOn allChars].
  - intros _. rewrite Ascii.eqb_refl. reflexivity.
  - intros H. apply andb_true_iff in H as [Hc Hrest].
    apply negb_true_iff in Hc. rewrite Hc, (IH Hrest). reflexivity.
Qed.

Lemma joinWith_cons (sep c : ascii) (piece : string) (pieces : list string) :
  joinWith sep (String c piece :: pieces) = String c (joinWith sep (piece :: pieces)).
Proof. destruct pieces; reflexivity. Qed.

Lemma joinWith_splitOn (sep : ascii) (s : string) : joinWith sep (splitOn sep s) = s.
Proof.
  induction s as [|c rest IH]; [reflexivity|]. cbn [splitOn].
  destruct (Ascii.eqb c sep) eqn:E.
  - apply Ascii.eqb_eq in E. subst c.
    destruct (splitOn sep rest) as [|piece pieces] eqn:Hs;
      [exfalso; exact (splitOn_nonempty _ _ Hs)|].
    cbn [joinWith]. rewrite <- IH. reflexivity.
  - destruct (splitOn sep rest) as [|piece pieces] eqn:Hs;
      [exfalso; exact (splitOn_nonempty _ _ Hs)|].
    rewrite joinWith_cons, IH. reflexivity.
Qed.

Lemma trimEnd_clean (s : string) : blank (lastChar s) = false -> trimEnd s = s.
Proof.
  induction s as [|c rest IH]; [reflexivity|].
  destruct rest as [|c' rest'].
  - cbn. intros ->. reflexivity.
  - intros H. change (lastChar (String c (String c' rest'))) with (lastChar (String c' rest')) in H.
    cbn [trimEnd] in *. rewrite (IH H). reflexivity.
Qed.

Lemma trimStart_clean (s : string) : blank (firstChar s) = false -> trimStart s = s.
Proof. destruct s as [|c rest]; cbn; [reflexivity|]. intros ->. reflexivity. Qed.

Lemma lacks_append (sep : ascii) (a b : string) :
  lacks sep (a +:+ b) = lacks sep a && lacks sep b.
Proof.
  induction a as [|c rest IH]; [reflexivity|].
  rewrite append_cons. unfold lacks in *. cbn [allChars].
  rewrite IH, andb_assoc. reflexivity.
Qed.

Lemma lastChar_app (a : string) (c : ascii) (b : string) :
  lastChar (a +:+ String c b) = lastChar (String c b).
Proof.
  induction a as [|x rest IH]; [reflexivity|].
  rewrite append_cons. destruct rest as [|y rest]; [exact IH|].
  rewrite append_cons in *. exact IH.
Qed.

Section Cookie.
Variable p : string * string.
Hypothesis Hp : wellFormedCookie p = true.

Lemma cookie_parts :
  p.1 <> EmptyString /\ lacks ";" p.1 = true /\ lacks "=" p.1 = true /\
  blank (firstChar p.1) = false /\ lacks ";" p.2 = true /\ blank (lastChar p.2) = false.
Proof.
  unfold wellFormedCookie in Hp.
  repeat (apply andb_true_iff in Hp as [Hp ?]).
  repeat match goal with H : negb _ = true |- _ => apply negb_true_iff in H end.
  apply String.eqb_neq in Hp. tauto.
Qed.

Lemma cookiePair_one_piece : lacks ";" (cookiePair p) = true.
Proof.
  destruct cookie_parts as (_ & H1 & _ & _ & H2 & _).
  unfold cookiePair. rewrite lacks_append, H1. cbn. exact H2.
Qed.

Lemma trim_cookiePair (lead : bool) :
  trim ((if lead then String " " EmptyString else EmptyString) +:+ cookiePair p)
  = cookiePair p.
Proof.
  destruct cookie_parts as (Hne & _ & _ & Hfirst & _ & Hlast).
  assert (Hs : trimStart ((if lead then String " " EmptyString else EmptyString)
                            +:+ cookiePair p) = cookiePair p).
  { assert (H0 : trimStart (cookiePair p) = cookiePair p).
    { apply trimStart_clean. unfold cookiePair. destruct (p.1); [congruence|exact Hfirst]. }
    destruct lead; exact H0. }
  unfold trim. rewrite Hs. apply trimEnd_clean.
  unfold cookiePair. rewrite lastChar_app.
  destruct (p.2) as [|c rest]; [reflexivity|exact Hlast].
Qed.

Lemma setCookie_cookiePair (lead : bool) (m : gmap string string) :
  setCookie m ((if lead then String " " EmptyString else EmptyString) +:+ cookiePair p)
  = <[p.1 := p.2]> m.
Proof.
  destruct cookie_parts as (Hne & _ & Heq & _).
  unfold setCookie. rewrite trim_cookiePair. unfold cookiePair.
  rewrite (splitOn_app "=" _ _ Heq), joinWith_splitOn.
  apply String.eqb_neq in Hne. rewrite Hne. reflexivity.
Qed.

End Cookie.

Lemma fold_cookieHeaderOf (l : list (string * string)) :
  Forall (fun p => wellFormedCookie p = true) l -> l <> [] ->
  forall (lead : bool) (m : gmap string string),
    fold_left setCookie
      (splitOn ";" ((if lead then String " " EmptyString else EmptyString)
                      +:+ cookieHeaderOf l)) m
    = fold_left (fun m p => <[p.1 := p.2]> m) l m.
Proof.
  induction 1 as [|p rest Hp Hrest IH]; [congruence|]. intros _ lead m.
  destruct rest as [|q rest].
  - cbn [cookieHeaderOf fold_left].
    rewrite splitOn_whole.
    + cbn [fold_left]. apply setCookie_cookiePair. exact Hp.
    + rewrite lacks_append, (cookiePair_one_piece p Hp). destruct lead; reflexivity.
  - change (cookieHeaderOf (p :: q :: rest))
      with (cookiePair p +:+ String ";" (String " " EmptyString +:+ cookieHeaderOf (q :: rest))).
    rewrite append_assoc, splitOn_app.
    + cbn [fold_left]. rewrite (setCookie_cookiePair p Hp).
      exact (IH ltac:(discriminate) true _).
    + rewrite lacks_append, (cookiePair_one_piece p Hp). destruct lead; reflexivity.
Qed.

Lemma fold_insert_rev (l : list (string * string)) :
  fold_left (fun (m : gmap string string) p => <[p.1 := p.2]> m) l ∅ = list_to_map (rev l).
Proof.
  induction l as [|p l IH] using rev_ind; [reflexivity|].
  rewrite fold_left_app, rev_app_distr, IH. reflexivity.
Qed.

(** X28.  [parseCookies] reads back the header of a list of cookies, and of
    two cookies with one name the later one is kept.  For cookies whose names
    are not empty, hold no [;] and no [=] and do not begin with white space,
    and whose values hold no [;] and do not end with white space (a [=] in a
    value is kept), sent as [name=value] joined by a semicolon and a space,
    the map that [parseCookies] returns is the one obtained by storing the
    cookies in the order of the header, so that [get] answers with the value
    of the last cookie of that name. *)
Theorem cookies_round_trip (l : list (string * string)) :
  Forall (fun p => wellFormedCookie p = true) l ->
  parseCookies (Some (cookieHeaderOf l)) = list_to_map (rev l) /\
  (forall p, last l = Some p -> parseCookies (Some (cookieHeaderOf l)) !! p.1 = Some p.2).
Proof.
  intros Hl.
  assert (Hparse : parseCookies (Some (cookieHeaderOf l)) = list_to_map (rev l)).
  { destruct l as [|p rest]; [reflexivity|].
    rewrite <- fold_insert_rev,
      <- (fold_cookieHeaderOf (p :: rest) Hl ltac:(discriminate) false ∅).
    unfold parseCookies. rewrite append_empty.
    destruct (cookieHeaderOf (p :: rest)) eqn:E; [|reflexivity].
    reflexivity. }
  split; [exact Hparse|].
  intros p Hlast. rewrite Hparse.
  destruct l as [|q rest] using rev_ind; [discriminate|].
  rewrite last_snoc in Hlast. injection Hlast as ->.
  rewrite rev_app_distr. cbn. apply lookup_insert_eq.
Qed.

Lemma cookies_round_trip_witness :
  parseCookies (Some "session=good; theme=a=b; session=evil") !! "session" = Some "evil".
Proof.
  assert (H : Forall (fun p => wellFormedCookie p = true) CookieDemo.cookies)
    by (repeat constructor).
  exact (proj2 (cookies_round_trip CookieDemo.cookies H) ("session", "evil") eq_refl).
Defined.

Example demo_parseCookies :
  parseCookies (Some "  a = 1 ;b;=c; d==;;e=") !! "a " = Some " 1" /\
  parseCookies (Some "  a = 1 ;b;=c; d==;;e=") !! "b" = Some EmptyString /\
  parseCookies (Some "  a = 1 ;b;=c; d==;;e=") !! "d" = Some "=" /\
  parseCookies (Some "  a = 1 ;b;=c; d==;;e=") !! "e" = Some EmptyString /\
  parseCookies (Some "  a = 1 ;b;=c; d==;;e=") !! EmptyString = None /\
  parseCookies (Some EmptyString) = ∅ /\ parseCookies None = ∅.
Proof. vm_compute. repeat split; reflexivity. Qed.
